(** * The minimal AI Calling Agent application (src/minimal_app.py)

    A shallow embedding of the request handlers of [minimal_app.py]:
    document upload, listing and deletion over the two directories
    [app/uploads] and [app/knowledge], the knowledge question endpoint and
    the call simulation endpoint.

    - Python [str] values are [string]s (byte strings; every character the
      handlers inspect is ASCII, and [lower] maps no other character to one
      of the letters of the allowed extensions).
    - The two directories are one flat name space of files, a
      [gmap string file] keyed by the path the handler passes to [open],
      [os.path.exists] and [os.remove]. Paths are compared as strings:
      directories, links and [..] components are outside the model.
    - Whether [open(path, "wb")] succeeds is the operating system's answer,
      the parameter [creatable]. In [upload_document] and
      [delete_document] a file that is opened is written in full, and
      reading and removing an existing file succeed; the module [Os] has
      the two handlers under an operating system that can fail at every
      one of these calls.
    - [int(time.time())] is an argument of the handler that reads the clock.
    - An [HTTPException] is the [Raise] outcome of a handler; the text of
      the caught exception, which the source appends to the detail of a
      500, is left out.
    - The order in which the glob enumerates a directory is unspecified:
      the listing handler takes the enumeration as an argument, and the
      theorems hold for every permutation of it.
    - The theorems on listing and deletion are stated over the stores in
      which every metadata file was written by [upload_document]
      ([wf_store]), which is where every run of the handlers from the
      empty store stays ([wf_run]). *)

From Stdlib Require Import ZArith Strings.String Strings.Ascii.
From Stdlib Require Import Numbers.DecimalString Numbers.DecimalZ.
From Stdlib Require Import Sorting.Sorted Sorting.Permutation.
From stdpp Require Import gmap strings list fin_maps.

Open Scope string_scope.
Open Scope Z_scope.

(** ** Python strings *)

Module PyStr.

(** [s[:n]] and [s[n:]] for [0 <= n]. *)
Fixpoint take (n : nat) (s : string) : string :=
  match n, s with
  | S n', String a s' => String a (take n' s')
  | _, _ => ""
  end.

Fixpoint drop (n : nat) (s : string) : string :=
  match n, s with
  | S n', String _ s' => drop n' s'
  | _, _ => s
  end.

Fixpoint rfind_from (c : ascii) (s : string) (i last : Z) : Z :=
  match s with
  | "" => last
  | String a s' => rfind_from c s' (i + 1) (if Ascii.eqb a c then i else last)
  end.

(** [s.rfind(c)] for a one-character [c]: the index of the last
    occurrence, [-1] when there is none. *)
Definition rfind (c : ascii) (s : string) : Z := rfind_from c s 0 (-1).

Definition is_upper (a : ascii) : bool :=
  let n := nat_of_ascii a in (65 <=? n)%nat && (n <=? 90)%nat.

Definition lower_char (a : ascii) : ascii :=
  if is_upper a then ascii_of_nat (nat_of_ascii a + 32) else a.

Fixpoint map_chars (f : ascii -> ascii) (s : string) : string :=
  match s with
  | "" => ""
  | String a s' => String (f a) (map_chars f s')
  end.

(** [s.lower()] on ASCII letters. *)
Definition lower (s : string) : string := map_chars lower_char s.

(** [s.replace(a, b)] for one-character [a] and [b]. *)
Definition replace (a b : ascii) (s : string) : string :=
  map_chars (fun c => if Ascii.eqb c a then b else c) s.

(** [s.split(c)[0]]: what stands before the first [c], all of [s] when
    [c] does not occur. *)
Fixpoint split_head (c : ascii) (s : string) : string :=
  match s with
  | "" => ""
  | String a s' => if Ascii.eqb a c then "" else String a (split_head c s')
  end.

Fixpoint contains (c : ascii) (s : string) : bool :=
  match s with
  | "" => false
  | String a s' => Ascii.eqb a c || contains c s'
  end.

Fixpoint all_chars (f : ascii -> bool) (s : string) : bool :=
  match s with
  | "" => true
  | String a s' => f a && all_chars f s'
  end.

Fixpoint startswith (pre s : string) : bool :=
  match pre, s with
  | "", _ => true
  | String a pre', String b s' => Ascii.eqb a b && startswith pre' s'
  | String _ _, "" => false
  end.

Definition endswith (suf s : string) : bool :=
  String.eqb (drop (String.length s - String.length suf) s) suf
  && (String.length suf <=? String.length s)%nat.

(** [str(n)] for an [int]. *)
Definition str (n : Z) : string := NilEmpty.string_of_int (Z.to_int n).

(** The characters of a decimal numeral. *)
Definition numeral_char (a : ascii) : bool :=
  let n := nat_of_ascii a in ((48 <=? n)%nat && (n <=? 57)%nat) || (n =? 45)%nat.

End PyStr.

(** ** [os.path] and [pathlib] (POSIX flavour) *)

Module OsPath.
Import PyStr.

(** [genericpath._splitext] with [sep = "/"], no [altsep] and
    [extsep = "."]: the extension starts at the last dot of the last
    path component, unless only dots stand before it in that component. *)
Definition splitext (p : string) : string * string :=
  let sepIndex := rfind "/" p in
  let dotIndex := rfind "." p in
  if sepIndex <? dotIndex then
    let leading :=
      take (Z.to_nat (dotIndex - (sepIndex + 1))) (drop (Z.to_nat (sepIndex + 1)) p) in
    if all_chars (fun a => Ascii.eqb a ".") leading
    then (p, "")
    else (take (Z.to_nat dotIndex) p, drop (Z.to_nat dotIndex) p)
  else (p, "").

(** [os.path.join(a, b)] for two components. *)
Definition join (a b : string) : string :=
  if startswith "/" b then b
  else if String.eqb a "" || endswith "/" a then a ++ b
  else a ++ "/" ++ b.

(** [PurePath.name]: the last path component. *)
Definition name (p : string) : string := drop (Z.to_nat (rfind "/" p + 1)) p.

(** [PurePath.stem]: the name without its last suffix. *)
Definition stem (p : string) : string :=
  let n := name p in
  let i := rfind "." n in
  if (0 <? i) && (i <? Z.of_nat (String.length n) - 1)
  then take (Z.to_nat i) n
  else n.

(** [PurePath.parent] of a relative path with at least one separator. *)
Definition parent (p : string) : string := take (Z.to_nat (rfind "/" p)) p.

End OsPath.

(** ** JSON values, dictionaries and files *)

(** The values the handlers put in, and read out of, a metadata record. *)
Inductive jvalue : Type :=
| JStr (s : string)
| JInt (n : Z).

(** A Python [dict] with string keys, in insertion order. *)
Definition pydict (V : Type) : Type := list (string * V).

(** [d[k]]; [None] stands for [KeyError]. *)
Fixpoint dict_get {V : Type} (k : string) (d : pydict V) : option V :=
  match d with
  | [] => None
  | (k', v) :: d' => if String.eqb k' k then Some v else dict_get k d'
  end.

(** [d[k] = v]: an existing key keeps its place, a new one goes last. *)
Fixpoint dict_set {V : Type} (k : string) (v : V) (d : pydict V) : pydict V :=
  match d with
  | [] => [(k, v)]
  | (k', v') :: d' =>
      if String.eqb k' k then (k, v) :: d' else (k', v') :: dict_set k v d'
  end.

Definition keys {V : Type} (d : pydict V) : list string := d.*1.

(** A metadata record. *)
Abbreviation dict := (pydict jvalue).

(** A file is what [shutil.copyfileobj] wrote (the uploaded bytes) or what
    [json.dump] wrote (a dictionary); [json.load] raises on the former. *)
Inductive file : Type :=
| FBytes (data : list Byte.byte)
| FJson (d : dict).

(** The files under [app/], by path. *)
Abbreviation store := (gmap string file).

Definition exists_ (st : store) (p : string) : bool :=
  bool_decide (is_Some (st !! p)).

(** [os.path.getsize]. A JSON file has a size too, which no handler asks
    for; [None] stands for the [OSError] of a missing file. *)
Definition getsize (st : store) (p : string) : option Z :=
  match st !! p with
  | Some (FBytes data) => Some (Z.of_nat (length data))
  | _ => None
  end.

(** [json.load(open(p))]; [None] stands for the exception raised when the
    file is missing or is not JSON. *)
Definition json_load (st : store) (p : string) : option dict :=
  match st !! p with
  | Some (FJson d) => Some d
  | _ => None
  end.

(** ** Outcomes of a request handler *)

Inductive outcome (A : Type) : Type :=
| Return (body : A)
| Raise (status_code : Z) (detail : string)   (* raise HTTPException(...) *)
| Uncaught.                                    (* an exception no handler catches *)

Arguments Return {A} body.
Arguments Raise {A} status_code detail.
Arguments Uncaught {A}.

(** ** The request handlers *)

Record UploadFile : Type := {
  filename : string;
  file_data : list Byte.byte
}.

Record upload_response : Type := {
  up_status : string;
  up_message : string;
  document_id : string;
  up_filename : string;
  up_category : string;
  processing : bool
}.

(** One entry of the listing; the values are copied from the metadata
    record as they are. *)
Record document : Type := {
  id : string;
  doc_filename : jvalue;
  doc_description : jvalue;
  doc_category : jvalue;
  doc_upload_time : jvalue;
  doc_size : jvalue;
  doc_extension : jvalue
}.

(** The body of a completed call simulation. *)
Record call_result : Type := {
  call_id : string;
  call_status : string;
  phone_number : string;
  language : string;
  engine : string;
  duration : Z;
  call_message : string
}.

(** What a handler does besides answering. *)
Inductive effect : Type :=
| Sleep (seconds : Z).

(** A value of an answer dictionary: a string, or whatever else the
    knowledge base stores there (a confidence, a list of sources). *)
Inductive answer_value (V : Type) : Type :=
| AStr (s : string)
| AOther (v : V).

Arguments AStr {V} s.
Arguments AOther {V} v.

(** The interface [minimal_app.py] uses of the object returned by
    [app.document_processor.get_document_processor()]. The module is not
    part of the sources, so the handlers are stated over every
    implementation of it; [P] is the processor's state and [V] the type
    of the values it puts in an answer. *)
Class DocumentProcessor (P V : Type) : Type := {
  (** the attribute [processed_knowledge], which the handler only tests
      for emptiness; the keys of the mapping suffice *)
  processed_knowledge : P -> list string;
  process_all_documents : P -> P;
  get_answer_from_knowledge_base : string -> P -> pydict (answer_value V) * P
}.

Definition allowed_extensions : list string :=
  [".pdf"; ".docx"; ".xlsx"; ".xls"; ".csv"; ".txt"].

(** [os.path.splitext(file.filename)[1].lower()] *)
Definition file_ext (fname : string) : string :=
  PyStr.lower (OsPath.splitext fname).2.

(** [f"{timestamp}_{file.filename.replace(' ', '_')}"] *)
Definition safe_filename (timestamp : Z) (fname : string) : string :=
  PyStr.str timestamp ++ "_" ++ PyStr.replace " " "_" fname.

Definition upload_path (timestamp : Z) (fname : string) : string :=
  OsPath.join "app/uploads" (safe_filename timestamp fname).

(** [os.path.join("app/knowledge", f"{document_id}_metadata.json")] *)
Definition metadata_path (document_id : string) : string :=
  OsPath.join "app/knowledge" (document_id ++ "_metadata.json").

(** [Path("app/knowledge").glob("*_metadata.json")] yields the entries of
    the directory whose name ends in [_metadata.json]. *)
Definition glob_match (p : string) : bool :=
  String.eqb (OsPath.parent p) "app/knowledge"
  && PyStr.endswith "_metadata.json" (OsPath.name p).

(** The matching entries in one enumeration order. [os.scandir] promises no
    order: the listing handler takes the enumeration as an argument. *)
Definition knowledge_glob (st : store) : list string :=
  filter (fun p => glob_match p = true) ((map_to_list st).*1).

(** The comparison [list.sort] makes between two keys; [None] stands for
    the [TypeError] of comparing an [int] with a [str]. *)
Definition py_lt (a b : jvalue) : option bool :=
  match a, b with
  | JInt x, JInt y => Some (x <? y)
  | JStr s, JStr t => Some (String.ltb s t)
  | _, _ => None
  end.

(** [documents.sort(key=lambda x: x["upload_time"], reverse=True)]:
    a stable sort into descending order, written as the insertion sort
    that keeps an entry before the later entries of the same key. *)
Fixpoint sort_insert (x : document) (l : list document) : option (list document) :=
  match l with
  | [] => Some [x]
  | y :: l' =>
      match py_lt (doc_upload_time x) (doc_upload_time y) with
      | None => None
      | Some true => option_map (cons y) (sort_insert x l')
      | Some false => Some (x :: l)
      end
  end.

Fixpoint sort_newest_first (l : list document) : option (list document) :=
  match l with
  | [] => Some []
  | x :: l' =>
      match sort_newest_first l' with
      | None => None
      | Some s => sort_insert x s
      end
  end.

(** The body of the [try] in the listing loop. The outer [None] is an
    exception (the entry is reported and skipped), [Some None] a record
    whose content file is gone, [Some (Some d)] an appended entry. A
    ["path"] that is not a string goes with the exceptions: what
    [os.path.exists] answers on a number depends on the process's file
    descriptors (the source lists the record when the number is an open
    one), and [upload_document] writes strings only. *)
Definition read_entry (st : store) (metadata_file : string) : option (option document) :=
  match json_load st metadata_file with
  | None => None
  | Some metadata =>
      match dict_get "path" metadata with
      | Some (JStr path) =>
          if exists_ st path then
            match dict_get "filename" metadata, dict_get "description" metadata,
                  dict_get "category" metadata, dict_get "upload_time" metadata,
                  dict_get "size" metadata, dict_get "extension" metadata with
            | Some f, Some d, Some c, Some t, Some s, Some e =>
                Some (Some {| id := PyStr.split_head "_" (OsPath.stem metadata_file);
                              doc_filename := f; doc_description := d;
                              doc_category := c; doc_upload_time := t;
                              doc_size := s; doc_extension := e |})
            | _, _, _, _, _, _ => None
            end
          else Some None
      | _ => None
      end
  end.

Definition collect (st : store) (metadata_files : list string) : list document :=
  omap (fun f => mjoin (read_entry st f)) metadata_files.

Section Handlers.

(** Whether the operating system lets a path be opened for writing. *)
Variable creatable : string -> bool.

(** Set once, when the module is imported. *)
Variable DOCUMENT_PROCESSOR_AVAILABLE : bool.

(** [POST /api/upload/document]. The second component lists the
    background tasks the request adds, by the path they process. *)
Definition upload_document (now : Z) (file : UploadFile)
    (description : option string) (category : string) (st : store)
  : outcome upload_response * list string * store :=
  let file_ext := file_ext (filename file) in
  if negb (bool_decide (file_ext ∈ allowed_extensions)) then
    (Raise 400 ("Unsupported file type. Allowed types: "
                ++ String.concat ", " allowed_extensions), [], st)
  else
    let timestamp := now in
    let safe_filename := safe_filename timestamp (filename file) in
    let file_path := OsPath.join "app/uploads" safe_filename in
    if negb (creatable file_path) then
      (Raise 500 "Failed to save file", [], st)
    else
      let st1 := <[file_path := FBytes (file_data file)]> st in
      match getsize st1 file_path with
      | None => (Uncaught, [], st1)
      | Some size =>
          let metadata : dict :=
            [("filename", JStr (filename file));
             ("stored_filename", JStr safe_filename);
             ("path", JStr file_path);
             ("description", JStr (default "" description));
             ("category", JStr category);
             ("upload_time", JInt timestamp);
             ("size", JInt size);
             ("extension", JStr file_ext)] in
          let metadata_path :=
            OsPath.join "app/knowledge" (PyStr.str timestamp ++ "_metadata.json") in
          if negb (creatable metadata_path) then (Uncaught, [], st1)
          else
            let st2 := <[metadata_path := FJson metadata]> st1 in
            (Return {| up_status := "success";
                       up_message := "Document uploaded successfully";
                       document_id := PyStr.str timestamp;
                       up_filename := filename file;
                       up_category := category;
                       processing := DOCUMENT_PROCESSOR_AVAILABLE |},
             if DOCUMENT_PROCESSOR_AVAILABLE then [file_path] else [],
             st2)
      end.

(** [GET /api/documents], over the enumeration [metadata_files] of the
    glob. The store is only read. *)
Definition get_documents (metadata_files : list string) (st : store)
  : outcome (list document) :=
  match sort_newest_first (collect st metadata_files) with
  | Some documents => Return documents
  | None => Uncaught
  end.

(** [DELETE /api/documents/{document_id}]; the answer is the message of
    the response body. The second [os.remove] raises when the first one
    removed the metadata file itself. A ["path"] that is a number is
    taken for an open descriptor, which [os.remove] refuses;
    [Os.delete_document] has the other case. *)
Definition delete_document (document_id : string) (st : store)
  : outcome string * store :=
  let metadata_path := metadata_path document_id in
  if negb (exists_ st metadata_path) then
    (Raise 404 "Document not found", st)
  else
    match json_load st metadata_path with
    | None => (Raise 500 "Failed to delete document", st)
    | Some metadata =>
        match dict_get "path" metadata with
        | Some (JStr path) =>
            let st1 := if exists_ st path then delete path st else st in
            if exists_ st1 metadata_path then
              (Return "Document deleted successfully", delete metadata_path st1)
            else (Raise 500 "Failed to delete document", st1)
        | _ => (Raise 500 "Failed to delete document", st)
        end
    end.

(** [POST /api/call/simulate]. [now] is the clock read once the sleep is
    over. *)
Definition simulate_call (now : Z) (phone_number language engine : string)
  : list effect * outcome call_result :=
  if negb (bool_decide (language ∈ ["en"; "hi"; "mr"; "te"])) then
    ([], Raise 400 "Unsupported language")
  else if negb (bool_decide (engine ∈ ["auto"; "google"; "indic"])) then
    ([], Raise 400 "Unsupported TTS engine")
  else
    ([Sleep 1],
     Return {| call_id := "sim-" ++ PyStr.str now;
               call_status := "completed";
               phone_number := phone_number;
               language := language;
               engine := engine;
               duration := 15;
               call_message :=
                 "Call simulation completed successfully using " ++ engine
                 ++ " TTS engine in " ++ language ++ " language." |}).

(** [POST /api/knowledge/question]. [document_processor] is bound only
    when the import succeeded; the handler returns before it reads the
    name otherwise. *)
Definition answer_question {P V : Type} `{!DocumentProcessor P V}
    (question language : string) (document_processor : P)
  : outcome (pydict (answer_value V)) * P :=
  if negb DOCUMENT_PROCESSOR_AVAILABLE then
    (Raise 400 "Document processor not available", document_processor)
  else
    let document_processor :=
      if bool_decide (processed_knowledge document_processor = [])
      then process_all_documents document_processor
      else document_processor in
    let '(result, document_processor) :=
      get_answer_from_knowledge_base question document_processor in
    let result := dict_set "question" (AStr question) result in
    let result := dict_set "language" (AStr language) result in
    (Return result, document_processor).

End Handlers.

(** ** Stores written by the handlers *)

(** What an upload request contributes to its metadata record. *)
Record upload_fields : Type := {
  uf_filename : string;
  uf_description : string;
  uf_category : string;
  uf_size : Z;
  uf_extension : string
}.

(** The metadata record [upload_document] writes at [timestamp]. *)
Definition metadata_of (timestamp : Z) (u : upload_fields) : dict :=
  [("filename", JStr (uf_filename u));
   ("stored_filename", JStr (safe_filename timestamp (uf_filename u)));
   ("path", JStr (upload_path timestamp (uf_filename u)));
   ("description", JStr (uf_description u));
   ("category", JStr (uf_category u));
   ("upload_time", JInt timestamp);
   ("size", JInt (uf_size u));
   ("extension", JStr (uf_extension u))].

(** The listing entry of that record. *)
Definition listed (timestamp : Z) (u : upload_fields) : document :=
  {| id := PyStr.str timestamp;
     doc_filename := JStr (uf_filename u);
     doc_description := JStr (uf_description u);
     doc_category := JStr (uf_category u);
     doc_upload_time := JInt timestamp;
     doc_size := JInt (uf_size u);
     doc_extension := JStr (uf_extension u) |}.

(** Every metadata file of the store was written by [upload_document]:
    it is named after a timestamp and holds the record of an upload made
    at that timestamp. *)
Definition wf_store (st : store) : Prop :=
  forall (document_id : string) (f : file),
    st !! metadata_path document_id = Some f ->
    exists (ts : Z) (u : upload_fields),
      document_id = PyStr.str ts /\ f = FJson (metadata_of ts u).

(** The order of the listing: the earlier entry is not older. *)
Definition newest_first (a b : document) : Prop :=
  exists x y : Z,
    doc_upload_time a = JInt x /\ doc_upload_time b = JInt y /\ y <= x.

Definition int_key (d : document) : Prop :=
  exists n : Z, doc_upload_time d = JInt n.

(** The requests that change the store. *)
Inductive request : Type :=
| Upload (now : Z) (file : UploadFile) (description : option string) (category : string)
| Delete (document_id : string).

Section Runs.

Variable creatable : string -> bool.
Variable DOCUMENT_PROCESSOR_AVAILABLE : bool.

Definition handle (st : store) (r : request) : store :=
  match r with
  | Upload now file description category =>
      (upload_document creatable DOCUMENT_PROCESSOR_AVAILABLE
         now file description category st).2
  | Delete document_id => (delete_document document_id st).2
  end.

(** The store after a sequence of requests, served one after the other
    under one operating system; [Os.serve] gives each request its own. *)
Definition run (rs : list request) (st : store) : store := foldl handle st rs.

End Runs.

(** The letters of the alphabet, each in upper case and in lower case. *)
Definition letter_cases : list (ascii * ascii) :=
  [("A"%char, "a"%char); ("B"%char, "b"%char); ("C"%char, "c"%char); ("D"%char, "d"%char);
   ("E"%char, "e"%char); ("F"%char, "f"%char); ("G"%char, "g"%char); ("H"%char, "h"%char);
   ("I"%char, "i"%char); ("J"%char, "j"%char); ("K"%char, "k"%char); ("L"%char, "l"%char);
   ("M"%char, "m"%char); ("N"%char, "n"%char); ("O"%char, "o"%char); ("P"%char, "p"%char);
   ("Q"%char, "q"%char); ("R"%char, "r"%char); ("S"%char, "s"%char); ("T"%char, "t"%char);
   ("U"%char, "u"%char); ("V"%char, "v"%char); ("W"%char, "w"%char); ("X"%char, "x"%char);
   ("Y"%char, "y"%char); ("Z"%char, "z"%char)].

(** Two characters that are equal, or are one letter in its two cases. *)
Definition same_char_modulo_case (a b : ascii) : bool :=
  Ascii.eqb a b
  || existsb (fun ul : ascii * ascii =>
                (Ascii.eqb a ul.1 && Ascii.eqb b ul.2)
                || (Ascii.eqb a ul.2 && Ascii.eqb b ul.1))
       letter_cases.

Fixpoint same_string_modulo_case (s t : string) : bool :=
  match s, t with
  | "", "" => true
  | String a s', String b t' =>
      same_char_modulo_case a b && same_string_modulo_case s' t'
  | _, _ => false
  end.

(** Two strings that differ by letter case only: they have the same
    length and, position by position, the same character or the same
    letter in another case. *)
Definition same_modulo_case (a b : string) : Prop :=
  same_string_modulo_case a b = true.

(** ** Data for the examples *)

Module Demo.

(** An operating system that lets every file be written. *)
Definition writable : string -> bool := fun _ => true.

Definition company_info : UploadFile :=
  {| filename := "company info.PDF";
     file_data := [Byte.x25; Byte.x50; Byte.x44; Byte.x46] |}.

Definition services : UploadFile :=
  {| filename := "services.docx"; file_data := [Byte.x50; Byte.x4b] |}.

Definition report : UploadFile :=
  {| filename := "report.TXT"; file_data := [Byte.x51; Byte.x31] |}.

Definition notes : UploadFile :=
  {| filename := "a.Txt"; file_data := [Byte.x6e] |}.

Definition installer : UploadFile :=
  {| filename := "setup.exe"; file_data := [Byte.x4d; Byte.x5a] |}.

(** Two uploads, a day apart. *)
Definition two_documents : store :=
  run writable true
    [Upload 1700000000 company_info (Some "Company information") "general";
     Upload 1700086400 services None "services"]
    ∅.

(** The same, after the content file of the first was removed behind the
    application's back. *)
Definition one_orphan : store :=
  delete (upload_path 1700000000 (filename company_info)) two_documents.

(** An operating system with the two directories and nothing below them. *)
Definition no_subdirectories (p : string) : bool :=
  String.eqb (OsPath.parent p) "app/uploads"
  || String.eqb (OsPath.parent p) "app/knowledge".

Definition nested : UploadFile :=
  {| filename := "reports/q3.txt"; file_data := [Byte.x51; Byte.x33] |}.

(** A metadata file that is not JSON, and two records that disagree on
    the type of [upload_time]. *)
Definition damaged : store :=
  {[ metadata_path "7" := FBytes [Byte.x7b] ]}.

Definition mixed_times : store :=
  {[ metadata_path "1" := FJson [("path", JStr "app/uploads/1_a.txt");
                                 ("filename", JStr "a.txt"); ("description", JStr "");
                                 ("category", JStr "general"); ("upload_time", JInt 1);
                                 ("size", JInt 0); ("extension", JStr ".txt")];
     metadata_path "2" := FJson [("path", JStr "app/uploads/1_a.txt");
                                 ("filename", JStr "a.txt"); ("description", JStr "");
                                 ("category", JStr "general"); ("upload_time", JStr "2");
                                 ("size", JInt 0); ("extension", JStr ".txt")];
     "app/uploads/1_a.txt" := FBytes [] ]}.

(** A knowledge base that has processed the documents named in its
    state, and answers with their number. *)
Definition knowledge_base : DocumentProcessor (list string) Z :=
  {| processed_knowledge := fun p => p;
     process_all_documents := fun _ => ["company_info.pdf"];
     get_answer_from_knowledge_base := fun question p =>
       ([("answer", AStr "Our company offers AI-powered communication.");
         ("sources", AOther (Z.of_nat (length p)));
         ("question", AStr "?")], p) |}.

End Demo.

(** ** The handlers under an operating system that can fail

    [upload_document] and [delete_document] above are the handlers under
    an operating system that refuses to open a file or completes the
    write, and that reads and removes every file that exists. Here a
    write can also fail once the file is open, a file can be unreadable
    or not removable, and every request gets the answers of the
    operating system of its own moment. *)

Module Os.

(** What the operating system makes of [with open(path, mode) as f:
    write(f)]. [open] creates the file or empties it; a write that fails
    after that leaves a text cut short, [Some written], or, when the
    failure is reported on closing only, the whole text, [None]. *)
Inductive write_result : Type :=
| Refused
| Failed (written : option (list Byte.byte))
| Completed.

Record system : Type := {
  open_write : string -> write_result;
  (** whether [open(path, "r")] succeeds on a file that exists *)
  can_read : string -> bool;
  (** whether [os.remove(path)] succeeds on a file that exists *)
  can_remove : string -> bool;
  (** whether [os.path.exists(n)] finds [n] to be an open descriptor *)
  descriptor_open : Z -> bool
}.

(** [POST /api/upload/document]. A failure on the content file is caught
    and answered with 500, whether it comes from [open] or from
    [shutil.copyfileobj]; a failure on the metadata file is not caught. A
    metadata text that is cut short is not a JSON document. *)
Definition upload_document (os : system) (DOCUMENT_PROCESSOR_AVAILABLE : bool)
    (now : Z) (file : UploadFile)
    (description : option string) (category : string) (st : store)
  : outcome upload_response * list string * store :=
  let file_ext := file_ext (filename file) in
  if negb (bool_decide (file_ext ∈ allowed_extensions)) then
    (Raise 400 ("Unsupported file type. Allowed types: "
                ++ String.concat ", " allowed_extensions), [], st)
  else
    let timestamp := now in
    let safe_filename := safe_filename timestamp (filename file) in
    let file_path := OsPath.join "app/uploads" safe_filename in
    match open_write os file_path with
    | Refused => (Raise 500 "Failed to save file", [], st)
    | Failed written =>
        (Raise 500 "Failed to save file", [],
         <[file_path := FBytes (default (file_data file) written)]> st)
    | Completed =>
        let st1 := <[file_path := FBytes (file_data file)]> st in
        match getsize st1 file_path with
        | None => (Uncaught, [], st1)
        | Some size =>
            let metadata : dict :=
              [("filename", JStr (filename file));
               ("stored_filename", JStr safe_filename);
               ("path", JStr file_path);
               ("description", JStr (default "" description));
               ("category", JStr category);
               ("upload_time", JInt timestamp);
               ("size", JInt size);
               ("extension", JStr file_ext)] in
            let metadata_path :=
              OsPath.join "app/knowledge" (PyStr.str timestamp ++ "_metadata.json") in
            match open_write os metadata_path with
            | Refused => (Uncaught, [], st1)
            | Failed written =>
                (Uncaught, [],
                 <[metadata_path := from_option FBytes (FJson metadata) written]> st1)
            | Completed =>
                let st2 := <[metadata_path := FJson metadata]> st1 in
                (Return {| up_status := "success";
                           up_message := "Document uploaded successfully";
                           document_id := PyStr.str timestamp;
                           up_filename := filename file;
                           up_category := category;
                           processing := DOCUMENT_PROCESSOR_AVAILABLE |},
                 if DOCUMENT_PROCESSOR_AVAILABLE then [file_path] else [],
                 st2)
            end
        end
    end.

(** [if os.path.exists(metadata["path"]): os.remove(metadata["path"])];
    [None] when it raises. [os.remove] takes no descriptor: it raises on
    a number that [os.path.exists] has found open ([os.path.exists]
    itself raises on a number too large for a descriptor, to the same
    effect). *)
Definition remove_content (os : system) (path : jvalue) (st : store) : option store :=
  match path with
  | JStr path =>
      if exists_ st path then
        if can_remove os path then Some (delete path st) else None
      else Some st
  | JInt n => if descriptor_open os n then None else Some st
  end.

(** [DELETE /api/documents/{document_id}]. Every exception of the [try]
    is answered with 500: the file that cannot be read or is not JSON,
    the record without a ["path"], the removal that fails. What was
    removed before the exception stays removed. *)
Definition delete_document (os : system) (document_id : string) (st : store)
  : outcome string * store :=
  let metadata_path := metadata_path document_id in
  if negb (exists_ st metadata_path) then
    (Raise 404 "Document not found", st)
  else if negb (can_read os metadata_path) then
    (Raise 500 "Failed to delete document", st)
  else
    match json_load st metadata_path with
    | None => (Raise 500 "Failed to delete document", st)
    | Some metadata =>
        match dict_get "path" metadata with
        | None => (Raise 500 "Failed to delete document", st)
        | Some path =>
            match remove_content os path st with
            | None => (Raise 500 "Failed to delete document", st)
            | Some st1 =>
                if exists_ st1 metadata_path && can_remove os metadata_path then
                  (Return "Document deleted successfully", delete metadata_path st1)
                else (Raise 500 "Failed to delete document", st1)
            end
        end
    end.

(** The store after a request served under [os]. *)
Definition handle (DOCUMENT_PROCESSOR_AVAILABLE : bool) (st : store)
    (r : system * request) : store :=
  match r.2 with
  | Upload now file description category =>
      (upload_document r.1 DOCUMENT_PROCESSOR_AVAILABLE
         now file description category st).2
  | Delete document_id => (delete_document r.1 document_id st).2
  end.

(** The store after a sequence of requests, served one after the other,
    each under the operating system of its moment. What the background
    tasks of the document processor do is not part of the run. *)
Definition serve (DOCUMENT_PROCESSOR_AVAILABLE : bool)
    (rs : list (system * request)) (st : store) : store :=
  foldl (handle DOCUMENT_PROCESSOR_AVAILABLE) st rs.

(** The operating system of the handlers above: a file is written in
    full when [creatable] lets it be opened, and every file that exists
    is read and removed. No ["path"] of a record written by an upload is
    a number; [delete_document] above answers 500 to one. *)
Definition reliable (creatable : string -> bool) : system :=
  {| open_write := fun path => if creatable path then Completed else Refused;
     can_read := fun _ => true;
     can_remove := fun _ => true;
     descriptor_open := fun _ => true |}.

End Os.

(** What holds of the metadata records along every run: a metadata file
    that is a JSON document is named after a timestamp and holds the
    record of an upload made at that timestamp, whose extension is the
    lower-cased extension of its file name and is an allowed one. *)
Definition uploaded_records (st : store) : Prop :=
  forall (document_id : string) (d : dict),
    st !! metadata_path document_id = Some (FJson d) ->
    exists (ts : Z) (u : upload_fields),
      document_id = PyStr.str ts /\ d = metadata_of ts u
      /\ uf_extension u = file_ext (uf_filename u)
      /\ uf_extension u ∈ allowed_extensions.

(** The entries of the listing are in strictly descending order of upload
    time. *)
Definition strictly_newer (a b : document) : Prop :=
  exists x y : Z,
    doc_upload_time a = JInt x /\ doc_upload_time b = JInt y /\ y < x.

(** ** The TTS demo endpoint *)

Record tts_demo_response : Type := {
  tts_message : string;
  supported_languages : list string;
  tts_engines : list string
}.

(** [GET /api/tts/demo] *)
Definition tts_demo : tts_demo_response :=
  {| tts_message := "TTS demo mode active";
     supported_languages := ["en"; "hi"; "mr"; "te"];
     tts_engines := ["google"; "indic"] |}.

(** A record of the store whose content file exists, as the entry the
    listing shows for it. *)
Definition live_entry (st : store) (e : document) : Prop :=
  exists (ts : Z) (u : upload_fields),
    st !! metadata_path (PyStr.str ts) = Some (FJson (metadata_of ts u))
    /\ exists_ st (upload_path ts (uf_filename u)) = true
    /\ e = listed ts u.

(** The fields an upload request contributes. *)
Definition fields_of (file : UploadFile) (description : option string)
    (category : string) : upload_fields :=
  {| uf_filename := filename file;
     uf_description := default "" description;
     uf_category := category;
     uf_size := Z.of_nat (length (file_data file));
     uf_extension := file_ext (filename file) |}.

(** ** The setup script (src/setup.py)

    The script is a computation over the trace of what it has printed,
    made and run so far. The operating system answers a call on that
    trace: installing a package can change what a later command
    returns. [os.makedirs] and [subprocess.run] can raise, and so can
    [parser.parse_args()], which leaves the script with a [SystemExit]
    on [--help] and on a command line it does not accept. An exception
    that nothing catches ends the script. Printing succeeds. *)

Module Setup.

Record CompletedProcess : Type := {
  returncode : Z;
  stderr : string
}.

(** The flags [--skip-deps], [--extra-deps] and [--skip-test]. *)
Record Namespace : Type := {
  skip_deps : bool;
  extra_deps : bool;
  skip_test : bool
}.

(** What [parser.parse_args()] makes of the command line: the flags, or
    the text argparse writes before it exits and the status it exits
    with. *)
Inductive parsed : Type :=
| Parsed (args : Namespace)
| Exits (code : Z) (output : string).

Inductive event : Type :=
| print (text : string)
| usage (text : string)                     (* written by argparse *)
| makedirs (path : string) (done : bool)    (* os.makedirs(path, exist_ok=True) *)
| run_command (cmd : list string) (result : option CompletedProcess).
                                            (* subprocess.run(cmd, ...) *)

(** [Error] is any exception but [SystemExit]: the [OSError] of
    [os.makedirs] or [subprocess.run], for one. *)
Inductive exception : Type :=
| SystemExit (code : Z)
| Error.

Inductive result (A : Type) : Type :=
| Done (a : A)
| Raised (e : exception).

Arguments Done {A} a.
Arguments Raised {A} e.

(** A step of the script: from the trace so far to the trace after it. *)
Definition Script (A : Type) : Type := list event -> list event * result A.

Definition ret {A : Type} (a : A) : Script A := fun h => (h, Done a).

Definition bind {A B : Type} (m : Script A) (k : A -> Script B) : Script B :=
  fun h =>
    match m h with
    | (h', Done a) => k a h'
    | (h', Raised e) => (h', Raised e)
    end.

Definition emit (e : event) : Script unit := fun h => ((h ++ [e])%list, Done tt).

Definition raise {A : Type} (e : exception) : Script A := fun h => (h, Raised e).

Notation "x <- m ;; k" := (bind m (fun x => k))
  (at level 100, m at next level, k at level 200, right associativity).
Notation "m ;; k" := (bind m (fun _ => k))
  (at level 100, k at level 200, right associativity).

Fixpoint for_each {A : Type} (l : list A) (body : A -> Script unit) : Script unit :=
  match l with
  | [] => ret tt
  | x :: l' => body x ;; for_each l' body
  end.

Definition dirs : list string :=
  ["app/services/tts/models";
   "app/services/tts/models/hindi_female";
   "app/services/tts/models/marathi_female";
   "app/services/tts/models/telugu_female";
   "logs"].

(** The commands a trace runs, the directories it makes and the
    directories it calls [os.makedirs] on, in order. *)
Definition commands (trace : list event) : list (list string) :=
  omap (fun e => match e with run_command cmd _ => Some cmd | _ => None end) trace.

Definition directories_made (trace : list event) : list string :=
  omap (fun e => match e with makedirs path true => Some path | _ => None end) trace.

Definition directories (trace : list event) : list string :=
  omap (fun e => match e with makedirs path _ => Some path | _ => None end) trace.

(** Whether the trace has a run of [cmd] that returned, and one that
    returned 0. *)
Definition returned (cmd : list string) (trace : list event) : bool :=
  existsb (fun e => match e with
                    | run_command c (Some _) => bool_decide (c = cmd)
                    | _ => false
                    end) trace.

Definition returned_zero (cmd : list string) (trace : list event) : bool :=
  existsb (fun e => match e with
                    | run_command c (Some r) => bool_decide (c = cmd) && (returncode r =? 0)
                    | _ => false
                    end) trace.

Section Script.

(** [sys.executable] *)
Variable executable : string.

(** [sys.argv[1:]] as argparse reads it. *)
Variable parse_args : list string -> parsed.

(** Whether [os.makedirs(path, exist_ok=True)] returns, after [trace]. *)
Variable can_make : list event -> string -> bool.

(** What the command returns when it is run after [trace]; [None] when
    [subprocess.run] raises: the process cannot be started, or what it
    wrote cannot be decoded. *)
Variable spawn : list event -> list string -> option CompletedProcess.

Definition say (text : string) : Script unit := emit (print text).

Definition os_makedirs (path : string) : Script unit :=
  fun h =>
    if can_make h path then ((h ++ [makedirs path true])%list, Done tt)
    else ((h ++ [makedirs path false])%list, Raised Error).

Definition subprocess_run (cmd : list string) : Script CompletedProcess :=
  fun h =>
    match spawn h cmd with
    | Some result => ((h ++ [run_command cmd (Some result)])%list, Done result)
    | None => ((h ++ [run_command cmd None])%list, Raised Error)
    end.

Definition create_directories : Script unit :=
  say "Creating necessary directories..." ;;
  for_each dirs (fun directory =>
    os_makedirs directory ;;
    say ("  Created: " ++ directory)) ;;
  say "Directory setup complete.".

Definition pip_install_requirements : list string :=
  [executable; "-m"; "pip"; "install"; "-r"; "requirements.txt"].

Definition pip_install_extra : list string :=
  ([executable; "-m"; "pip"; "install"] ++ ["modelscope"])%list.

Definition tts_test_command : list string :=
  [executable; "tests/test_tts.py"; "--languages"; "en"; "--engines"; "google"].

Definition install_dependencies (extra_deps : bool) : Script bool :=
  say "Installing Python dependencies..." ;;
  let cmd := pip_install_requirements in
  result <- subprocess_run cmd ;;
  if negb (returncode result =? 0) then
    say "Error installing dependencies:" ;;
    say (stderr result) ;;
    ret false
  else
    say "Base dependencies installed successfully." ;;
    if extra_deps then
      say "Installing extra dependencies for better TTS support..." ;;
      let cmd := pip_install_extra in
      result <- subprocess_run cmd ;;
      if negb (returncode result =? 0) then
        say "Warning: Error installing extra dependencies:" ;;
        say (stderr result) ;;
        say "The application will still function but with limited TTS capabilities." ;;
        ret true
      else
        say "Extra dependencies installed successfully." ;;
        ret true
    else ret true.

Definition test_tts : Script bool :=
  say "Testing TTS functionality..." ;;
  let cmd := tts_test_command in
  result <- subprocess_run cmd ;;
  if negb (returncode result =? 0) then
    say "Error testing TTS:" ;;
    say (stderr result) ;;
    ret false
  else
    say "TTS basic test completed. Check the test_outputs directory for the generated audio files." ;;
    ret true.

Definition newline : string := String (ascii_of_nat 10) "".

(** Lines 110 to 115 of [main], and lines 104 to 115. *)
Definition completed : Script Z :=
  say (newline ++ "Setup completed successfully!") ;;
  say (newline ++ "To run the application:") ;;
  say "  uvicorn app.main:app --reload" ;;
  say (newline ++ "The application will be available at http://localhost:8000") ;;
  ret 0.

Definition test_and_complete (args : Namespace) : Script Z :=
  if negb (skip_test args) then
    ok <- test_tts ;;
    if negb ok then
      say "Setup completed with warnings (TTS test failed)." ;;
      ret 1
    else completed
  else completed.

Definition main (argv : list string) : Script Z :=
  args <- match parse_args argv with
          | Parsed args => ret args
          | Exits code output => emit (usage output) ;; raise (SystemExit code)
          end ;;
  say "=== AI Calling Agent Setup ===" ;;
  create_directories ;;
  if negb (skip_deps args) then
    ok <- install_dependencies (extra_deps args) ;;
    if negb ok then
      say "Setup failed due to dependency installation issues." ;;
      ret 1
    else test_and_complete args
  else test_and_complete args.

(** The status the interpreter exits with: the argument of [sys.exit],
    or 1 after the traceback of another exception. *)
Definition exit_status (r : result Z) : Z :=
  match r with
  | Done code => code
  | Raised (SystemExit code) => code
  | Raised Error => 1
  end.

(** [if __name__ == "__main__": sys.exit(main())]: the trace of the
    script and its exit status. *)
Definition script (argv : list string) : list event * Z :=
  let '(trace, r) := main argv [] in (trace, exit_status r).

(** A step that went well: a directory that was made, a command that
    returned 0. The script goes on after an installation of the extra
    dependencies that returned another code. *)
Definition went_well (e : event) : bool :=
  match e with
  | print _ | usage _ => true
  | makedirs _ done => done
  | run_command cmd None => false
  | run_command cmd (Some r) =>
      (returncode r =? 0) || bool_decide (cmd = pip_install_extra)
  end.

End Script.

End Setup.

(** ** The full application's startup and shutdown (src/application.py)

    The database, the AMI client and the Rasa client are collaborators:
    what the handlers do with them is the trace, and whether the two
    connections raise is the environment's answer. *)

Module Application.

Inductive event : Type :=
| LogInfo (message : string)
| LogError (message : string)
| ConnectToMongo
| CloseMongoConnection
| AmiConnect              (* AsteriskAMIClient() and its connect() *)
| AmiDisconnect
| RasaClientInit.

(** The attributes set on [app.state]. *)
Record State : Type := {
  ami_client : bool;
  rasa_client : bool
}.

Definition fresh : State := {| ami_client := false; rasa_client := false |}.

Section Environment.

(** Whether [connect_to_mongo()] returns. *)
Variable mongo_up : bool.

(** [None] when the AMI connection is made, the text of the exception
    otherwise. *)
Variable ami_error : option string.

(** [startup_db_client]; the last component is [false] when the handler
    ends with an exception. *)
Definition startup_db_client (state : State) : list event * State * bool :=
  let out := [LogInfo "Connecting to MongoDB..."; ConnectToMongo] in
  if negb mongo_up then (out, state, false)
  else
    let out :=
      (out ++ [LogInfo "Connected to MongoDB"; LogInfo "Connecting to Asterisk AMI...";
               AmiConnect])%list in
    let '(out, state) :=
      match ami_error with
      | None =>
          ((out ++ [LogInfo "Connected to Asterisk AMI"])%list,
           {| ami_client := true; rasa_client := rasa_client state |})
      | Some e =>
          ((out ++ [LogError ("Failed to connect to Asterisk AMI: " ++ e)])%list, state)
      end in
    ((out ++ [RasaClientInit; LogInfo "Rasa client initialized"])%list,
     {| ami_client := ami_client state; rasa_client := true |},
     true).

(** [shutdown_db_client] *)
Definition shutdown_db_client (state : State) : list event :=
  let out :=
    [LogInfo "Disconnecting from MongoDB..."; CloseMongoConnection;
     LogInfo "Disconnected from MongoDB"] in
  if ami_client state then
    (out ++ [LogInfo "Disconnecting from Asterisk AMI..."; AmiDisconnect;
             LogInfo "Disconnected from Asterisk AMI"])%list
  else out.

End Environment.

End Application.

(** ** The test server (src/simple_http_server.py)

    [self.path] is a string of characters below 256 (the request line is
    decoded as ISO-8859-1); it is the argument of [do_GET] here, as
    [BaseHTTPRequestHandler] has set it from the request line before it
    calls the handler. [json.dumps] is the standard encoder with its
    defaults ([ensure_ascii], the separators [", "] and [": "]), whose
    output is ASCII, so that [.encode("utf-8")] changes nothing. *)

Module SimpleServer.

Definition PORT : Z := 8080.

Definition dquote : ascii := ascii_of_nat 34.
Definition backslash : ascii := ascii_of_nat 92.

(** A lower-case hexadecimal digit. *)
Definition hex_digit (n : nat) : ascii :=
  ascii_of_nat (if (n <? 10)%nat then 48 + n else 87 + n).

(** [json.encoder.py_encode_basestring_ascii] on one character: the
    quote and the backslash are escaped, the control characters with a
    short form take it, a printable ASCII character stands for itself,
    and every other character is written as four hexadecimal digits. *)
Definition escape_char (c : ascii) : string :=
  let n := nat_of_ascii c in
  if (n =? 34)%nat then String backslash (String dquote "")
  else if (n =? 92)%nat then String backslash (String backslash "")
  else if (n =? 10)%nat then String backslash "n"
  else if (n =? 13)%nat then String backslash "r"
  else if (n =? 9)%nat then String backslash "t"
  else if (n =? 8)%nat then String backslash "b"
  else if (n =? 12)%nat then String backslash "f"
  else if (32 <=? n)%nat && (n <=? 126)%nat then String c ""
  else String backslash
         (String "u" (String "0" (String "0"
            (String (hex_digit (n / 16)) (String (hex_digit (n mod 16)) ""))))).

Fixpoint escape (s : string) : string :=
  match s with
  | "" => ""
  | String c s' => escape_char c ++ escape s'
  end.

Definition json_string (s : string) : string :=
  String dquote (escape s ++ String dquote "").

Fixpoint json_items (d : list (string * string)) : string :=
  match d with
  | [] => ""
  | [(k, v)] => json_string k ++ ": " ++ json_string v
  | (k, v) :: d' => json_string k ++ ": " ++ json_string v ++ ", " ++ json_items d'
  end.

(** [json.dumps] of a dictionary of strings. *)
Definition json_dumps (d : list (string * string)) : string :=
  "{" ++ json_items d ++ "}".

Inductive event : Type :=
| send_response (code : Z)
| send_header (keyword value : string)
| end_headers
| wfile_write (data : string).

Definition response (path : string) : list (string * string) :=
  if String.eqb path "/api/health" then
    [("status", "ok"); ("message", "AI Calling Agent test server is running")]
  else
    [("message", "Hello from simple HTTP server"); ("path", path)].

(** [JSONHandler.do_GET] *)
Definition do_GET (path : string) : list event :=
  [send_response 200;
   send_header "Content-type" "application/json";
   end_headers;
   wfile_write (json_dumps (response path))].

(** The printable ASCII characters. *)
Definition printable (a : ascii) : bool :=
  let n := nat_of_ascii a in (32 <=? n)%nat && (n <=? 126)%nat.

(** The reader of what [escape] writes, up to the closing quote; it
    serves to show that nothing is lost. *)
Definition unhex (a : ascii) : option nat :=
  let n := nat_of_ascii a in
  if (48 <=? n)%nat && (n <=? 57)%nat then Some (n - 48)%nat
  else if (97 <=? n)%nat && (n <=? 102)%nat then Some (n - 87)%nat
  else None.

Definition unescape_short (e : ascii) : option ascii :=
  let n := nat_of_ascii e in
  if (n =? 34)%nat then Some dquote
  else if (n =? 92)%nat then Some backslash
  else if (n =? 110)%nat then Some (ascii_of_nat 10)
  else if (n =? 114)%nat then Some (ascii_of_nat 13)
  else if (n =? 116)%nat then Some (ascii_of_nat 9)
  else if (n =? 98)%nat then Some (ascii_of_nat 8)
  else if (n =? 102)%nat then Some (ascii_of_nat 12)
  else None.

Definition push (c : ascii) (r : option (string * string)) : option (string * string) :=
  match r with
  | Some (s, rest) => Some (String c s, rest)
  | None => None
  end.

Fixpoint read_string (s : string) : option (string * string) :=
  match s with
  | "" => None
  | String c s1 =>
      if Ascii.eqb c dquote then Some ("", s1)
      else if Ascii.eqb c backslash then
        match s1 with
        | "" => None
        | String e s2 =>
            if Ascii.eqb e "u" then
              match s2 with
              | String _ (String _ (String h (String l s3))) =>
                  match unhex h, unhex l with
                  | Some x, Some y => push (ascii_of_nat (16 * x + y)) (read_string s3)
                  | _, _ => None
                  end
              | _ => None
              end
            else
              match unescape_short e with
              | Some c' => push c' (read_string s2)
              | None => None
              end
        end
      else push c (read_string s1)
  end.

End SimpleServer.

(** ** More data for the examples *)

Module Sample.


Definition pricing : UploadFile :=
  {| filename := "price list.XLSX"; file_data := [Byte.x50; Byte.x4b; Byte.x03] |}.

Definition upload_pricing : request :=
  Upload 1700172800 pricing (Some "Prices") "pricing".

(** A run with two uploads of the same second and the deletion of an
    unknown id. *)
Definition busy_run : list request :=
  [Upload 1700000000 Demo.company_info None "general";
   Upload 1700000000 Demo.services None "services";
   upload_pricing;
   Delete "1600000000"].

(** A second version of [Demo.services], under the same name. *)
Definition services_v2 : UploadFile :=
  {| filename := "services.docx"; file_data := [Byte.x50; Byte.x4b; Byte.x05] |}.

(** Operating systems for the examples: one that serves every call, one
    that breaks off the copy of a content file after its first byte, one
    that refuses to open a metadata file, and one that removes no
    metadata file. *)
Definition sound : Os.system := Os.reliable Demo.writable.

Definition breaks_copy : Os.system :=
  {| Os.open_write := fun path =>
       if PyStr.startswith "app/uploads/" path then Os.Failed (Some [Byte.x50])
       else Os.Completed;
     Os.can_read := fun _ => true;
     Os.can_remove := fun _ => true;
     Os.descriptor_open := fun _ => false |}.

Definition no_metadata : Os.system :=
  {| Os.open_write := fun path =>
       if PyStr.startswith "app/knowledge/" path then Os.Refused else Os.Completed;
     Os.can_read := fun _ => true;
     Os.can_remove := fun _ => true;
     Os.descriptor_open := fun _ => false |}.

Definition keeps_metadata : Os.system :=
  {| Os.open_write := fun _ => Os.Completed;
     Os.can_read := fun _ => true;
     Os.can_remove := fun path => negb (PyStr.startswith "app/knowledge/" path);
     Os.descriptor_open := fun _ => false |}.

(** A run in which a second upload of the same second and name loses its
    metadata file, a copy is broken off, and a deletion removes the
    content file only. *)
Definition troubled_run : list (Os.system * request) :=
  [(sound, Upload 1700000000 Demo.services None "services");
   (no_metadata, Upload 1700000000 services_v2 None "services");
   (breaks_copy, Upload 1700000050 Demo.company_info None "general");
   (sound, upload_pricing);
   (keeps_metadata, Delete "1700172800")].

(** A record whose ["path"] is a number. *)
Definition numbered_record : store :=
  {[ metadata_path "5" := FJson [("path", JInt 0)] ]}.

(** An argparse for the examples, which takes the three flags spelled in
    full and [--help]. *)
Definition usage_line : string :=
  "usage: setup.py [-h] [--skip-deps] [--extra-deps] [--skip-test]".

Definition parse_flags (argv : list string) : Setup.parsed :=
  if bool_decide ("--help" ∈ argv) then Setup.Exits 0 usage_line
  else if forallb (fun a => bool_decide (a ∈ ["--skip-deps"; "--extra-deps"; "--skip-test"]))
            argv
  then Setup.Parsed {| Setup.skip_deps := bool_decide ("--skip-deps" ∈ argv);
                       Setup.extra_deps := bool_decide ("--extra-deps" ∈ argv);
                       Setup.skip_test := bool_decide ("--skip-test" ∈ argv) |}
  else Setup.Exits 2 usage_line.

(** A machine on which every directory can be made, and one on which
    [logs] cannot. *)
Definition makes_all (trace : list Setup.event) (path : string) : bool := true.

Definition no_logs (trace : list Setup.event) (path : string) : bool :=
  negb (String.eqb path "logs").

(** A machine on which the TTS test passes once [modelscope] is
    installed, and not before. *)
Definition needs_modelscope (trace : list Setup.event) (cmd : list string)
  : option Setup.CompletedProcess :=
  if bool_decide (cmd = Setup.tts_test_command "python3") then
    Some {| Setup.returncode :=
              if Setup.returned_zero (Setup.pip_install_extra "python3") trace
              then 0 else 1;
            Setup.stderr := "No module named modelscope" |}
  else Some {| Setup.returncode := 0; Setup.stderr := "" |}.

End Sample.


(** ** The path and string functions on concrete inputs *)

Example splitext_pdf : OsPath.splitext "company info.PDF" = ("company info", ".PDF").
Proof. reflexivity. Qed.

Example splitext_hidden : OsPath.splitext "dir/..bashrc" = ("dir/..bashrc", "").
Proof. reflexivity. Qed.

Example splitext_two : OsPath.splitext "a.tar.gz" = ("a.tar", ".gz").
Proof. reflexivity. Qed.

Example splitext_dir_dot : OsPath.splitext "a.d/readme" = ("a.d/readme", "").
Proof. reflexivity. Qed.

Example stem_of_metadata_file :
  OsPath.stem "app/knowledge/1700000000_metadata.json" = "1700000000_metadata".
Proof. reflexivity. Qed.

Example join_of_upload : OsPath.join "app/uploads" "17_a.txt" = "app/uploads/17_a.txt".
Proof. reflexivity. Qed.

Example str_of_negative : PyStr.str (-12) = "-12".
Proof. reflexivity. Qed.

(** ** The failure branches of the handlers on concrete inputs *)

(** A file name with a directory in it cannot be saved: status 500, and
    the store is as it was. *)
Example upload_into_missing_directory :
  upload_document Demo.no_subdirectories true 1700000000 Demo.nested None "general" ∅
  = (Raise 500 "Failed to save file", [], ∅).
Proof. reflexivity. Qed.

(** A metadata file that is not JSON is skipped by the listing, and makes
    the deletion of its id fail with status 500. *)
Example listing_skips_damaged_record :
  get_documents (knowledge_glob Demo.damaged) Demo.damaged = Return [].
Proof. vm_compute. reflexivity. Qed.

Example delete_of_damaged_record :
  delete_document "7" Demo.damaged = (Raise 500 "Failed to delete document", Demo.damaged).
Proof. vm_compute. reflexivity. Qed.

(** Sorting upload times of different types raises, outside any [try]. *)
Example listing_of_mixed_times :
  get_documents (knowledge_glob Demo.mixed_times) Demo.mixed_times = Uncaught.
Proof. vm_compute. reflexivity. Qed.

(** ** Letter case on concrete inputs *)

Example txt_in_mixed_case : same_modulo_case ".Txt" ".txt".
Proof. reflexivity. Qed.

Example pdf_is_not_txt : ~ same_modulo_case ".PDF" ".txt".
Proof. discriminate. Qed.

(** A digit has no other case, and a longer string is another string. *)
Example no_case_for_digits : ~ same_modulo_case ".mp3" ".MP#".
Proof. discriminate. Qed.

Example length_is_kept : ~ same_modulo_case ".TXTX" ".txt".
Proof. discriminate. Qed.

Example mixed_case_upload_is_accepted :
  exists resp tasks st',
    upload_document Demo.writable true 1700000000 Demo.notes None "general" ∅
    = (Return resp, tasks, st')
    /\ json_load st' (metadata_path (document_id resp))
       = Some (metadata_of 1700000000
                 {| uf_filename := "a.Txt"; uf_description := "";
                    uf_category := "general"; uf_size := 1;
                    uf_extension := ".txt" |}).
Proof. do 3 eexists. split; reflexivity. Qed.
(** ** Facts on strings and paths *)

Module StrFacts.
Import PyStr.

#[local] Arguments String.append !_ _ /.

Lemma take_drop (n : nat) (s : string) : take n s ++ drop n s = s.
Proof.
  revert s; induction n as [|n IH]; intros [|a s]; simpl; try reflexivity.
  now rewrite IH.
Qed.

Lemma take_app (s t : string) (k : nat) :
  take (String.length s + k) (s ++ t) = s ++ take k t.
Proof. induction s as [|a s IH]; simpl; [reflexivity | now rewrite IH]. Qed.

Lemma drop_app (s t : string) (k : nat) :
  drop (String.length s + k) (s ++ t) = drop k t.
Proof. induction s as [|a s IH]; simpl; [reflexivity | exact IH]. Qed.

Lemma length_app (s t : string) :
  String.length (s ++ t) = (String.length s + String.length t)%nat.
Proof. induction s as [|a s IH]; simpl; [reflexivity | now rewrite IH]. Qed.

(** A common suffix cancels. *)
Lemma app_inv_tail (s t u : string) : s ++ u = t ++ u -> s = t.
Proof.
  revert t; induction s as [|a s IH]; intros [|b t] H; simpl in H.
  - reflexivity.
  - exfalso. apply (f_equal String.length) in H. simpl in H.
    rewrite length_app in H. lia.
  - exfalso. apply (f_equal String.length) in H. simpl in H.
    rewrite length_app in H. lia.
  - injection H as -> H. f_equal. now apply IH.
Qed.

Lemma contains_app (c : ascii) (s t : string) :
  contains c (s ++ t) = contains c s || contains c t.
Proof.
  induction s as [|a s IH]; simpl; [reflexivity|].
  rewrite IH. now rewrite orb_assoc.
Qed.

Lemma rfind_from_app (c : ascii) (s t : string) (i last : Z) :
  rfind_from c (s ++ t) i last
  = rfind_from c t (i + Z.of_nat (String.length s)) (rfind_from c s i last).
Proof.
  revert i last; induction s as [|a s IH]; intros i last; simpl String.length; simpl.
  - f_equal; lia.
  - rewrite IH. f_equal. lia.
Qed.

Lemma rfind_from_absent (c : ascii) (s : string) (i last : Z) :
  contains c s = false -> rfind_from c s i last = last.
Proof.
  revert i last; induction s as [|a s IH]; intros i last H; simpl in *.
  - reflexivity.
  - apply orb_false_iff in H as [-> H]. now apply IH.
Qed.

(** Where [rfind_from] lands: on [last] when the character is absent,
    else on its last occurrence. *)
Lemma rfind_from_spec (c : ascii) (s : string) (i last : Z) :
  (contains c s = false /\ rfind_from c s i last = last)
  \/ (exists n : nat,
        rfind_from c s i last = i + Z.of_nat n
        /\ s = take n s ++ String c (drop (S n) s)
        /\ contains c (drop (S n) s) = false).
Proof.
  revert i last; induction s as [|a s IH]; intros i last; simpl.
  - now left.
  - destruct (IH (i + 1) (if Ascii.eqb a c then i else last))
      as [[Hc Hr] | (n & Hr & Hs & Hc)].
    + destruct (Ascii.eqb a c) eqn:E.
      * right. exists 0%nat. apply Ascii.eqb_eq in E as ->.
        simpl. rewrite Hr. repeat split; [lia | assumption].
      * left. simpl. split; [assumption | exact Hr].
    + right. exists (S n). rewrite Hr. split; [lia|].
      split; [|exact Hc].
      change (String a s = String a (take n s ++ String c (drop (S n) s))).
      now f_equal.
Qed.

Lemma rfind_spec (c : ascii) (s : string) :
  (contains c s = false /\ rfind c s = -1)
  \/ (exists n : nat,
        rfind c s = Z.of_nat n
        /\ s = take n s ++ String c (drop (S n) s)
        /\ contains c (drop (S n) s) = false).
Proof.
  unfold rfind. destruct (rfind_from_spec c s 0 (-1)) as [H | (n & H1 & H2)].
  - now left.
  - right. exists n. now rewrite H1.
Qed.

Lemma split_head_app (c : ascii) (s t : string) :
  contains c s = false -> split_head c (s ++ String c t) = s.
Proof.
  induction s as [|a s IH]; simpl; intros H.
  - now rewrite Ascii.eqb_refl.
  - apply orb_false_iff in H as [-> H]. now rewrite IH.
Qed.

Lemma endswith_app (s suf : string) : endswith suf (s ++ suf) = true.
Proof.
  unfold endswith. rewrite length_app.
  replace (String.length s + String.length suf - String.length suf)%nat
    with (String.length s + 0)%nat by lia.
  rewrite drop_app. simpl. rewrite String.eqb_refl. simpl.
  apply Nat.leb_le. lia.
Qed.

Lemma endswith_inv (s suf : string) :
  endswith suf s = true ->
  s = take (String.length s - String.length suf) s ++ suf.
Proof.
  unfold endswith. intros H. apply andb_true_iff in H as [H _].
  apply String.eqb_eq in H.
  set (k := (String.length s - String.length suf)%nat) in *.
  rewrite <- H. symmetry. apply take_drop.
Qed.

Lemma str_numeral (n : Z) : all_chars numeral_char (str n) = true.
Proof.
  assert (U : forall u, all_chars numeral_char (NilEmpty.string_of_uint u) = true)
    by (induction u; simpl; auto).
  unfold str. destruct (Z.to_int n); simpl; apply U.
Qed.

Lemma all_chars_absent (f : ascii -> bool) (c : ascii) (s : string) :
  all_chars f s = true -> f c = false -> contains c s = false.
Proof.
  intros H Hc. induction s as [|a s IH]; simpl in *; [reflexivity|].
  apply andb_true_iff in H as [Ha H]. rewrite IH by assumption.
  destruct (Ascii.eqb a c) eqn:E; [|reflexivity].
  apply Ascii.eqb_eq in E as ->. congruence.
Qed.

Lemma str_no_char (c : ascii) (n : Z) :
  numeral_char c = false -> contains c (str n) = false.
Proof. intros H. eapply all_chars_absent; [apply str_numeral | exact H]. Qed.

Lemma str_inj (a b : Z) : str a = str b -> a = b.
Proof.
  unfold str. intros H. apply to_int_inj.
  assert (Some (Z.to_int a) = Some (Z.to_int b)) as [= E]; [|exact E].
  rewrite <- !NilEmpty.isi. now rewrite H.
Qed.

Lemma str_nonempty (n : Z) : str n <> "".
Proof.
  intros H. unfold str in H. destruct n as [|p|p]; simpl in H; try discriminate.
  assert (Hp := DecimalPos.Unsigned.to_uint_nonnil p).
  destruct (Pos.to_uint p); simpl in H; congruence.
Qed.

End StrFacts.

Module PathFacts.
Import PyStr StrFacts.

#[local] Arguments String.append !_ _ /.

Lemma join_knowledge (b : string) :
  OsPath.join "app/knowledge" b
  = if startswith "/" b then b else "app/knowledge/" ++ b.
Proof. reflexivity. Qed.

Lemma join_uploads (b : string) :
  OsPath.join "app/uploads" b
  = if startswith "/" b then b else "app/uploads/" ++ b.
Proof. reflexivity. Qed.

Lemma startswith_char (c a : ascii) (s : string) :
  startswith (String c "") (String a s) = Ascii.eqb a c.
Proof. cbn [startswith]. rewrite andb_true_r. apply Ascii.eqb_sym. Qed.

Lemma startswith_absent (c : ascii) (s : string) :
  contains c s = false -> startswith (String c "") s = false.
Proof.
  destruct s as [|a s]; [reflexivity|]. rewrite startswith_char.
  cbn [contains]. intros H. now apply orb_false_iff in H as [H _].
Qed.

Lemma startswith_slash (s : string) :
  contains "/" s = false -> startswith "/" s = false.
Proof. apply startswith_absent. Qed.

(** The metadata file of an id without a separator. *)
Lemma metadata_path_plain (document_id : string) :
  contains "/" document_id = false ->
  metadata_path document_id = "app/knowledge/" ++ document_id ++ "_metadata.json".
Proof.
  intros H. unfold metadata_path. rewrite join_knowledge.
  rewrite startswith_slash; [reflexivity|].
  rewrite contains_app, H. reflexivity.
Qed.

Lemma metadata_path_str (ts : Z) :
  metadata_path (str ts) = "app/knowledge/" ++ str ts ++ "_metadata.json".
Proof. apply metadata_path_plain, str_no_char. reflexivity. Qed.

Lemma upload_path_str (ts : Z) (fname : string) :
  upload_path ts fname = "app/uploads/" ++ safe_filename ts fname.
Proof.
  unfold upload_path. rewrite join_uploads.
  replace (startswith "/" (safe_filename ts fname)) with false; [reflexivity|].
  unfold safe_filename. pose proof (str_nonempty ts) as Hne.
  pose proof (str_no_char "/" ts eq_refl) as Hc.
  destruct (str ts) as [|a s]; [congruence|].
  change (String a s ++ "_" ++ replace " " "_" fname)
    with (String a (s ++ "_" ++ replace " " "_" fname)).
  rewrite startswith_char. cbn [contains] in Hc.
  now apply orb_false_iff in Hc as [-> _].
Qed.

(** Whatever the id, its metadata file is not under [app/uploads/]. *)
Lemma metadata_path_not_upload (document_id : string) (ts : Z) (fname : string) :
  metadata_path document_id <> upload_path ts fname.
Proof.
  rewrite upload_path_str. unfold metadata_path. rewrite join_knowledge.
  destruct (startswith "/" _) eqn:E.
  - destruct document_id as [|a s]; [discriminate|].
    change (String a s ++ "_metadata.json") with (String a (s ++ "_metadata.json")) in *.
    rewrite startswith_char in E. apply Ascii.eqb_eq in E as ->.
    discriminate.
  - simpl. discriminate.
Qed.

Lemma metadata_path_inj_str (document_id : string) (ts : Z) :
  metadata_path document_id = metadata_path (str ts) -> document_id = str ts.
Proof.
  rewrite metadata_path_str. unfold metadata_path. rewrite join_knowledge.
  destruct (startswith "/" _) eqn:E.
  - destruct document_id as [|a s]; [discriminate|].
    change (String a s ++ "_metadata.json") with (String a (s ++ "_metadata.json")) in *.
    rewrite startswith_char in E. apply Ascii.eqb_eq in E as ->.
    discriminate.
  - simpl. intros [= H]. now apply app_inv_tail in H.
Qed.

Lemma rfind_metadata_sep (s : string) :
  contains "/" s = false ->
  rfind "/" ("app/knowledge/" ++ s ++ "_metadata.json") = 13.
Proof.
  intros H. unfold rfind.
  change ("app/knowledge/" ++ s ++ "_metadata.json")
    with ("app/knowledge/" ++ (s ++ "_metadata.json")).
  rewrite rfind_from_app. rewrite rfind_from_absent; [reflexivity|].
  rewrite contains_app, H. reflexivity.
Qed.

Lemma parent_metadata (s : string) :
  contains "/" s = false ->
  OsPath.parent ("app/knowledge/" ++ s ++ "_metadata.json") = "app/knowledge".
Proof. intros H. unfold OsPath.parent. rewrite rfind_metadata_sep by exact H. reflexivity. Qed.

Lemma name_metadata (s : string) :
  contains "/" s = false ->
  OsPath.name ("app/knowledge/" ++ s ++ "_metadata.json") = s ++ "_metadata.json".
Proof. intros H. unfold OsPath.name. rewrite rfind_metadata_sep by exact H. reflexivity. Qed.

Lemma stem_metadata (s : string) :
  contains "/" s = false -> contains "." s = false ->
  OsPath.stem ("app/knowledge/" ++ s ++ "_metadata.json") = s ++ "_metadata".
Proof.
  intros Hs Hd. unfold OsPath.stem. rewrite name_metadata by exact Hs.
  assert (Hr : rfind "." (s ++ "_metadata.json") = Z.of_nat (String.length s) + 9).
  { unfold rfind. rewrite rfind_from_app, (rfind_from_absent _ s) by exact Hd.
    simpl. lia. }
  rewrite Hr, length_app. simpl String.length.
  replace (0 <? Z.of_nat (String.length s) + 9) with true by (symmetry; apply Z.ltb_lt; lia).
  replace (Z.of_nat (String.length s) + 9 <? Z.of_nat (String.length s + 14) - 1)
    with true by (symmetry; apply Z.ltb_lt; lia).
  simpl andb. cbv iota.
  replace (Z.to_nat (Z.of_nat (String.length s) + 9)) with (String.length s + 9)%nat by lia.
  rewrite take_app. reflexivity.
Qed.

(** The id the listing shows for the metadata file of timestamp [ts]. *)
Lemma listed_id (ts : Z) :
  split_head "_" (OsPath.stem (metadata_path (str ts))) = str ts.
Proof.
  rewrite metadata_path_str, stem_metadata by (apply str_no_char; reflexivity).
  apply (split_head_app "_" (str ts) "metadata"), str_no_char. reflexivity.
Qed.

Lemma glob_match_metadata (ts : Z) : glob_match (metadata_path (str ts)) = true.
Proof.
  unfold glob_match. rewrite metadata_path_str.
  rewrite parent_metadata, name_metadata by (apply str_no_char; reflexivity).
  rewrite endswith_app. reflexivity.
Qed.

(** Every path the glob yields is the metadata file of some id. *)
Lemma glob_match_inv (p : string) :
  glob_match p = true -> exists document_id, p = metadata_path document_id.
Proof.
  unfold glob_match, OsPath.parent, OsPath.name. intros H.
  apply andb_true_iff in H as [Hp Hn]. apply String.eqb_eq in Hp.
  destruct (rfind_spec "/" p) as [[_ Hr] | (n & Hr & Hs & Hc)].
  - rewrite Hr in Hp. discriminate.
  - rewrite Hr in Hp, Hn. rewrite Nat2Z.id in Hp.
    replace (Z.to_nat (Z.of_nat n + 1)) with (S n) in Hn by lia.
    apply endswith_inv in Hn.
    set (nm := drop (S n) p) in *.
    set (document_id := take (String.length nm - String.length "_metadata.json") nm) in *.
    exists document_id.
    assert (Hid : contains "/" document_id = false).
    { rewrite Hn, contains_app in Hc. now apply orb_false_iff in Hc as [Hc _]. }
    rewrite metadata_path_plain by exact Hid.
    rewrite Hs, Hp, <- Hn. reflexivity.
Qed.

End PathFacts.

(** ** The store invariant *)

Section Invariant.

Variable creatable : string -> bool.
Variable DOCUMENT_PROCESSOR_AVAILABLE : bool.

Lemma wf_empty : wf_store ∅.
Proof. intros document_id f H. rewrite lookup_empty in H. discriminate. Qed.

Lemma wf_delete (p : string) (st : store) : wf_store st -> wf_store (delete p st).
Proof.
  intros Hwf document_id f H. apply lookup_delete_Some in H as [_ H].
  now apply Hwf.
Qed.

Lemma wf_insert_content (ts : Z) (fname : string) (f : file) (st : store) :
  wf_store st -> wf_store (<[upload_path ts fname := f]> st).
Proof.
  intros Hwf document_id g H. rewrite lookup_insert_ne in H.
  - now apply Hwf.
  - intros E. symmetry in E. now apply PathFacts.metadata_path_not_upload in E.
Qed.

Lemma wf_insert_metadata (ts : Z) (u : upload_fields) (st : store) :
  wf_store st ->
  wf_store (<[metadata_path (PyStr.str ts) := FJson (metadata_of ts u)]> st).
Proof.
  intros Hwf document_id g H.
  destruct (decide (metadata_path (PyStr.str ts) = metadata_path document_id)) as [E|E].
  - rewrite E, lookup_insert_eq in H. injection H as <-.
    exists ts, u. split; [|reflexivity].
    now apply PathFacts.metadata_path_inj_str.
  - rewrite lookup_insert_ne in H by exact E. now apply Hwf.
Qed.

(** What a successful upload does to the store. *)
Lemma upload_document_success now file description category st resp tasks st' :
  upload_document creatable DOCUMENT_PROCESSOR_AVAILABLE
    now file description category st = (Return resp, tasks, st') ->
  let u := {| uf_filename := filename file;
              uf_description := default "" description;
              uf_category := category;
              uf_size := Z.of_nat (length (file_data file));
              uf_extension := file_ext (filename file) |} in
  document_id resp = PyStr.str now
  /\ uf_extension u ∈ allowed_extensions
  /\ st' = <[metadata_path (PyStr.str now) := FJson (metadata_of now u)]>
             (<[upload_path now (filename file) := FBytes (file_data file)]> st).
Proof.
  unfold upload_document, getsize.
  destruct (bool_decide _) eqn:Hext; simpl negb; cbv iota; [|discriminate].
  destruct (creatable (OsPath.join "app/uploads" _)); simpl negb; cbv iota; [|discriminate].
  rewrite lookup_insert_eq.
  destruct (creatable (OsPath.join "app/knowledge" _)); simpl negb; cbv iota; [|discriminate].
  intros [= <- <- <-]. apply bool_decide_eq_true in Hext.
  repeat split; assumption.
Qed.

Lemma wf_upload now file description category st :
  wf_store st ->
  wf_store (upload_document creatable DOCUMENT_PROCESSOR_AVAILABLE
              now file description category st).2.
Proof.
  intros Hwf.
  destruct (upload_document _ _ _ _ _ _ _) as [[out tasks] st'] eqn:E.
  destruct out as [resp| |].
  - apply upload_document_success in E as (_ & _ & ->). simpl.
    now apply wf_insert_metadata, wf_insert_content.
  - revert E. unfold upload_document, getsize.
    destruct (bool_decide _); simpl negb; cbv iota; [|now intros [= _ _ _ <-]].
    destruct (creatable (OsPath.join "app/uploads" _)); simpl negb; cbv iota;
      [|now intros [= _ _ _ <-]].
    rewrite lookup_insert_eq.
    destruct (creatable (OsPath.join "app/knowledge" _)); discriminate.
  - revert E. unfold upload_document, getsize.
    destruct (bool_decide _); simpl negb; cbv iota; [|discriminate].
    destruct (creatable (OsPath.join "app/uploads" _)); simpl negb; cbv iota;
      [|discriminate].
    rewrite lookup_insert_eq.
    destruct (creatable (OsPath.join "app/knowledge" _)); simpl negb; cbv iota;
      [discriminate|].
    intros [= _ <-]. simpl. now apply (wf_insert_content now (filename file)).
Qed.

Lemma wf_delete_document document_id st :
  wf_store st -> wf_store (delete_document document_id st).2.
Proof.
  intros Hwf. unfold delete_document.
  destruct (exists_ st _); simpl negb; cbv iota; [|exact Hwf].
  destruct (json_load st _) as [metadata|]; [|exact Hwf].
  destruct (dict_get "path" metadata) as [[path|]|]; try exact Hwf.
  set (st1 := if exists_ st path then delete path st else st).
  assert (wf_store st1) as Hwf1
    by (subst st1; destruct (exists_ st path); [now apply wf_delete | exact Hwf]).
  destruct (exists_ st1 _); simpl; [now apply wf_delete | exact Hwf1].
Qed.

(** The invariant holds in every store the handlers can produce. *)
Lemma wf_run (rs : list request) (st : store) :
  wf_store st -> wf_store (run creatable DOCUMENT_PROCESSOR_AVAILABLE rs st).
Proof.
  revert st. induction rs as [|r rs IH]; intros st Hwf; [exact Hwf|].
  apply IH. destruct r; simpl; [now apply wf_upload | now apply wf_delete_document].
Qed.

End Invariant.

(** ** Sorting and the listing *)

Section Listing.

Lemma sort_insert_ok (x : document) (l : list document) :
  int_key x -> Forall int_key l -> StronglySorted newest_first l ->
  exists r, sort_insert x l = Some r /\ r ≡ₚ x :: l /\ StronglySorted newest_first r.
Proof.
  intros [tx Hx] Hl Hs. induction l as [|y l IH].
  - exists [x]. repeat split; [reflexivity | repeat constructor].
  - apply Forall_cons in Hl as [[ty Hy] Hl].
    apply StronglySorted_inv in Hs as [Hs Hyl].
    simpl. rewrite Hx, Hy. simpl. destruct (tx <? ty) eqn:E.
    + destruct (IH Hl Hs) as (r & -> & Hp & Hr). exists (y :: r). simpl.
      split; [reflexivity|]. split.
      * rewrite Hp. apply perm_swap.
      * constructor; [exact Hr|]. rewrite Hp. constructor; [|exact Hyl].
        exists ty, tx. apply Z.ltb_lt in E. repeat split; [assumption .. | lia].
    + exists (x :: y :: l). split; [reflexivity|]. split; [reflexivity|].
      apply Z.ltb_ge in E. constructor; [now constructor|].
      constructor; [now exists tx, ty|].
      eapply Forall_impl; [exact Hyl|]. intros z (a & b & Ha & Hb & Hab).
      exists tx, b. rewrite Hy in Ha. injection Ha as <-.
      repeat split; [assumption .. | lia].
Qed.

Lemma sort_newest_first_ok (l : list document) :
  Forall int_key l ->
  exists r, sort_newest_first l = Some r /\ r ≡ₚ l /\ StronglySorted newest_first r.
Proof.
  induction l as [|x l IH]; intros Hl.
  - exists []. repeat split; constructor.
  - apply Forall_cons in Hl as [Hx Hl].
    destruct (IH Hl) as (s & Hs & Hp & Hsorted). simpl. rewrite Hs.
    destruct (sort_insert_ok x s Hx) as (r & -> & Hr & Hsr);
      [now rewrite Hp | exact Hsorted |].
    exists r. split; [reflexivity|]. split; [|exact Hsr].
    now rewrite Hr, Hp.
Qed.

Lemma NoDup_omap {A B : Type} (f : A -> option B) (l : list A) :
  NoDup l ->
  (forall x y b, x ∈ l -> y ∈ l -> f x = Some b -> f y = Some b -> x = y) ->
  NoDup (omap f l).
Proof.
  induction l as [|x l IH]; intros Hnd Hinj; simpl; [constructor|].
  apply NoDup_cons in Hnd as [Hx Hnd].
  assert (NoDup (omap f l)) as Hrec.
  { apply IH; [exact Hnd|]. intros a b c Ha Hb. apply Hinj; now right. }
  destruct (f x) as [b|] eqn:E; [|exact Hrec].
  apply NoDup_cons. split; [|exact Hrec].
  intros Hin. apply list_elem_of_omap in Hin as (y & Hy & Hfy).
  assert (x = y) as -> by (eapply Hinj; [now left | now right | exact E | exact Hfy]).
  contradiction.
Qed.

Lemma elem_of_knowledge_glob (st : store) (p : string) :
  p ∈ knowledge_glob st <-> glob_match p = true /\ is_Some (st !! p).
Proof.
  unfold knowledge_glob. rewrite list_elem_of_filter, list_elem_of_fmap.
  split.
  - intros [Hm ([q f] & -> & Hin)]. apply elem_of_map_to_list in Hin. eauto.
  - intros [Hm [f Hf]]. split; [exact Hm|]. exists (p, f).
    split; [reflexivity|]. now apply elem_of_map_to_list.
Qed.

Lemma NoDup_knowledge_glob (st : store) : NoDup (knowledge_glob st).
Proof. apply NoDup_filter, NoDup_fst_map_to_list. Qed.

(** In a store written by the handlers, the glob yields metadata files
    named after timestamps. *)
Lemma glob_record (st : store) (p : string) :
  wf_store st -> p ∈ knowledge_glob st ->
  exists ts u, p = metadata_path (PyStr.str ts)
               /\ st !! p = Some (FJson (metadata_of ts u)).
Proof.
  intros Hwf Hp. apply elem_of_knowledge_glob in Hp as [Hm [f Hf]].
  apply PathFacts.glob_match_inv in Hm as [document_id ->].
  destruct (Hwf _ _ Hf) as (ts & u & -> & ->). now exists ts, u.
Qed.

Lemma read_entry_record (st : store) (ts : Z) (u : upload_fields) :
  st !! metadata_path (PyStr.str ts) = Some (FJson (metadata_of ts u)) ->
  read_entry st (metadata_path (PyStr.str ts))
  = Some (if exists_ st (upload_path ts (uf_filename u))
          then Some (listed ts u) else None).
Proof.
  intros H. unfold read_entry, json_load. rewrite H.
  change (dict_get "path" (metadata_of ts u))
    with (Some (JStr (upload_path ts (uf_filename u)))).
  cbv iota beta. destruct (exists_ st _); [|reflexivity].
  change (dict_get "filename" (metadata_of ts u)) with (Some (JStr (uf_filename u))).
  change (dict_get "description" (metadata_of ts u)) with (Some (JStr (uf_description u))).
  change (dict_get "category" (metadata_of ts u)) with (Some (JStr (uf_category u))).
  change (dict_get "upload_time" (metadata_of ts u)) with (Some (JInt ts)).
  change (dict_get "size" (metadata_of ts u)) with (Some (JInt (uf_size u))).
  change (dict_get "extension" (metadata_of ts u)) with (Some (JStr (uf_extension u))).
  cbv iota beta. rewrite PathFacts.listed_id. reflexivity.
Qed.

(** The listing of a store written by the handlers, whatever the order
    in which the glob enumerates the metadata files. *)
Lemma listing_spec (st : store) (metadata_files : list string) :
  wf_store st -> metadata_files ≡ₚ knowledge_glob st ->
  exists documents,
    get_documents metadata_files st = Return documents
    /\ StronglySorted newest_first documents
    /\ NoDup (id <$> documents)
    /\ forall e, e ∈ documents <->
         exists ts u,
           st !! metadata_path (PyStr.str ts) = Some (FJson (metadata_of ts u))
           /\ exists_ st (upload_path ts (uf_filename u)) = true
           /\ e = listed ts u.
Proof.
  intros Hwf Hperm.
  assert (Hrec : forall p, p ∈ metadata_files ->
            exists ts u, p = metadata_path (PyStr.str ts)
              /\ st !! p = Some (FJson (metadata_of ts u))
              /\ mjoin (read_entry st p)
                 = if exists_ st (upload_path ts (uf_filename u))
                   then Some (listed ts u) else None).
  { intros p Hp. rewrite Hperm in Hp.
    destruct (glob_record st p Hwf Hp) as (ts & u & -> & Hf).
    exists ts, u. rewrite (read_entry_record st ts u Hf). auto. }
  assert (Hmem : forall e, e ∈ collect st metadata_files <->
            exists ts u,
              st !! metadata_path (PyStr.str ts) = Some (FJson (metadata_of ts u))
              /\ exists_ st (upload_path ts (uf_filename u)) = true
              /\ e = listed ts u).
  { intros e. unfold collect. rewrite list_elem_of_omap. split.
    - intros (p & Hp & He). destruct (Hrec p Hp) as (ts & u & -> & Hf & Hr).
      rewrite Hr in He. exists ts, u.
      destruct (exists_ st _); [|discriminate]. injection He as <-. auto.
    - intros (ts & u & Hf & Hex & ->). exists (metadata_path (PyStr.str ts)).
      split.
      + rewrite Hperm. apply elem_of_knowledge_glob.
        split; [apply PathFacts.glob_match_metadata | eauto].
      + rewrite (read_entry_record st ts u Hf), Hex. reflexivity. }
  destruct (sort_newest_first_ok (collect st metadata_files))
    as (documents & Hsort & Hp & Hsorted).
  { apply Forall_forall. intros e He. apply Hmem in He as (ts & u & _ & _ & ->).
    now exists ts. }
  exists documents. unfold get_documents. rewrite Hsort.
  split; [reflexivity|]. split; [exact Hsorted|]. split.
  - rewrite Hp. unfold collect. rewrite list_fmap_omap. apply NoDup_omap.
    + rewrite Hperm. apply NoDup_knowledge_glob.
    + intros p q b Hp' Hq Hb Hb'.
      destruct (Hrec p Hp') as (ts & u & -> & _ & Hr).
      destruct (Hrec q Hq) as (ts' & u' & -> & _ & Hr').
      rewrite Hr in Hb. rewrite Hr' in Hb'.
      destruct (exists_ st (upload_path ts _)); [|discriminate].
      destruct (exists_ st (upload_path ts' _)); [|discriminate].
      simpl in Hb, Hb'. injection Hb as <-. injection Hb' as Hb'.
      apply StrFacts.str_inj in Hb' as ->. reflexivity.
  - intros e. rewrite Hp. apply Hmem.
Qed.

End Listing.

(** ** Dictionaries *)

Lemma dict_get_set_eq {V : Type} (k : string) (v : V) (d : pydict V) :
  dict_get k (dict_set k v d) = Some v.
Proof.
  induction d as [|[k' v'] d IH]; simpl.
  - now rewrite String.eqb_refl.
  - destruct (String.eqb k' k) eqn:E; simpl.
    + now rewrite String.eqb_refl.
    + now rewrite E.
Qed.

Lemma dict_get_set_ne {V : Type} (k k' : string) (v : V) (d : pydict V) :
  k <> k' -> dict_get k' (dict_set k v d) = dict_get k' d.
Proof.
  intros Hne. induction d as [|[k0 v0] d IH]; simpl.
  - destruct (String.eqb_spec k k'); [contradiction | reflexivity].
  - destruct (String.eqb_spec k0 k) as [->|Hk]; simpl.
    + destruct (String.eqb_spec k k'); [contradiction | reflexivity].
    + now rewrite IH.
Qed.

(** ** Deleting a document *)

Section Deleting.

Lemma delete_document_missing (document_id : string) (st : store) :
  st !! metadata_path document_id = None ->
  delete_document document_id st = (Raise 404 "Document not found", st).
Proof.
  intros Hnone. unfold delete_document, exists_. rewrite Hnone.
  rewrite bool_decide_eq_false_2; [reflexivity|]. now intros [? ?].
Qed.

(** Deleting the record of an upload removes its two files. *)
Lemma delete_document_found (ts : Z) (u : upload_fields) (st : store) :
  st !! metadata_path (PyStr.str ts) = Some (FJson (metadata_of ts u)) ->
  delete_document (PyStr.str ts) st
  = (Return "Document deleted successfully",
     delete (metadata_path (PyStr.str ts))
       (delete (upload_path ts (uf_filename u)) st)).
Proof.
  intros Hf.
  set (mp := metadata_path (PyStr.str ts)) in *.
  set (up := upload_path ts (uf_filename u)).
  assert (Hne : mp <> up) by apply PathFacts.metadata_path_not_upload.
  unfold delete_document, json_load, exists_. fold mp. rewrite Hf.
  rewrite bool_decide_eq_true_2 by eauto. simpl negb. cbv iota.
  change (dict_get "path" (metadata_of ts u)) with (Some (JStr up)).
  cbv iota beta.
  assert (Hst1 : (if bool_decide (is_Some (st !! up)) then delete up st else st)
                 = delete up st).
  { case_bool_decide as Hup; [reflexivity|]. symmetry. apply delete_id.
    now apply eq_None_not_Some. }
  rewrite Hst1.
  rewrite bool_decide_eq_true_2; [reflexivity|].
  rewrite lookup_delete_ne by (intros E; now apply Hne). eauto.
Qed.

Lemma metadata_of_inj (ts : Z) (u u' : upload_fields) :
  metadata_of ts u = metadata_of ts u' -> u = u'.
Proof.
  destruct u, u'. unfold metadata_of. simpl. intros H.
  injection H as -> _ _ -> -> -> ->. reflexivity.
Qed.

End Deleting.

(** ** Letter case *)

Section LetterCase.

Lemma lower_char_modulo_case (a b : ascii) :
  same_char_modulo_case a b = true -> PyStr.lower_char a = PyStr.lower_char b.
Proof.
  unfold same_char_modulo_case. intros H. apply orb_true_iff in H as [H|H].
  - now apply Ascii.eqb_eq in H as ->.
  - apply existsb_exists in H as ([u l] & Hin & H). cbn [fst snd] in H.
    apply orb_true_iff in H as [H|H]; apply andb_true_iff in H as [Ha Hb];
      apply Ascii.eqb_eq in Ha, Hb; subst a b;
      unfold letter_cases in Hin; cbn [In] in Hin;
      repeat (destruct Hin as [[= <- <-]|Hin]; [reflexivity|]); contradiction.
Qed.

(** The handler's lower-casing identifies two strings that differ by
    letter case only. *)
Lemma lower_modulo_case (s t : string) :
  same_modulo_case s t -> PyStr.lower s = PyStr.lower t.
Proof.
  unfold same_modulo_case, PyStr.lower. revert t.
  induction s as [|a s IH]; intros [|b t] H; try discriminate; [reflexivity|].
  cbn [same_string_modulo_case] in H. apply andb_true_iff in H as [Hc H].
  cbn [PyStr.map_chars]. now rewrite (lower_char_modulo_case a b Hc), (IH t H).
Qed.

End LetterCase.

(** ** The claims *)

Section Claims.

Variable creatable : string -> bool.
Variable DOCUMENT_PROCESSOR_AVAILABLE : bool.

(** C1. Two uploads served within the same second are given the same
    document id, and the metadata record of the second replaces that of
    the first: the listing then shows one entry under that id, the
    second upload's. *)
Theorem same_second_uploads_collide
    (now : Z) (file1 file2 : UploadFile) (description1 description2 : option string)
    (category1 category2 : string) (st st1 st2 : store)
    (resp1 resp2 : upload_response) (tasks1 tasks2 : list string) :
  wf_store st ->
  upload_document creatable DOCUMENT_PROCESSOR_AVAILABLE
    now file1 description1 category1 st = (Return resp1, tasks1, st1) ->
  upload_document creatable DOCUMENT_PROCESSOR_AVAILABLE
    now file2 description2 category2 st1 = (Return resp2, tasks2, st2) ->
  document_id resp1 = document_id resp2
  /\ forall metadata_files, metadata_files ≡ₚ knowledge_glob st2 ->
       exists documents,
         get_documents metadata_files st2 = Return documents
         /\ NoDup (id <$> documents)
         /\ forall e, e ∈ documents -> id e = document_id resp1 ->
              doc_filename e = JStr (filename file2).
Proof.
  intros Hwf H1 H2.
  assert (Hwf1 : wf_store st1).
  { replace st1 with (upload_document creatable DOCUMENT_PROCESSOR_AVAILABLE
                        now file1 description1 category1 st).2 by now rewrite H1.
    now apply wf_upload. }
  assert (Hwf2 : wf_store st2).
  { replace st2 with (upload_document creatable DOCUMENT_PROCESSOR_AVAILABLE
                        now file2 description2 category2 st1).2 by now rewrite H2.
    now apply wf_upload. }
  apply upload_document_success in H1 as (Hid1 & _ & _).
  apply upload_document_success in H2 as (Hid2 & _ & Hst2).
  split; [congruence|]. intros metadata_files Hperm.
  destruct (listing_spec st2 metadata_files Hwf2 Hperm) as (documents & Hret & _ & Hnd & Hmem).
  exists documents. split; [exact Hret|]. split; [exact Hnd|].
  intros e He Hide. apply Hmem in He as (ts & u & Hf & _ & ->).
  simpl in Hide. rewrite Hid1 in Hide. apply StrFacts.str_inj in Hide as ->.
  rewrite Hst2, lookup_insert_eq in Hf.
  match type of Hf with
  | Some (FJson (metadata_of _ ?u2)) = _ =>
      assert (E : metadata_of now u2 = metadata_of now u) by congruence
  end.
  apply metadata_of_inj in E as <-. reflexivity.
Qed.

(** C2. An upload whose extension, lower-cased, is not one of [.pdf],
    [.docx], [.xlsx], [.xls], [.csv], [.txt] is rejected with status 400,
    and nothing has changed: the store is the one the request found (no
    content file, no metadata record) and no background task is added. *)
Theorem upload_rejects_unsupported_extension
    (now : Z) (file : UploadFile) (description : option string)
    (category : string) (st : store) :
  file_ext (filename file) ∉ allowed_extensions ->
  upload_document creatable DOCUMENT_PROCESSOR_AVAILABLE
    now file description category st
  = (Raise 400
       "Unsupported file type. Allowed types: .pdf, .docx, .xlsx, .xls, .csv, .txt",
     [], st).
Proof.
  intros H. unfold upload_document.
  rewrite bool_decide_eq_false_2 by exact H. reflexivity.
Qed.

(** C3. In a store written by the handlers, deleting an id succeeds
    exactly when the metadata file of that id exists. On success the
    metadata file and the content file it names are both gone, every
    other file is untouched, and deleting the same id again fails with
    404; when the metadata file does not exist the request fails with
    404 and leaves the store as it was. *)
Theorem delete_document_spec (document_id : string) (st : store) :
  wf_store st ->
  (is_Some (st !! metadata_path document_id) ->
     exists ts u st',
       document_id = PyStr.str ts
       /\ st !! metadata_path document_id = Some (FJson (metadata_of ts u))
       /\ delete_document document_id st
          = (Return "Document deleted successfully", st')
       /\ st' !! metadata_path document_id = None
       /\ st' !! upload_path ts (uf_filename u) = None
       /\ (forall p, p <> metadata_path document_id ->
                     p <> upload_path ts (uf_filename u) -> st' !! p = st !! p)
       /\ delete_document document_id st' = (Raise 404 "Document not found", st'))
  /\ (st !! metadata_path document_id = None ->
        delete_document document_id st = (Raise 404 "Document not found", st)).
Proof.
  intros Hwf. split; [|apply delete_document_missing].
  intros [f Hf]. destruct (Hwf _ _ Hf) as (ts & u & -> & ->).
  set (mp := metadata_path (PyStr.str ts)) in *.
  set (up := upload_path ts (uf_filename u)).
  assert (Hne : mp <> up) by apply PathFacts.metadata_path_not_upload.
  exists ts, u, (delete mp (delete up st)).
  assert (Hgone : delete mp (delete up st) !! mp = None) by apply lookup_delete_eq.
  split; [reflexivity|]. split; [exact Hf|].
  split; [now apply delete_document_found|].
  split; [exact Hgone|]. split; [|split].
  - rewrite lookup_delete_ne by exact Hne. apply lookup_delete_eq.
  - intros p Hp1 Hp2.
    rewrite lookup_delete_ne by (intros E; now apply Hp1).
    now rewrite lookup_delete_ne by (intros E; now apply Hp2).
  - now apply delete_document_missing.
Qed.

(** C4. In a store written by the handlers, and whatever the order in
    which the glob enumerates the metadata files, the listing returns
    exactly the entries of the metadata records whose content file
    exists, each once, ordered by [upload_time] descending; a record
    whose content file is missing has no entry. *)
Theorem get_documents_lists_live_records (st : store) (metadata_files : list string) :
  wf_store st -> metadata_files ≡ₚ knowledge_glob st ->
  exists documents,
    get_documents metadata_files st = Return documents
    /\ StronglySorted newest_first documents
    /\ NoDup (id <$> documents)
    /\ forall e, e ∈ documents <->
         exists ts u,
           st !! metadata_path (PyStr.str ts) = Some (FJson (metadata_of ts u))
           /\ exists_ st (upload_path ts (uf_filename u)) = true
           /\ e = listed ts u.
Proof. apply listing_spec. Qed.

(** C5. A call simulation whose language is not one of [en], [hi], [mr],
    [te] is rejected with status 400 and has done nothing before that:
    the handler has not slept and no call result (no call id, no status)
    is produced. *)
Theorem simulate_call_rejects_language (now : Z) (phone_number language engine : string) :
  language ∉ ["en"; "hi"; "mr"; "te"] ->
  simulate_call now phone_number language engine
  = ([], Raise 400 "Unsupported language").
Proof.
  intros H. unfold simulate_call. rewrite bool_decide_eq_false_2 by exact H.
  reflexivity.
Qed.

(** C6, as amended. Every successful upload persists, under the id it
    returns, a metadata record with exactly the fields [filename],
    [stored_filename], [path], [description], [category],
    [upload_time], [size] and [extension]; there is no [status] field. *)
Theorem upload_persists_metadata
    (now : Z) (file : UploadFile) (description : option string)
    (category : string) (st st' : store) (resp : upload_response)
    (tasks : list string) :
  upload_document creatable DOCUMENT_PROCESSOR_AVAILABLE
    now file description category st = (Return resp, tasks, st') ->
  exists d,
    json_load st' (metadata_path (document_id resp)) = Some d
    /\ keys d = ["filename"; "stored_filename"; "path"; "description";
                 "category"; "upload_time"; "size"; "extension"]
    /\ dict_get "filename" d = Some (JStr (filename file))
    /\ dict_get "stored_filename" d = Some (JStr (safe_filename now (filename file)))
    /\ dict_get "path" d = Some (JStr (upload_path now (filename file)))
    /\ dict_get "description" d = Some (JStr (default "" description))
    /\ dict_get "category" d = Some (JStr category)
    /\ dict_get "upload_time" d = Some (JInt now)
    /\ dict_get "size" d = Some (JInt (Z.of_nat (length (file_data file))))
    /\ dict_get "extension" d = Some (JStr (file_ext (filename file))).
Proof.
  intros H. apply upload_document_success in H as (-> & _ & ->).
  eexists. unfold json_load. rewrite lookup_insert_eq.
  split; [reflexivity|]. repeat split.
Qed.

(** C8. The language is checked before the engine: with an unsupported
    language the answer does not depend on the engine, and when the
    engine is unsupported too it is the language error that is reported.
    With a supported language the engine error is reported. *)
Theorem simulate_call_language_first (now : Z) (phone_number language : string) :
  language ∉ ["en"; "hi"; "mr"; "te"] ->
  (forall engine engine',
      simulate_call now phone_number language engine
      = simulate_call now phone_number language engine')
  /\ (forall engine, engine ∉ ["auto"; "google"; "indic"] ->
        (simulate_call now phone_number language engine).2
        = Raise 400 "Unsupported language")
  /\ (forall language' engine,
        language' ∈ ["en"; "hi"; "mr"; "te"] ->
        engine ∉ ["auto"; "google"; "indic"] ->
        (simulate_call now phone_number language' engine).2
        = Raise 400 "Unsupported TTS engine").
Proof.
  intros H. split; [|split].
  - intros engine engine'. unfold simulate_call.
    rewrite bool_decide_eq_false_2 by exact H. reflexivity.
  - intros engine _. unfold simulate_call.
    rewrite bool_decide_eq_false_2 by exact H. reflexivity.
  - intros language' engine Hl He. unfold simulate_call.
    rewrite bool_decide_eq_true_2 by exact Hl.
    rewrite bool_decide_eq_false_2 by exact He. reflexivity.
Qed.

(** C9. In a store written by the handlers, the id returned by a
    successful upload is the id under which the document appears in the
    listing, deleting that id succeeds, and the listing taken after the
    deletion has no entry under it. *)
Theorem upload_list_delete_roundtrip
    (now : Z) (file : UploadFile) (description : option string)
    (category : string) (st st1 : store) (resp : upload_response)
    (tasks : list string) :
  wf_store st ->
  upload_document creatable DOCUMENT_PROCESSOR_AVAILABLE
    now file description category st = (Return resp, tasks, st1) ->
  (forall metadata_files, metadata_files ≡ₚ knowledge_glob st1 ->
     exists documents e,
       get_documents metadata_files st1 = Return documents
       /\ e ∈ documents
       /\ id e = document_id resp
       /\ doc_filename e = JStr (filename file))
  /\ exists st2,
       delete_document (document_id resp) st1
       = (Return "Document deleted successfully", st2)
       /\ forall metadata_files, metadata_files ≡ₚ knowledge_glob st2 ->
            exists documents,
              get_documents metadata_files st2 = Return documents
              /\ forall e, e ∈ documents -> id e <> document_id resp.
Proof.
  intros Hwf H.
  assert (Hwf1 : wf_store st1).
  { replace st1 with (upload_document creatable DOCUMENT_PROCESSOR_AVAILABLE
                        now file description category st).2 by now rewrite H.
    now apply wf_upload. }
  apply upload_document_success in H as (Hid & _ & Hst1). rewrite Hid.
  set (u := {| uf_filename := filename file;
               uf_description := default "" description;
               uf_category := category;
               uf_size := Z.of_nat (length (file_data file));
               uf_extension := file_ext (filename file) |}) in *.
  assert (Hf : st1 !! metadata_path (PyStr.str now) = Some (FJson (metadata_of now u)))
    by (rewrite Hst1; apply lookup_insert_eq).
  split.
  - intros metadata_files Hperm.
    destruct (listing_spec st1 metadata_files Hwf1 Hperm) as (documents & Hret & _ & _ & Hmem).
    exists documents, (listed now u). split; [exact Hret|].
    split; [|split; reflexivity].
    apply Hmem. exists now, u. split; [exact Hf|]. split; [|reflexivity].
    unfold exists_. apply bool_decide_eq_true_2. rewrite Hst1.
    rewrite lookup_insert_ne by apply PathFacts.metadata_path_not_upload.
    rewrite lookup_insert_eq. eauto.
  - eexists. split; [exact (delete_document_found now u st1 Hf)|].
    set (st2 := delete _ _).
    assert (Hwf2 : wf_store st2) by (subst st2; now do 2 apply wf_delete).
    intros metadata_files Hperm.
    destruct (listing_spec st2 metadata_files Hwf2 Hperm) as (documents & Hret & _ & _ & Hmem).
    exists documents. split; [exact Hret|].
    intros e He Hide. apply Hmem in He as (ts & u' & Hf' & _ & ->).
    simpl in Hide. apply StrFacts.str_inj in Hide as ->.
    subst st2. rewrite lookup_delete_eq in Hf'. discriminate.
Qed.

(** C10. An upload whose extension differs from a supported one only
    by letter case passes the validation; every such upload that
    succeeds has that supported, lower-case extension in its metadata
    record, and the upload succeeds once its two files are written. *)
Theorem upload_extension_case_insensitive
    (now : Z) (file : UploadFile) (description : option string)
    (category : string) (st : store) (ext : string) :
  ext ∈ allowed_extensions ->
  same_modulo_case (OsPath.splitext (filename file)).2 ext ->
  (forall detail,
      (upload_document creatable DOCUMENT_PROCESSOR_AVAILABLE
         now file description category st).1.1 <> Raise 400 detail)
  /\ (forall resp tasks st',
        upload_document creatable DOCUMENT_PROCESSOR_AVAILABLE
          now file description category st = (Return resp, tasks, st') ->
        exists d,
          json_load st' (metadata_path (document_id resp)) = Some d
          /\ dict_get "extension" d = Some (JStr ext))
  /\ (creatable (upload_path now (filename file)) = true ->
      creatable (metadata_path (PyStr.str now)) = true ->
      exists resp tasks st' d,
        upload_document creatable DOCUMENT_PROCESSOR_AVAILABLE
          now file description category st = (Return resp, tasks, st')
        /\ json_load st' (metadata_path (document_id resp)) = Some d
        /\ dict_get "extension" d = Some (JStr ext)
        /\ PyStr.lower ext = ext).
Proof.
  intros Hext Hcase.
  assert (Hlow : PyStr.lower ext = ext).
  { unfold allowed_extensions in Hext.
    repeat (apply elem_of_cons in Hext as [->|Hext]; [reflexivity|]).
    now apply elem_of_nil in Hext. }
  assert (Hfe : file_ext (filename file) = ext).
  { unfold file_ext. rewrite (lower_modulo_case _ _ Hcase). exact Hlow. }
  split; [|split].
  - unfold upload_document, getsize. rewrite Hfe.
    rewrite bool_decide_eq_true_2 by exact Hext. simpl negb. cbv iota.
    fold (upload_path now (filename file)). rewrite lookup_insert_eq.
    intros detail.
    destruct (creatable (upload_path _ _)); simpl; [|discriminate].
    destruct (creatable (OsPath.join "app/knowledge" _)); simpl; discriminate.
  - intros resp tasks st' H. apply upload_document_success in H as (-> & _ & ->).
    eexists. unfold json_load. rewrite lookup_insert_eq.
    split; [reflexivity|]. cbn. now rewrite Hfe.
  - unfold upload_document, getsize. rewrite Hfe.
    rewrite bool_decide_eq_true_2 by exact Hext. simpl negb. cbv iota.
    fold (upload_path now (filename file)). rewrite lookup_insert_eq.
    intros -> Hm. simpl negb. cbv iota.
    change (OsPath.join "app/knowledge" (PyStr.str now ++ "_metadata.json"))
      with (metadata_path (PyStr.str now)).
    rewrite Hm. simpl negb. cbv iota.
    do 4 eexists. split; [reflexivity|]. simpl document_id.
    unfold json_load. rewrite lookup_insert_eq.
    split; [reflexivity|]. split; [reflexivity | exact Hlow].
Qed.

End Claims.

Section Question.

Context {P V : Type} `{!DocumentProcessor P V}.

(** C7, as amended. When the document processor is available, a
    knowledge question is answered by the knowledge base, after a full
    re-ingest when nothing has been processed yet and directly
    otherwise, and the response is that answer with the request's
    question and language written into it unchanged. When the processor
    is not available the request is rejected with status 400 and the
    processor is not touched. *)
Theorem answer_question_spec (question language : string) (document_processor : P) :
  (exists body result dp1 dp2,
      answer_question true question language document_processor = (Return body, dp2)
      /\ (processed_knowledge document_processor = [] ->
          dp1 = process_all_documents document_processor)
      /\ (processed_knowledge document_processor <> [] -> dp1 = document_processor)
      /\ get_answer_from_knowledge_base question dp1 = (result, dp2)
      /\ dict_get "question" body = Some (AStr question)
      /\ dict_get "language" body = Some (AStr language)
      /\ forall k, k <> "question" -> k <> "language" ->
           dict_get k body = dict_get k result)
  /\ answer_question false question language document_processor
     = (Raise 400 "Document processor not available", document_processor).
Proof.
  split; [|reflexivity]. unfold answer_question. simpl negb. cbv iota.
  set (dp1 := if bool_decide (processed_knowledge document_processor = [])
              then process_all_documents document_processor
              else document_processor).
  destruct (get_answer_from_knowledge_base question dp1) as [result dp2] eqn:E.
  exists (dict_set "language" (AStr language) (dict_set "question" (AStr question) result)),
    result, dp1, dp2.
  split; [reflexivity|]. split; [|split; [|split; [exact E|split; [|split]]]].
  - intros Hk. subst dp1. now rewrite bool_decide_eq_true_2.
  - intros Hk. subst dp1. now rewrite bool_decide_eq_false_2.
  - rewrite dict_get_set_ne by discriminate. apply dict_get_set_eq.
  - apply dict_get_set_eq.
  - intros k Hq Hl. rewrite !dict_get_set_ne by congruence. reflexivity.
Qed.

End Question.

(** ** The claims on concrete requests *)

Import Demo.

(** C1 at two uploads of one second: both get the id [1700000000], and the
    listing shows the second file alone. *)
Lemma same_second_uploads_collide_witness :
  exists resp1 resp2 tasks1 tasks2 st1 st2,
    upload_document writable true 1700000000 company_info None "general" ∅
    = (Return resp1, tasks1, st1)
    /\ upload_document writable true 1700000000 services None "general" st1
       = (Return resp2, tasks2, st2)
    /\ document_id resp1 = "1700000000"
    /\ document_id resp2 = "1700000000"
    /\ get_documents (knowledge_glob st2) st2
       = Return [listed 1700000000
                   {| uf_filename := "services.docx"; uf_description := "";
                      uf_category := "general"; uf_size := 2;
                      uf_extension := ".docx" |}]
    /\ (document_id resp1 = document_id resp2
        /\ forall metadata_files, metadata_files ≡ₚ knowledge_glob st2 ->
             exists documents,
               get_documents metadata_files st2 = Return documents
               /\ NoDup (id <$> documents)
               /\ forall e, e ∈ documents -> id e = document_id resp1 ->
                    doc_filename e = JStr (filename services)).
Proof.
  do 6 eexists. split; [reflexivity|]. split; [reflexivity|].
  split; [reflexivity|]. split; [reflexivity|]. split; [vm_compute; reflexivity|].
  eapply (same_second_uploads_collide writable true 1700000000 company_info services
            None None "general" "general" ∅);
    [exact wf_empty | reflexivity | reflexivity].
Defined.

(** C2 at [setup.exe]. *)
Lemma upload_rejects_unsupported_extension_witness :
  (file_ext (filename installer) ∉ allowed_extensions)
  /\ upload_document writable true 1700000000 installer None "general" two_documents
     = (Raise 400
          "Unsupported file type. Allowed types: .pdf, .docx, .xlsx, .xls, .csv, .txt",
        [], two_documents).
Proof.
  assert (H : file_ext (filename installer) ∉ allowed_extensions)
    by (apply (bool_decide_eq_false_1 _); vm_compute; reflexivity).
  split; [exact H|].
  exact (upload_rejects_unsupported_extension writable true 1700000000 installer None
           "general" two_documents H).
Defined.

(** C3 at the first of two documents. *)
Lemma delete_document_spec_witness :
  wf_store two_documents
  /\ is_Some (two_documents !! metadata_path "1700000000")
  /\ ((is_Some (two_documents !! metadata_path "1700000000") ->
       exists ts u st',
         "1700000000" = PyStr.str ts
         /\ two_documents !! metadata_path "1700000000" = Some (FJson (metadata_of ts u))
         /\ delete_document "1700000000" two_documents
            = (Return "Document deleted successfully", st')
         /\ st' !! metadata_path "1700000000" = None
         /\ st' !! upload_path ts (uf_filename u) = None
         /\ (forall p, p <> metadata_path "1700000000" ->
                       p <> upload_path ts (uf_filename u) ->
                       st' !! p = two_documents !! p)
         /\ delete_document "1700000000" st' = (Raise 404 "Document not found", st'))
      /\ (two_documents !! metadata_path "1700000000" = None ->
          delete_document "1700000000" two_documents
          = (Raise 404 "Document not found", two_documents))).
Proof.
  assert (H : wf_store two_documents) by apply wf_run, wf_empty.
  split; [exact H|]. split; [vm_compute; eauto|].
  exact (delete_document_spec "1700000000" two_documents H).
Defined.

(** C4 at a store with one live record and one whose content file is
    gone: the orphan's record has no entry. *)
Lemma get_documents_lists_live_records_witness :
  wf_store one_orphan
  /\ knowledge_glob one_orphan ≡ₚ knowledge_glob one_orphan
  /\ get_documents (knowledge_glob one_orphan) one_orphan
     = Return [listed 1700086400
                 {| uf_filename := "services.docx"; uf_description := "";
                    uf_category := "services"; uf_size := 2;
                    uf_extension := ".docx" |}]
  /\ exists documents,
       get_documents (knowledge_glob one_orphan) one_orphan = Return documents
       /\ StronglySorted newest_first documents
       /\ NoDup (id <$> documents)
       /\ forall e, e ∈ documents <->
            exists ts u,
              one_orphan !! metadata_path (PyStr.str ts) = Some (FJson (metadata_of ts u))
              /\ exists_ one_orphan (upload_path ts (uf_filename u)) = true
              /\ e = listed ts u.
Proof.
  assert (H : wf_store one_orphan) by apply wf_delete, wf_run, wf_empty.
  split; [exact H|]. split; [reflexivity|]. split; [vm_compute; reflexivity|].
  exact (get_documents_lists_live_records one_orphan (knowledge_glob one_orphan)
           H (reflexivity _)).
Defined.

(** C5 at the language [fr]. *)
Lemma simulate_call_rejects_language_witness :
  ("fr" ∉ ["en"; "hi"; "mr"; "te"])
  /\ simulate_call 1700000000 "+911234567890" "fr" "auto"
     = ([], Raise 400 "Unsupported language").
Proof.
  assert (H : "fr" ∉ ["en"; "hi"; "mr"; "te"])
    by (apply (bool_decide_eq_false_1 _); vm_compute; reflexivity).
  split; [exact H|].
  exact (simulate_call_rejects_language 1700000000 "+911234567890" "fr" "auto" H).
Defined.

(** C6 as stated fails: the record written for [services.docx] has no
    [status] field, so its fields are not the nine of the claim. *)
Lemma upload_metadata_has_no_status :
  exists resp tasks st' d,
    upload_document writable true 1700086400 services None "services" ∅
    = (Return resp, tasks, st')
    /\ json_load st' (metadata_path (document_id resp)) = Some d
    /\ ~ (forall k, k ∈ keys d <->
            k ∈ ["filename"; "stored_filename"; "path"; "description"; "category";
                 "upload_time"; "size"; "extension"; "status"]).
Proof.
  do 4 eexists. split; [reflexivity|]. split; [vm_compute; reflexivity|].
  intros H. specialize (H "status"). destruct H as [_ H].
  assert (Hin : "status" ∈ ["filename"; "stored_filename"; "path"; "description";
                            "category"; "upload_time"; "size"; "extension"; "status"])
    by (apply (bool_decide_eq_true_1 _); vm_compute; reflexivity).
  apply H in Hin. revert Hin. apply (bool_decide_eq_false_1 _). vm_compute. reflexivity.
Qed.

(** C6, as amended, at [services.docx]. *)
Lemma upload_persists_metadata_witness :
  exists resp tasks st',
    upload_document writable true 1700086400 services None "services" ∅
    = (Return resp, tasks, st')
    /\ exists d,
         json_load st' (metadata_path (document_id resp)) = Some d
         /\ keys d = ["filename"; "stored_filename"; "path"; "description";
                      "category"; "upload_time"; "size"; "extension"]
         /\ dict_get "filename" d = Some (JStr (filename services))
         /\ dict_get "stored_filename" d
            = Some (JStr (safe_filename 1700086400 (filename services)))
         /\ dict_get "path" d = Some (JStr (upload_path 1700086400 (filename services)))
         /\ dict_get "description" d = Some (JStr (default "" None))
         /\ dict_get "category" d = Some (JStr "services")
         /\ dict_get "upload_time" d = Some (JInt 1700086400)
         /\ dict_get "size" d = Some (JInt (Z.of_nat (length (file_data services))))
         /\ dict_get "extension" d = Some (JStr (file_ext (filename services))).
Proof.
  do 3 eexists. split; [reflexivity|].
  eapply (upload_persists_metadata writable true 1700086400 services None "services" ∅).
  reflexivity.
Defined.

(** C7 as stated fails: without a document processor the question gets
    no answer, whatever the knowledge base would have said. *)
Lemma answer_question_unavailable :
  @answer_question false _ _ knowledge_base "What services do you offer?" "en" []
  = (Raise 400 "Document processor not available", [])
  /\ ~ (exists body dp,
          @answer_question false _ _ knowledge_base "What services do you offer?" "en" []
          = (Return body, dp)
          /\ dict_get "question" body = Some (AStr "What services do you offer?")).
Proof.
  split; [reflexivity|]. intros (body & dp & H & _). discriminate H.
Qed.

(** C8 at the language [fr] with the engine [espeak]. *)
Lemma simulate_call_language_first_witness :
  ("fr" ∉ ["en"; "hi"; "mr"; "te"])
  /\ (simulate_call 1700000000 "+911234567890" "fr" "espeak").2
     = Raise 400 "Unsupported language"
  /\ (simulate_call 1700000000 "+911234567890" "hi" "espeak").2
     = Raise 400 "Unsupported TTS engine".
Proof.
  assert (H : "fr" ∉ ["en"; "hi"; "mr"; "te"])
    by (apply (bool_decide_eq_false_1 _); vm_compute; reflexivity).
  assert (He : "espeak" ∉ ["auto"; "google"; "indic"])
    by (apply (bool_decide_eq_false_1 _); vm_compute; reflexivity).
  assert (Hl : "hi" ∈ ["en"; "hi"; "mr"; "te"])
    by (apply (bool_decide_eq_true_1 _); vm_compute; reflexivity).
  destruct (simulate_call_language_first 1700000000 "+911234567890" "fr" H)
    as (_ & H2 & H3).
  split; [exact H|]. split; [exact (H2 "espeak" He) | exact (H3 "hi" "espeak" Hl He)].
Defined.

(** C9 at a third upload into a store of two documents. *)
Lemma upload_list_delete_roundtrip_witness :
  wf_store two_documents
  /\ exists resp tasks st1,
       upload_document writable true 1700172800 company_info None "general" two_documents
       = (Return resp, tasks, st1)
       /\ document_id resp = "1700172800"
       /\ (forall metadata_files, metadata_files ≡ₚ knowledge_glob st1 ->
             exists documents e,
               get_documents metadata_files st1 = Return documents
               /\ e ∈ documents
               /\ id e = document_id resp
               /\ doc_filename e = JStr (filename company_info))
       /\ exists st2,
            delete_document (document_id resp) st1
            = (Return "Document deleted successfully", st2)
            /\ forall metadata_files, metadata_files ≡ₚ knowledge_glob st2 ->
                 exists documents,
                   get_documents metadata_files st2 = Return documents
                   /\ forall e, e ∈ documents -> id e <> document_id resp.
Proof.
  assert (H : wf_store two_documents) by apply wf_run, wf_empty.
  split; [exact H|]. do 3 eexists. split; [reflexivity|]. split; [reflexivity|].
  eapply (upload_list_delete_roundtrip writable true 1700172800 company_info None
            "general" two_documents); [exact H | reflexivity].
Defined.

(** C10 at [report.TXT], whose extension differs from [.txt] in every
    letter: accepted, and recorded as [.txt]. *)
Lemma upload_extension_case_insensitive_witness :
  ".txt" ∈ allowed_extensions
  /\ same_modulo_case (OsPath.splitext (filename report)).2 ".txt"
  /\ (OsPath.splitext (filename report)).2 = ".TXT"
  /\ (forall detail,
        (upload_document writable true 1700000000 report None "general" ∅).1.1
        <> Raise 400 detail)
  /\ exists resp tasks st' d,
       upload_document writable true 1700000000 report None "general" ∅
       = (Return resp, tasks, st')
       /\ json_load st' (metadata_path (document_id resp)) = Some d
       /\ dict_get "extension" d = Some (JStr ".txt")
       /\ PyStr.lower ".txt" = ".txt".
Proof.
  assert (H : ".txt" ∈ allowed_extensions)
    by (apply (bool_decide_eq_true_1 _); vm_compute; reflexivity).
  assert (Hc : same_modulo_case (OsPath.splitext (filename report)).2 ".txt")
    by reflexivity.
  split; [exact H|]. split; [exact Hc|]. split; [reflexivity|].
  destruct (upload_extension_case_insensitive writable true 1700000000 report
              None "general" ∅ ".txt" H Hc) as (Hno & _ & Hok).
  split; [exact Hno|]. apply Hok; reflexivity.
Defined.

(** ** More on the upload paths *)

Section UploadPaths.

#[local] Arguments String.append !_ _ /.

Lemma replace_absent (a b : ascii) (s : string) :
  a <> b -> PyStr.contains a (PyStr.replace a b s) = false.
Proof.
  intros Hab. unfold PyStr.replace. induction s as [|c s IH]; [reflexivity|].
  cbn [PyStr.map_chars PyStr.contains]. rewrite IH, orb_false_r.
  destruct (Ascii.eqb_spec c a) as [->|Hc].
  - apply Ascii.eqb_neq. congruence.
  - now apply Ascii.eqb_neq.
Qed.

Lemma safe_filename_head (ts : Z) (fname : string) :
  PyStr.split_head "_" (safe_filename ts fname) = PyStr.str ts.
Proof.
  unfold safe_filename.
  apply (StrFacts.split_head_app "_" (PyStr.str ts) (PyStr.replace " " "_" fname)).
  apply StrFacts.str_no_char. reflexivity.
Qed.

Lemma upload_path_inj_ts (ts ts' : Z) (fname fname' : string) :
  upload_path ts fname = upload_path ts' fname' -> ts = ts'.
Proof.
  rewrite !PathFacts.upload_path_str. intros H.
  apply (String.app_inj "app/uploads/") in H.
  apply (f_equal (PyStr.split_head "_")) in H.
  rewrite !safe_filename_head in H. now apply StrFacts.str_inj.
Qed.

End UploadPaths.

(** ** How uploads and deletions change the listing *)

Section Frames.

Variable creatable : string -> bool.
Variable DOCUMENT_PROCESSOR_AVAILABLE : bool.

Lemma exists_true (st : store) (p : string) :
  exists_ st p = true <-> is_Some (st !! p).
Proof. unfold exists_. apply bool_decide_eq_true. Qed.

Lemma listing_live (st : store) (metadata_files : list string) :
  wf_store st -> metadata_files ≡ₚ knowledge_glob st ->
  exists documents,
    get_documents metadata_files st = Return documents
    /\ StronglySorted newest_first documents
    /\ NoDup (id <$> documents)
    /\ forall e, e ∈ documents <-> live_entry st e.
Proof. apply listing_spec. Qed.

(** The store after a successful upload, in one piece. *)
Lemma upload_document_store now file description category st resp tasks st' :
  upload_document creatable DOCUMENT_PROCESSOR_AVAILABLE
    now file description category st = (Return resp, tasks, st') ->
  document_id resp = PyStr.str now
  /\ st' = <[metadata_path (PyStr.str now)
             := FJson (metadata_of now (fields_of file description category))]>
             (<[upload_path now (filename file) := FBytes (file_data file)]> st).
Proof. intros H. apply upload_document_success in H as (H1 & _ & H2). now split. Qed.

Lemma live_after_upload (now : Z) (u : upload_fields) (data : list Byte.byte)
    (st : store) (e : document) :
  live_entry (<[metadata_path (PyStr.str now) := FJson (metadata_of now u)]>
                (<[upload_path now (uf_filename u) := FBytes data]> st)) e
  <-> e = listed now u \/ (live_entry st e /\ id e <> PyStr.str now).
Proof.
  set (mp := metadata_path (PyStr.str now)).
  set (up := upload_path now (uf_filename u)).
  assert (Hne : mp <> up) by apply PathFacts.metadata_path_not_upload.
  assert (Hother : forall ts v, ts <> now ->
            (<[mp := FJson (metadata_of now u)]> (<[up := FBytes data]> st))
              !! metadata_path (PyStr.str ts) = st !! metadata_path (PyStr.str ts)
            /\ exists_ (<[mp := FJson (metadata_of now u)]> (<[up := FBytes data]> st))
                 (upload_path ts (uf_filename v))
               = exists_ st (upload_path ts (uf_filename v))).
  { intros ts v Hts. split.
    - rewrite lookup_insert_ne.
      + rewrite lookup_insert_ne; [reflexivity|].
        intros E. symmetry in E. now apply PathFacts.metadata_path_not_upload in E.
      + intros E. symmetry in E. apply PathFacts.metadata_path_inj_str in E.
        now apply StrFacts.str_inj in E.
    - unfold exists_. rewrite lookup_insert_ne by apply PathFacts.metadata_path_not_upload.
      rewrite lookup_insert_ne; [reflexivity|].
      intros E. apply upload_path_inj_ts in E. congruence. }
  split.
  - intros (ts & v & Hf & Hex & ->). destruct (decide (ts = now)) as [->|Hts].
    + left. fold mp in Hf. rewrite lookup_insert_eq in Hf.
      assert (E : metadata_of now u = metadata_of now v) by congruence.
      now apply metadata_of_inj in E as <-.
    + right. destruct (Hother ts v Hts) as [H1 H2]. rewrite H1 in Hf. rewrite H2 in Hex.
      split; [now exists ts, v|]. simpl. intros E. now apply StrFacts.str_inj in E.
  - intros [->|[(ts & v & Hf & Hex & ->) Hid]].
    + exists now, u. fold mp up. rewrite lookup_insert_eq. split; [reflexivity|].
      split; [|reflexivity]. apply exists_true.
      rewrite lookup_insert_ne by exact Hne. rewrite lookup_insert_eq. eauto.
    + assert (Hts : ts <> now) by (intros ->; now apply Hid).
      destruct (Hother ts v Hts) as [H1 H2].
      exists ts, v. rewrite H1, H2. auto.
Qed.

Lemma live_after_delete (ts : Z) (u : upload_fields) (st : store) (e : document) :
  st !! metadata_path (PyStr.str ts) = Some (FJson (metadata_of ts u)) ->
  live_entry (delete (metadata_path (PyStr.str ts))
                (delete (upload_path ts (uf_filename u)) st)) e
  <-> live_entry st e /\ id e <> PyStr.str ts.
Proof.
  intros Hrec.
  set (mp := metadata_path (PyStr.str ts)).
  set (up := upload_path ts (uf_filename u)).
  assert (Hother : forall ts' v, ts' <> ts ->
            delete mp (delete up st) !! metadata_path (PyStr.str ts')
            = st !! metadata_path (PyStr.str ts')
            /\ exists_ (delete mp (delete up st)) (upload_path ts' (uf_filename v))
               = exists_ st (upload_path ts' (uf_filename v))).
  { intros ts' v Hts. split.
    - rewrite lookup_delete_ne.
      + rewrite lookup_delete_ne; [reflexivity|].
        intros E. symmetry in E. now apply PathFacts.metadata_path_not_upload in E.
      + intros E. symmetry in E. apply PathFacts.metadata_path_inj_str in E.
        now apply StrFacts.str_inj in E.
    - unfold exists_. rewrite lookup_delete_ne by apply PathFacts.metadata_path_not_upload.
      rewrite lookup_delete_ne; [reflexivity|].
      intros E. apply upload_path_inj_ts in E. congruence. }
  split.
  - intros (ts' & v & Hf & Hex & ->). destruct (decide (ts' = ts)) as [->|Hts].
    + fold mp in Hf. rewrite lookup_delete_eq in Hf. discriminate.
    + destruct (Hother ts' v Hts) as [H1 H2]. rewrite H1 in Hf. rewrite H2 in Hex.
      split; [now exists ts', v|]. simpl. intros E. now apply StrFacts.str_inj in E.
  - intros [(ts' & v & Hf & Hex & ->) Hid].
    assert (Hts : ts' <> ts) by (intros ->; now apply Hid).
    destruct (Hother ts' v Hts) as [H1 H2]. exists ts', v. rewrite H1, H2. auto.
Qed.

End Frames.

(** ** The order of the listing *)

Section Order.

Lemma strictly_newer_asym (a b : document) :
  strictly_newer a b -> strictly_newer b a -> False.
Proof.
  intros (x & y & Ha & Hb & Hxy) (x' & y' & Hb' & Ha' & Hyx).
  rewrite Ha in Ha'. rewrite Hb in Hb'. injection Ha' as <-. injection Hb' as <-. lia.
Qed.

Lemma strictly_newer_irrefl (a : document) : ~ strictly_newer a a.
Proof. intros H. exact (strictly_newer_asym a a H H). Qed.

(** Two strictly descending lists with the same elements are equal. *)
Lemma strictly_sorted_unique (l1 l2 : list document) :
  StronglySorted strictly_newer l1 -> StronglySorted strictly_newer l2 ->
  (forall e, e ∈ l1 <-> e ∈ l2) -> l1 = l2.
Proof.
  revert l2. induction l1 as [|a l1 IH]; intros l2 H1 H2 Hmem.
  - destruct l2 as [|b l2]; [reflexivity|].
    exfalso. eapply not_elem_of_nil. apply Hmem. left.
  - destruct l2 as [|b l2].
    { exfalso. eapply not_elem_of_nil. apply Hmem. left. }
    apply StronglySorted_inv in H1 as [H1 Ha]. apply StronglySorted_inv in H2 as [H2 Hb].
    rewrite Forall_forall in Ha, Hb.
    assert (a = b) as <-.
    { pose proof (proj1 (Hmem a) (list_elem_of_here _ _)) as Hin.
      pose proof (proj2 (Hmem b) (list_elem_of_here _ _)) as Hin'.
      apply elem_of_cons in Hin as [|Hin]; [assumption|].
      apply elem_of_cons in Hin' as [|Hin']; [congruence|].
      exfalso. exact (strictly_newer_asym a b (Ha b Hin') (Hb a Hin)). }
    f_equal. apply IH; [assumption..|]. intros e. split; intros He.
    + pose proof (proj1 (Hmem e) (list_elem_of_further _ _ _ He)) as Hin.
      apply elem_of_cons in Hin as [->|]; [|assumption].
      exfalso. exact (strictly_newer_irrefl a (Ha a He)).
    + pose proof (proj2 (Hmem e) (list_elem_of_further _ _ _ He)) as Hin.
      apply elem_of_cons in Hin as [->|]; [|assumption].
      exfalso. exact (strictly_newer_irrefl a (Hb a He)).
Qed.

(** Entries of records, with pairwise different ids, in descending order
    are in strictly descending order. *)
Lemma newest_first_strict (l : list document) :
  (forall e, e ∈ l -> exists ts u, e = listed ts u) ->
  NoDup (id <$> l) -> StronglySorted newest_first l ->
  StronglySorted strictly_newer l.
Proof.
  induction l as [|a l IH]; intros Hl Hnd Hs; [constructor|].
  apply StronglySorted_inv in Hs as [Hs Ha]. rewrite fmap_cons in Hnd.
  apply NoDup_cons in Hnd as [Hid Hnd].
  constructor.
  - apply IH; [|assumption..]. intros e He. apply Hl. now right.
  - rewrite Forall_forall in Ha |- *. intros b Hb.
    destruct (Ha b Hb) as (x & y & Hx & Hy & Hxy). exists x, y.
    split; [exact Hx|]. split; [exact Hy|].
    destruct (Z.eq_dec x y) as [->|]; [|lia]. exfalso. apply Hid.
    destruct (Hl a (list_elem_of_here _ _)) as (ta & ua & ->).
    destruct (Hl b (list_elem_of_further _ _ _ Hb)) as (tb & ub & ->).
    simpl in Hx, Hy. injection Hx as ->. injection Hy as ->.
    apply list_elem_of_fmap. exists (listed y ub). split; [reflexivity | exact Hb].
Qed.

(** The listing of a store written by the handlers, once more: strictly
    descending, and so the same for every enumeration of the glob. *)
Lemma listing_strict (st : store) (metadata_files : list string) :
  wf_store st -> metadata_files ≡ₚ knowledge_glob st ->
  exists documents,
    get_documents metadata_files st = Return documents
    /\ StronglySorted strictly_newer documents
    /\ forall e, e ∈ documents <-> live_entry st e.
Proof.
  intros Hwf Hp. destruct (listing_live st metadata_files Hwf Hp)
    as (documents & Hret & Hs & Hnd & Hmem).
  exists documents. split; [exact Hret|]. split; [|exact Hmem].
  apply newest_first_strict; [|assumption..].
  intros e He. apply Hmem in He as (ts & u & _ & _ & ->). eauto.
Qed.

End Order.

(** ** The outcomes of an upload *)

Section UploadOutcomes.

Variable creatable : string -> bool.
Variable DOCUMENT_PROCESSOR_AVAILABLE : bool.

(** The four ways an upload request ends. *)
Lemma upload_document_cases now file description category st :
  let r := upload_document creatable DOCUMENT_PROCESSOR_AVAILABLE
             now file description category st in
  let up := upload_path now (filename file) in
  let mp := metadata_path (PyStr.str now) in
  ((file_ext (filename file) ∉ allowed_extensions)
   /\ r.1.1 = Raise 400 ("Unsupported file type. Allowed types: "
                         ++ String.concat ", " allowed_extensions)
   /\ r.1.2 = [] /\ r.2 = st)
  \/ (file_ext (filename file) ∈ allowed_extensions /\ creatable up = false
      /\ r.1.1 = Raise 500 "Failed to save file" /\ r.1.2 = [] /\ r.2 = st)
  \/ (file_ext (filename file) ∈ allowed_extensions /\ creatable up = true
      /\ creatable mp = false
      /\ r.1.1 = Uncaught /\ r.1.2 = []
      /\ r.2 = <[up := FBytes (file_data file)]> st)
  \/ (file_ext (filename file) ∈ allowed_extensions /\ creatable up = true
      /\ creatable mp = true
      /\ (exists resp, r.1.1 = Return resp /\ document_id resp = PyStr.str now
                       /\ up_filename resp = filename file
                       /\ up_category resp = category
                       /\ processing resp = DOCUMENT_PROCESSOR_AVAILABLE)
      /\ r.1.2 = (if DOCUMENT_PROCESSOR_AVAILABLE then [up] else [])
      /\ r.2 = <[mp := FJson (metadata_of now (fields_of file description category))]>
                 (<[up := FBytes (file_data file)]> st)).
Proof.
  cbv zeta. unfold upload_document, getsize.
  fold (upload_path now (filename file)).
  change (OsPath.join "app/knowledge" (PyStr.str now ++ "_metadata.json"))
    with (metadata_path (PyStr.str now)).
  rewrite lookup_insert_eq.
  case_bool_decide as Hext; simpl negb; cbv iota; [|left; repeat split; auto].
  right. destruct (creatable (upload_path now (filename file))); simpl negb; cbv iota;
    [|left; repeat split; auto].
  right. destruct (creatable (metadata_path (PyStr.str now))); simpl negb; cbv iota;
    [right|left; repeat split; auto].
  repeat split; try reflexivity; try assumption. eexists. repeat split.
Qed.

End UploadOutcomes.

(** ** Further properties of the document handlers *)

Section Documents.

Variable creatable : string -> bool.
Variable DOCUMENT_PROCESSOR_AVAILABLE : bool.

(** X1. A successful upload adds its own entry to the listing, replaces
    the entry that had the same id if there was one, and leaves every
    other entry as it was. *)
Theorem upload_extends_listing
    (now : Z) (file : UploadFile) (description : option string) (category : string)
    (st st' : store) (resp : upload_response) (tasks : list string)
    (metadata_files metadata_files' : list string) :
  wf_store st ->
  upload_document creatable DOCUMENT_PROCESSOR_AVAILABLE
    now file description category st = (Return resp, tasks, st') ->
  metadata_files ≡ₚ knowledge_glob st ->
  metadata_files' ≡ₚ knowledge_glob st' ->
  exists documents documents',
    get_documents metadata_files st = Return documents
    /\ get_documents metadata_files' st' = Return documents'
    /\ forall e, e ∈ documents' <->
         e = listed now (fields_of file description category)
         \/ (e ∈ documents /\ id e <> document_id resp).
Proof.
  intros Hwf H Hp Hp'.
  assert (Hwf' : wf_store st').
  { replace st' with (upload_document creatable DOCUMENT_PROCESSOR_AVAILABLE
                        now file description category st).2 by now rewrite H.
    now apply wf_upload. }
  apply upload_document_store in H as [Hid Hst'].
  destruct (listing_live st metadata_files Hwf Hp) as (documents & Hret & _ & _ & Hmem).
  destruct (listing_live st' metadata_files' Hwf' Hp') as (documents' & Hret' & _ & _ & Hmem').
  exists documents, documents'. split; [exact Hret|]. split; [exact Hret'|].
  intros e. rewrite Hmem', Hmem, Hid, Hst'.
  apply (live_after_upload now (fields_of file description category)).
Qed.

(** X2. Two uploads served at different seconds get different ids, and
    after the second both are in the listing. *)
Theorem uploads_of_different_seconds
    (now1 now2 : Z) (file1 file2 : UploadFile) (description1 description2 : option string)
    (category1 category2 : string) (st st1 st2 : store)
    (resp1 resp2 : upload_response) (tasks1 tasks2 : list string)
    (metadata_files : list string) :
  wf_store st -> now1 <> now2 ->
  upload_document creatable DOCUMENT_PROCESSOR_AVAILABLE
    now1 file1 description1 category1 st = (Return resp1, tasks1, st1) ->
  upload_document creatable DOCUMENT_PROCESSOR_AVAILABLE
    now2 file2 description2 category2 st1 = (Return resp2, tasks2, st2) ->
  metadata_files ≡ₚ knowledge_glob st2 ->
  document_id resp1 <> document_id resp2
  /\ exists documents e1 e2,
       get_documents metadata_files st2 = Return documents
       /\ e1 ∈ documents /\ id e1 = document_id resp1
       /\ doc_filename e1 = JStr (filename file1)
       /\ e2 ∈ documents /\ id e2 = document_id resp2
       /\ doc_filename e2 = JStr (filename file2).
Proof.
  intros Hwf Hne H1 H2 Hp.
  assert (Hwf1 : wf_store st1).
  { replace st1 with (upload_document creatable DOCUMENT_PROCESSOR_AVAILABLE
                        now1 file1 description1 category1 st).2 by now rewrite H1.
    now apply wf_upload. }
  assert (Hwf2 : wf_store st2).
  { replace st2 with (upload_document creatable DOCUMENT_PROCESSOR_AVAILABLE
                        now2 file2 description2 category2 st1).2 by now rewrite H2.
    now apply wf_upload. }
  apply upload_document_store in H1 as [Hid1 Hst1].
  apply upload_document_store in H2 as [Hid2 Hst2].
  rewrite Hid1, Hid2.
  assert (Hids : PyStr.str now1 <> PyStr.str now2)
    by (intros E; now apply StrFacts.str_inj in E).
  split; [exact Hids|].
  destruct (listing_live st2 metadata_files Hwf2 Hp) as (documents & Hret & _ & _ & Hmem).
  exists documents, (listed now1 (fields_of file1 description1 category1)),
    (listed now2 (fields_of file2 description2 category2)).
  split; [exact Hret|].
  split; [|split; [reflexivity|split; [reflexivity|split; [|split; reflexivity]]]].
  - apply Hmem. rewrite Hst2.
    apply (live_after_upload now2 (fields_of file2 description2 category2)).
    right. split; [|exact Hids]. rewrite Hst1.
    apply (live_after_upload now1 (fields_of file1 description1 category1)). now left.
  - apply Hmem. rewrite Hst2.
    apply (live_after_upload now2 (fields_of file2 description2 category2)). now left.
Qed.

(** X3. Whatever the id, and whether the deletion succeeds or answers
    404, the listing afterwards is the listing before without the entry
    of that id. *)
Theorem delete_removes_one_entry
    (document_id : string) (st : store) (metadata_files metadata_files' : list string) :
  wf_store st ->
  metadata_files ≡ₚ knowledge_glob st ->
  metadata_files' ≡ₚ knowledge_glob (delete_document document_id st).2 ->
  exists documents documents',
    get_documents metadata_files st = Return documents
    /\ get_documents metadata_files' (delete_document document_id st).2
       = Return documents'
    /\ forall e, e ∈ documents' <-> e ∈ documents /\ id e <> document_id.
Proof.
  intros Hwf Hp Hp'.
  assert (Hwf' : wf_store (delete_document document_id st).2)
    by now apply wf_delete_document.
  destruct (listing_live st metadata_files Hwf Hp) as (documents & Hret & _ & _ & Hmem).
  destruct (listing_live _ metadata_files' Hwf' Hp') as (documents' & Hret' & _ & _ & Hmem').
  exists documents, documents'. split; [exact Hret|]. split; [exact Hret'|].
  intros e. rewrite Hmem', Hmem.
  destruct (st !! metadata_path document_id) as [f|] eqn:Hf.
  - destruct (Hwf _ _ Hf) as (ts & u & -> & ->).
    rewrite (delete_document_found ts u st Hf). simpl.
    now apply live_after_delete.
  - rewrite (delete_document_missing document_id st Hf). simpl.
    split; [|now intros [? _]]. intros He. split; [exact He|].
    destruct He as (ts & u & Hrec & _ & ->). simpl. intros <-. congruence.
Qed.

(** X4. The listing of a store written by the handlers does not depend
    on the order in which the glob enumerates the metadata files, and its
    upload times are strictly descending. *)
Theorem listing_order_independent
    (st : store) (metadata_files metadata_files' : list string) :
  wf_store st ->
  metadata_files ≡ₚ knowledge_glob st ->
  metadata_files' ≡ₚ knowledge_glob st ->
  get_documents metadata_files st = get_documents metadata_files' st
  /\ exists documents,
       get_documents metadata_files st = Return documents
       /\ StronglySorted strictly_newer documents.
Proof.
  intros Hwf Hp Hp'.
  destruct (listing_strict st metadata_files Hwf Hp) as (d1 & Hr1 & Hs1 & Hm1).
  destruct (listing_strict st metadata_files' Hwf Hp') as (d2 & Hr2 & Hs2 & Hm2).
  split; [|now exists d1]. rewrite Hr1, Hr2. f_equal.
  apply strictly_sorted_unique; [assumption..|]. intros e. now rewrite Hm1, Hm2.
Qed.

(** X5. Every document the listing shows can be deleted under the id
    the listing shows for it. *)
Theorem listed_documents_can_be_deleted
    (st : store) (metadata_files : list string) (documents : list document)
    (e : document) :
  wf_store st ->
  metadata_files ≡ₚ knowledge_glob st ->
  get_documents metadata_files st = Return documents ->
  e ∈ documents ->
  exists st',
    delete_document (id e) st = (Return "Document deleted successfully", st')
    /\ st' !! metadata_path (id e) = None.
Proof.
  intros Hwf Hp Hret He.
  destruct (listing_live st metadata_files Hwf Hp) as (documents0 & Hret0 & _ & _ & Hmem).
  rewrite Hret in Hret0. injection Hret0 as <-.
  apply Hmem in He as (ts & u & Hrec & _ & ->). simpl.
  eexists. split; [exact (delete_document_found ts u st Hrec)|].
  apply lookup_delete_eq.
Qed.

(** X6. An upload into a store that holds neither of its two files,
    followed by the deletion of the returned id, gives the store back. *)
Theorem upload_then_delete_restores_store
    (now : Z) (file : UploadFile) (description : option string) (category : string)
    (st st' : store) (resp : upload_response) (tasks : list string) :
  st !! metadata_path (PyStr.str now) = None ->
  st !! upload_path now (filename file) = None ->
  upload_document creatable DOCUMENT_PROCESSOR_AVAILABLE
    now file description category st = (Return resp, tasks, st') ->
  delete_document (document_id resp) st'
  = (Return "Document deleted successfully", st).
Proof.
  intros Hm Hu H. apply upload_document_store in H as [-> ->].
  set (u := fields_of file description category).
  rewrite (delete_document_found now u) by apply lookup_insert_eq.
  f_equal. change (uf_filename u) with (filename file).
  set (mp := metadata_path (PyStr.str now)) in *.
  set (up := upload_path now (filename file)) in *.
  apply map_eq. intros p.
  destruct (decide (p = mp)) as [->|Hp]; [rewrite lookup_delete_eq; now rewrite Hm|].
  rewrite lookup_delete_ne by congruence.
  destruct (decide (p = up)) as [->|Hp']; [rewrite lookup_delete_eq; now rewrite Hu|].
  rewrite lookup_delete_ne by congruence.
  now rewrite !lookup_insert_ne by congruence.
Qed.

(** X7. Repeating a successful upload within the same second changes
    nothing more: same answer, same store. *)
Theorem upload_retry_idempotent
    (now : Z) (file : UploadFile) (description : option string) (category : string)
    (st st' : store) (resp : upload_response) (tasks : list string) :
  upload_document creatable DOCUMENT_PROCESSOR_AVAILABLE
    now file description category st = (Return resp, tasks, st') ->
  upload_document creatable DOCUMENT_PROCESSOR_AVAILABLE
    now file description category st' = (Return resp, tasks, st').
Proof.
  intros H.
  pose proof (upload_document_cases creatable DOCUMENT_PROCESSOR_AVAILABLE
                now file description category st) as Hc.
  pose proof (upload_document_cases creatable DOCUMENT_PROCESSOR_AVAILABLE
                now file description category st') as Hc'.
  cbv zeta in Hc, Hc'. rewrite H in Hc. simpl in Hc.
  destruct Hc as [(_ & Hc & _)|[(_ & _ & Hc & _)|[(_ & _ & _ & Hc & _)|Hc]]];
    try discriminate.
  destruct Hc as (Hext & Hcu & Hcm & _ & _ & Hst).
  destruct Hc' as [(Hn & _)|[(_ & Hn & _)|[(_ & _ & Hn & _)|Hc']]];
    [contradiction | congruence | congruence |].
  destruct Hc' as (_ & _ & _ & _ & _ & Hst').
  revert H. unfold upload_document, getsize.
  rewrite !lookup_insert_eq.
  rewrite bool_decide_eq_true_2 by exact Hext. simpl negb. cbv iota.
  fold (upload_path now (filename file)).
  change (OsPath.join "app/knowledge" (PyStr.str now ++ "_metadata.json"))
    with (metadata_path (PyStr.str now)).
  rewrite Hcu, Hcm. simpl negb. cbv iota. intros [= <- <- Hst0].
  f_equal. rewrite <- Hst0 at 2. rewrite <- Hst0.
  set (mp := metadata_path (PyStr.str now)).
  set (up := upload_path now (filename file)).
  assert (Hne : mp <> up) by apply PathFacts.metadata_path_not_upload.
  apply map_eq. intros p.
  destruct (decide (p = mp)) as [->|Hp]; [now rewrite !lookup_insert_eq|].
  rewrite !(lookup_insert_ne _ mp) by congruence.
  destruct (decide (p = up)) as [->|Hp']; [now rewrite !lookup_insert_eq|].
  rewrite !(lookup_insert_ne _ up) by congruence.
  rewrite !(lookup_insert_ne _ mp) by congruence.
  now rewrite !(lookup_insert_ne _ up) by congruence.
Qed.

End Documents.

(** ** Runs under an operating system that can fail *)

Section OsRuns.

Variable DOCUMENT_PROCESSOR_AVAILABLE : bool.

(** The ways an upload request ends, by the answers of the operating
    system. *)
Lemma os_upload_document_cases (os : Os.system) now file description category st :
  let up := upload_path now (filename file) in
  let mp := metadata_path (PyStr.str now) in
  let st1 := <[up := FBytes (file_data file)]> st in
  let record := metadata_of now (fields_of file description category) in
  Os.upload_document os DOCUMENT_PROCESSOR_AVAILABLE now file description category st
  = if negb (bool_decide (file_ext (filename file) ∈ allowed_extensions)) then
      (Raise 400 ("Unsupported file type. Allowed types: "
                  ++ String.concat ", " allowed_extensions), [], st)
    else
      match Os.open_write os up with
      | Os.Refused => (Raise 500 "Failed to save file", [], st)
      | Os.Failed written =>
          (Raise 500 "Failed to save file", [],
           <[up := FBytes (default (file_data file) written)]> st)
      | Os.Completed =>
          match Os.open_write os mp with
          | Os.Refused => (Uncaught, [], st1)
          | Os.Failed written =>
              (Uncaught, [], <[mp := from_option FBytes (FJson record) written]> st1)
          | Os.Completed =>
              (Return {| up_status := "success";
                         up_message := "Document uploaded successfully";
                         document_id := PyStr.str now;
                         up_filename := filename file;
                         up_category := category;
                         processing := DOCUMENT_PROCESSOR_AVAILABLE |},
               if DOCUMENT_PROCESSOR_AVAILABLE then [up] else [],
               <[mp := FJson record]> st1)
          end
      end.
Proof.
  cbv zeta. unfold Os.upload_document, getsize.
  fold (upload_path now (filename file)).
  change (OsPath.join "app/knowledge" (PyStr.str now ++ "_metadata.json"))
    with (metadata_path (PyStr.str now)).
  rewrite lookup_insert_eq. reflexivity.
Qed.

(** The handlers of the first part are these handlers under a reliable
    operating system. *)
Lemma upload_document_reliable (creatable : string -> bool)
    now file description category st :
  Os.upload_document (Os.reliable creatable) DOCUMENT_PROCESSOR_AVAILABLE
    now file description category st
  = upload_document creatable DOCUMENT_PROCESSOR_AVAILABLE
      now file description category st.
Proof.
  unfold Os.upload_document, upload_document, getsize. cbn [Os.open_write Os.reliable].
  destruct (negb _); [reflexivity|].
  destruct (creatable (OsPath.join "app/uploads" _)); [|reflexivity].
  simpl negb. cbv iota. rewrite lookup_insert_eq.
  now destruct (creatable (OsPath.join "app/knowledge" _)).
Qed.

Lemma delete_document_reliable (creatable : string -> bool) document_id st :
  Os.delete_document (Os.reliable creatable) document_id st
  = delete_document document_id st.
Proof.
  unfold Os.delete_document, delete_document, Os.remove_content.
  cbn [Os.can_read Os.can_remove Os.descriptor_open Os.reliable].
  destruct (negb (exists_ st _)); [reflexivity|]. simpl negb. cbv iota.
  destruct (json_load st _) as [metadata|]; [|reflexivity].
  destruct (dict_get "path" metadata) as [[path|n]|]; try reflexivity.
  destruct (exists_ st path); now rewrite andb_true_r.
Qed.

Lemma run_reliable (creatable : string -> bool) (rs : list request) (st : store) :
  Os.serve DOCUMENT_PROCESSOR_AVAILABLE ((fun r => (Os.reliable creatable, r)) <$> rs) st
  = run creatable DOCUMENT_PROCESSOR_AVAILABLE rs st.
Proof.
  revert st. induction rs as [|r rs IH]; intros st; [reflexivity|].
  cbn [fmap list_fmap]. unfold Os.serve, run in *. cbn [foldl]. rewrite IH. f_equal.
  destruct r; unfold Os.handle, handle; cbn [fst snd].
  - now rewrite upload_document_reliable.
  - now rewrite delete_document_reliable.
Qed.

(** *** The records along a run *)

Lemma uploaded_records_empty : uploaded_records ∅.
Proof. intros document_id d H. rewrite lookup_empty in H. discriminate. Qed.

Lemma uploaded_records_sub (st st' : store) :
  (forall p f, st' !! p = Some f -> st !! p = Some f) ->
  uploaded_records st -> uploaded_records st'.
Proof. intros Hsub H document_id d Hd. apply H. now apply Hsub. Qed.

Lemma uploaded_records_content (ts : Z) (fname : string) (f : file) (st : store) :
  uploaded_records st -> uploaded_records (<[upload_path ts fname := f]> st).
Proof.
  intros H document_id d Hd. rewrite lookup_insert_ne in Hd; [now apply H|].
  intros E. symmetry in E. now apply PathFacts.metadata_path_not_upload in E.
Qed.

Lemma uploaded_records_cut (p : string) (data : list Byte.byte) (st : store) :
  uploaded_records st -> uploaded_records (<[p := FBytes data]> st).
Proof.
  intros H document_id d Hd. destruct (decide (p = metadata_path document_id)) as [->|Hp].
  - rewrite lookup_insert_eq in Hd. discriminate.
  - rewrite lookup_insert_ne in Hd by exact Hp. now apply H.
Qed.

Lemma uploaded_records_record now file description category (st : store) :
  file_ext (filename file) ∈ allowed_extensions ->
  uploaded_records st ->
  uploaded_records
    (<[metadata_path (PyStr.str now)
       := FJson (metadata_of now (fields_of file description category))]> st).
Proof.
  intros Hext H document_id d Hd.
  destruct (decide (metadata_path (PyStr.str now) = metadata_path document_id)) as [E|E].
  - rewrite E, lookup_insert_eq in Hd. injection Hd as <-.
    symmetry in E. apply PathFacts.metadata_path_inj_str in E as ->.
    exists now, (fields_of file description category). repeat split. exact Hext.
  - rewrite lookup_insert_ne in Hd by exact E. now apply H.
Qed.

Lemma uploaded_records_upload (os : Os.system) now file description category st :
  uploaded_records st ->
  uploaded_records
    (Os.upload_document os DOCUMENT_PROCESSOR_AVAILABLE
       now file description category st).2.
Proof.
  intros H. rewrite os_upload_document_cases. cbv zeta.
  case_bool_decide as Hext; simpl negb; cbv iota; [|exact H].
  destruct (Os.open_write os (upload_path _ _)) as [|written|]; cbn [snd];
    [exact H | now apply uploaded_records_content |].
  destruct (Os.open_write os (metadata_path _)) as [|[written|]|]; cbn [snd from_option].
  - now apply uploaded_records_content.
  - now apply uploaded_records_cut, uploaded_records_content.
  - now apply uploaded_records_record, uploaded_records_content.
  - now apply uploaded_records_record, uploaded_records_content.
Qed.

(** A deletion adds no file and changes none. *)
Lemma os_delete_document_sub (os : Os.system) (document_id : string) (st : store) :
  forall p f, (Os.delete_document os document_id st).2 !! p = Some f -> st !! p = Some f.
Proof.
  intros p f. unfold Os.delete_document.
  destruct (negb (exists_ st _)); [auto|].
  destruct (negb (Os.can_read os _)); [auto|].
  destruct (json_load st _) as [metadata|]; [|auto].
  destruct (dict_get "path" metadata) as [path|]; [|auto].
  destruct (Os.remove_content os path st) as [st1|] eqn:E; [|auto].
  assert (H1 : forall g, st1 !! p = Some g -> st !! p = Some g).
  { revert E. unfold Os.remove_content. destruct path as [path|n].
    - destruct (exists_ st path); [|now intros [= <-]].
      destruct (Os.can_remove os path); [|discriminate]. intros [= <-] g Hg.
      now apply lookup_delete_Some in Hg as [_ Hg].
    - destruct (Os.descriptor_open os n); [discriminate|]. now intros [= <-]. }
  destruct (_ && _); cbn [snd]; [|auto].
  intros Hf. apply lookup_delete_Some in Hf as [_ Hf]. auto.
Qed.

Lemma uploaded_records_serve (rs : list (Os.system * request)) (st : store) :
  uploaded_records st ->
  uploaded_records (Os.serve DOCUMENT_PROCESSOR_AVAILABLE rs st).
Proof.
  revert st. induction rs as [|[os r] rs IH]; intros st H; [exact H|].
  apply IH. destruct r; unfold Os.handle; cbn [fst snd].
  - now apply uploaded_records_upload.
  - eapply uploaded_records_sub; [apply os_delete_document_sub | exact H].
Qed.

(** The listing of a store whose JSON records were written by uploads:
    the metadata files that are not JSON are skipped. *)
Lemma listing_of_uploaded_records (st : store) (metadata_files : list string) :
  uploaded_records st -> metadata_files ≡ₚ knowledge_glob st ->
  exists documents,
    get_documents metadata_files st = Return documents
    /\ StronglySorted newest_first documents
    /\ forall e, e ∈ documents ->
         exists ts u,
           st !! metadata_path (PyStr.str ts) = Some (FJson (metadata_of ts u))
           /\ uf_extension u = file_ext (uf_filename u)
           /\ uf_extension u ∈ allowed_extensions
           /\ exists_ st (upload_path ts (uf_filename u)) = true
           /\ e = listed ts u.
Proof.
  intros Hrec Hperm.
  assert (Hmem : forall e, e ∈ collect st metadata_files ->
            exists ts u,
              st !! metadata_path (PyStr.str ts) = Some (FJson (metadata_of ts u))
              /\ uf_extension u = file_ext (uf_filename u)
              /\ uf_extension u ∈ allowed_extensions
              /\ exists_ st (upload_path ts (uf_filename u)) = true
              /\ e = listed ts u).
  { intros e. unfold collect. rewrite list_elem_of_omap.
    intros (p & Hp & He). rewrite Hperm in Hp.
    apply elem_of_knowledge_glob in Hp as [Hm _].
    apply PathFacts.glob_match_inv in Hm as [document_id ->].
    destruct (st !! metadata_path document_id) as [[data|d]|] eqn:Hf;
      try (unfold read_entry, json_load in He; rewrite Hf in He; discriminate).
    destruct (Hrec _ _ Hf) as (ts & u & -> & -> & H1 & H2).
    rewrite (read_entry_record st ts u Hf) in He. exists ts, u.
    destruct (exists_ st _); [|discriminate]. injection He as <-. auto. }
  destruct (sort_newest_first_ok (collect st metadata_files))
    as (documents & Hsort & Hp & Hsorted).
  { apply Forall_forall. intros e He. apply Hmem in He as (ts & u & _ & _ & _ & _ & ->).
    now exists ts. }
  exists documents. unfold get_documents. rewrite Hsort.
  split; [reflexivity|]. split; [exact Hsorted|].
  intros e He. rewrite Hp in He. now apply Hmem.
Qed.

End OsRuns.

(** *** A record whose path is a number *)

(** The deletion succeeds when the number is no open descriptor, and
    answers 500, removing nothing, when it is one. *)
Example numbered_record_is_deleted :
  Os.delete_document Sample.no_metadata "5" Sample.numbered_record
  = (Return "Document deleted successfully", ∅).
Proof. vm_compute. reflexivity. Qed.

Example open_descriptor_is_not_removed :
  Os.delete_document Sample.sound "5" Sample.numbered_record
  = (Raise 500 "Failed to delete document", Sample.numbered_record).
Proof. reflexivity. Qed.

(** A deletion that cannot remove the metadata file has removed the
    content file. *)
Example half_a_deletion :
  let st := Os.serve true [(Sample.sound, Sample.upload_pricing)] ∅ in
  exists st',
    Os.delete_document Sample.keeps_metadata "1700172800" st
    = (Raise 500 "Failed to delete document", st')
    /\ st' !! upload_path 1700172800 (filename Sample.pricing) = None
    /\ is_Some (st' !! metadata_path "1700172800").
Proof.
  eexists. split; [reflexivity|]. split; [reflexivity|].
  eexists. reflexivity.
Qed.

Section Documents2.

Variable creatable : string -> bool.
Variable DOCUMENT_PROCESSOR_AVAILABLE : bool.

(** X8. After a successful upload the uploaded bytes are the content of
    the file at the path the record names, and the size the record holds
    is the size of that file; the background task the request adds, if
    the document processor is available and only then, is for that path,
    and the [processing] flag of the answer says which. *)
Theorem upload_stores_and_schedules
    (now : Z) (file : UploadFile) (description : option string) (category : string)
    (st st' : store) (resp : upload_response) (tasks : list string) :
  upload_document creatable DOCUMENT_PROCESSOR_AVAILABLE
    now file description category st = (Return resp, tasks, st') ->
  exists path d size,
    json_load st' (metadata_path (document_id resp)) = Some d
    /\ dict_get "path" d = Some (JStr path)
    /\ st' !! path = Some (FBytes (file_data file))
    /\ dict_get "size" d = Some (JInt size)
    /\ getsize st' path = Some size
    /\ size = Z.of_nat (length (file_data file))
    /\ tasks = (if processing resp then [path] else [])
    /\ processing resp = DOCUMENT_PROCESSOR_AVAILABLE
    /\ up_filename resp = filename file
    /\ up_category resp = category.
Proof.
  intros H.
  pose proof (upload_document_cases creatable DOCUMENT_PROCESSOR_AVAILABLE
                now file description category st) as Hc.
  cbv zeta in Hc. rewrite H in Hc. simpl in Hc.
  destruct Hc as [(_ & Hc & _)|[(_ & _ & Hc & _)|[(_ & _ & _ & Hc & _)|Hc]]];
    try discriminate.
  destruct Hc as (_ & _ & _ & (resp' & [= <-] & Hid & Hfn & Hcat & Hproc) & -> & ->).
  exists (upload_path now (filename file)),
    (metadata_of now (fields_of file description category)),
    (Z.of_nat (length (file_data file))).
  assert (Hcontent : (<[metadata_path (PyStr.str now)
                        := FJson (metadata_of now (fields_of file description category))]>
                        (<[upload_path now (filename file) := FBytes (file_data file)]> st))
                       !! upload_path now (filename file) = Some (FBytes (file_data file))).
  { rewrite lookup_insert_ne by apply PathFacts.metadata_path_not_upload.
    apply lookup_insert_eq. }
  unfold json_load, getsize. rewrite Hid, lookup_insert_eq, Hcontent, Hproc.
  repeat split; assumption.
Qed.

(** X9. An upload that is answered with an HTTP error has scheduled no
    task and has changed no file but, at most, the content file of the
    request: no metadata record is written. The status is 400 exactly
    for an extension that is not allowed, and then nothing has changed.
    It is 500 when the content file was not written in full: the store
    is unchanged when the file could not be opened, and holds what the
    operating system wrote of it when the copy failed. *)
Theorem upload_error_leaves_no_record
    (os : Os.system) (now : Z) (file : UploadFile) (description : option string)
    (category : string) (st st' : store) (status_code : Z) (detail : string)
    (tasks : list string) :
  Os.upload_document os DOCUMENT_PROCESSOR_AVAILABLE
    now file description category st = (Raise status_code detail, tasks, st') ->
  let up := upload_path now (filename file) in
  tasks = []
  /\ (forall p, p <> up -> st' !! p = st !! p)
  /\ ((status_code = 400 /\ (file_ext (filename file) ∉ allowed_extensions) /\ st' = st)
      \/ (status_code = 500 /\ file_ext (filename file) ∈ allowed_extensions
          /\ ((Os.open_write os up = Os.Refused /\ st' = st)
              \/ exists written,
                   Os.open_write os up = Os.Failed written
                   /\ st' = <[up := FBytes (default (file_data file) written)]> st))).
Proof.
  rewrite os_upload_document_cases. cbv zeta.
  case_bool_decide as Hext; simpl negb; cbv iota.
  - destruct (Os.open_write os (upload_path _ _)) as [|written|] eqn:Hup.
    + intros [= <- _ <- <-]. split; [reflexivity|]. split; [reflexivity|].
      right. auto.
    + intros [= <- _ <- <-]. split; [reflexivity|]. split.
      * intros p Hp. now rewrite lookup_insert_ne by congruence.
      * right. repeat split; [assumption|]. right. now exists written.
    + destruct (Os.open_write os (metadata_path _)) as [|w|]; discriminate.
  - intros [= <- _ <- <-]. split; [reflexivity|]. split; [reflexivity|].
    left. auto.
Qed.

(** X10. Whatever the file name of the request (with spaces, or starting
    with a separator), the content file is stored directly under the
    name [app/uploads/<timestamp>_<file name with [_] for each space>],
    and the stored file name has no space. *)
Theorem stored_path_confined (timestamp : Z) (fname : string) :
  upload_path timestamp fname
  = "app/uploads/" ++ PyStr.str timestamp ++ "_" ++ PyStr.replace " " "_" fname
  /\ PyStr.startswith "app/uploads/" (upload_path timestamp fname) = true
  /\ PyStr.contains " " (safe_filename timestamp fname) = false
  /\ String.length (safe_filename timestamp fname)
     = (String.length (PyStr.str timestamp) + 1 + String.length fname)%nat.
Proof.
  rewrite PathFacts.upload_path_str. unfold safe_filename.
  split; [reflexivity|]. split; [reflexivity|]. split.
  - rewrite !StrFacts.contains_app, StrFacts.str_no_char by reflexivity.
    rewrite replace_absent by discriminate. reflexivity.
  - assert (Hl : String.length (PyStr.replace " " "_" fname) = String.length fname).
    { unfold PyStr.replace. induction fname as [|a s IH]; simpl; [reflexivity|].
      now rewrite IH. }
    rewrite !StrFacts.length_app, Hl. simpl. lia.
Qed.

(** X11. Along every run of upload and delete requests from the empty
    store, whatever the operating system refuses or breaks off on the
    way, the listing succeeds and is sorted, newest first. Each of its
    entries is the record of an upload: its id is the second of the
    upload, its extension is the lower-cased extension of its file name
    and is one of the allowed ones, the record is the metadata file of
    that id, and the content file at the path built from the id and the
    file name exists. *)
Theorem listing_along_runs
    (rs : list (Os.system * request)) (metadata_files : list string) :
  let st := Os.serve DOCUMENT_PROCESSOR_AVAILABLE rs ∅ in
  metadata_files ≡ₚ knowledge_glob st ->
  exists documents,
    get_documents metadata_files st = Return documents
    /\ StronglySorted newest_first documents
    /\ forall e, e ∈ documents ->
         exists (ts : Z) (fname : string) (d : dict),
           id e = PyStr.str ts
           /\ doc_upload_time e = JInt ts
           /\ doc_filename e = JStr fname
           /\ doc_extension e = JStr (file_ext fname)
           /\ file_ext fname ∈ allowed_extensions
           /\ json_load st (metadata_path (id e)) = Some d
           /\ dict_get "path" d = Some (JStr (upload_path ts fname))
           /\ is_Some (st !! upload_path ts fname).
Proof.
  intros st Hp.
  assert (Hrec : uploaded_records st)
    by apply uploaded_records_serve, uploaded_records_empty.
  destruct (listing_of_uploaded_records st metadata_files Hrec Hp)
    as (documents & Hret & Hsorted & Hmem).
  exists documents. split; [exact Hret|]. split; [exact Hsorted|]. intros e He.
  apply Hmem in He as (ts & u & Hf & H1 & H2 & Hex & ->).
  exists ts, (uf_filename u), (metadata_of ts u). cbn [id doc_upload_time doc_filename
    doc_extension listed]. unfold json_load. rewrite Hf, H1 in *.
  repeat split; try assumption; try reflexivity.
  now apply exists_true.
Qed.

End Documents2.

(** ** The handlers on arbitrary stores *)

Section AnyStore.

Variable creatable : string -> bool.
Variable DOCUMENT_PROCESSOR_AVAILABLE : bool.




(** X13. Whatever the store holds and however the request ends, an
    upload changes no file but its own two: every path other than the
    content path and the metadata path of the request holds after the
    request what it held before. No file is ever removed. *)
Theorem upload_touches_two_paths
    (now : Z) (file : UploadFile) (description : option string) (category : string)
    (st : store) (p : string) :
  let st' := (upload_document creatable DOCUMENT_PROCESSOR_AVAILABLE
                now file description category st).2 in
  (p <> upload_path now (filename file) -> p <> metadata_path (PyStr.str now) ->
   st' !! p = st !! p)
  /\ (is_Some (st !! p) -> is_Some (st' !! p)).
Proof.
  cbv zeta.
  pose proof (upload_document_cases creatable DOCUMENT_PROCESSOR_AVAILABLE
                now file description category st) as Hc.
  cbv zeta in Hc.
  destruct Hc as [(_ & _ & _ & ->)|[(_ & _ & _ & _ & ->)|
                  [(_ & _ & _ & _ & _ & ->)|(_ & _ & _ & _ & _ & ->)]]];
    try (split; [reflexivity | tauto]).
  - split.
    + intros Hp _. now rewrite lookup_insert_ne by congruence.
    + intros Hs. rewrite lookup_insert. case_decide; eauto.
  - split.
    + intros Hp Hp'. now rewrite !lookup_insert_ne by congruence.
    + intros Hs. rewrite !lookup_insert. repeat case_decide; eauto.
Qed.


Lemma string_app_nil_r (s : string) : s ++ "" = s.
Proof.
  induction s as [|a s IH]; [reflexivity|].
  change (String a s ++ "") with (String a (s ++ "")). now rewrite IH.
Qed.

Lemma splitext_spec (p : string) :
  (OsPath.splitext p).1 ++ (OsPath.splitext p).2 = p
  /\ ((OsPath.splitext p).2 = "" \/ (OsPath.splitext p).1 <> "").
Proof.
  unfold OsPath.splitext.
  destruct (PyStr.rfind "/" p <? PyStr.rfind "." p) eqn:Hlt;
    [|split; [apply string_app_nil_r | now left]].
  set (leading := PyStr.take _ _).
  destruct (PyStr.all_chars _ leading) eqn:Hall;
    [split; [apply string_app_nil_r | now left]|].
  simpl. split; [apply StrFacts.take_drop|]. right.
  assert (Hlead : leading <> "") by (intros E; rewrite E in Hall; discriminate).
  assert (Hsep : -1 <= PyStr.rfind "/" p).
  { destruct (StrFacts.rfind_spec "/" p) as [[_ ->]|(n & -> & _)]; lia. }
  apply Z.ltb_lt in Hlt.
  destruct (Z.to_nat (PyStr.rfind "." p)) as [|n] eqn:Hn.
  { exfalso. apply Hlead. subst leading.
    replace (Z.to_nat (PyStr.rfind "." p - (PyStr.rfind "/" p + 1))) with 0%nat by lia.
    reflexivity. }
  destruct p as [|a p]; [discriminate Hn | discriminate].
Qed.

(** X15. An upload passes the validation only for a file name made of a
    non-empty root followed by an extension that, lower-cased, is one of
    the allowed ones: a name without a dot, and a name that is nothing
    but an extension (such as [.pdf]), are answered 400. *)
Theorem accepted_file_names
    (now : Z) (file : UploadFile) (description : option string) (category : string)
    (st : store) :
  (forall detail,
      (upload_document creatable DOCUMENT_PROCESSOR_AVAILABLE
         now file description category st).1.1 <> Raise 400 detail) ->
  exists root ext,
    filename file = root ++ ext
    /\ root <> ""
    /\ PyStr.lower ext ∈ allowed_extensions
    /\ PyStr.startswith "." ext = true.
Proof.
  intros H.
  pose proof (upload_document_cases creatable DOCUMENT_PROCESSOR_AVAILABLE
                now file description category st) as Hc.
  cbv zeta in Hc.
  assert (Hext : file_ext (filename file) ∈ allowed_extensions).
  { destruct Hc as [(_ & Hc & _)|[(Hc & _)|[(Hc & _)|(Hc & _)]]]; try assumption.
    exfalso. exact (H _ Hc). }
  clear H Hc. unfold file_ext in Hext.
  destruct (splitext_spec (filename file)) as [Hcat Hroot].
  exists (OsPath.splitext (filename file)).1, (OsPath.splitext (filename file)).2.
  split; [now symmetry|].
  destruct (OsPath.splitext (filename file)).2 as [|c ext] eqn:He.
  { exfalso. revert Hext. apply (bool_decide_eq_false_1 _). reflexivity. }
  split; [destruct Hroot as [Hroot|Hroot]; [discriminate Hroot | exact Hroot]|].
  split; [exact Hext|].
  unfold allowed_extensions in Hext.
  assert (Hc : PyStr.lower_char c = "."%char).
  { repeat (apply elem_of_cons in Hext as [Hext|Hext]; [now injection Hext|]).
    now apply elem_of_nil in Hext. }
  assert (c = "."%char) as ->.
  { revert Hc. destruct c as [[] [] [] [] [] [] [] []]; vm_compute; congruence. }
  reflexivity.
Qed.

End AnyStore.

(** ** Further properties of the call and question handlers *)

Section Calls.

(** X16. The call simulation accepts exactly what the TTS demo endpoint
    advertises: it completes, after one second of sleep and with the
    request's values echoed, when the language is one of the advertised
    languages and the engine is [auto] or one of the advertised engines;
    every other request is answered 400 without sleeping. *)
Theorem simulate_call_accepts_advertised
    (now : Z) (phone_number_ language_ engine_ : string) :
  (language_ ∈ supported_languages tts_demo
   /\ (engine_ = "auto" \/ engine_ ∈ tts_engines tts_demo) ->
   exists r,
     simulate_call now phone_number_ language_ engine_ = ([Sleep 1], Return r)
     /\ call_id r = "sim-" ++ PyStr.str now
     /\ call_status r = "completed"
     /\ phone_number r = phone_number_
     /\ language r = language_
     /\ engine r = engine_
     /\ duration r = 15)
  /\ (~ (language_ ∈ supported_languages tts_demo
         /\ (engine_ = "auto" \/ engine_ ∈ tts_engines tts_demo)) ->
      exists detail,
        simulate_call now phone_number_ language_ engine_ = ([], Raise 400 detail)).
Proof.
  assert (Heng : engine_ ∈ ["auto"; "google"; "indic"]
                 <-> engine_ = "auto" \/ engine_ ∈ tts_engines tts_demo).
  { simpl. rewrite elem_of_cons. reflexivity. }
  unfold simulate_call. simpl supported_languages. split.
  - intros [Hl He]. apply Heng in He.
    rewrite !bool_decide_eq_true_2 by assumption. simpl.
    eexists. repeat split.
  - intros Hn. case_bool_decide as Hl; simpl; [|eauto].
    case_bool_decide as He; simpl; [|eauto].
    exfalso. apply Hn. split; [exact Hl | now apply Heng].
Qed.

(** X17. The id of a simulated call is the clock in whole seconds: two
    completed simulations have the same call id exactly when they read
    the same second. *)
Theorem call_id_is_the_second
    (now1 now2 : Z) (p1 p2 l1 l2 e1 e2 : string) (t1 t2 : list effect)
    (r1 r2 : call_result) :
  simulate_call now1 p1 l1 e1 = (t1, Return r1) ->
  simulate_call now2 p2 l2 e2 = (t2, Return r2) ->
  (call_id r1 = call_id r2 <-> now1 = now2).
Proof.
  unfold simulate_call. intros H1 H2.
  destruct (bool_decide (l1 ∈ _)); simpl in H1; [|discriminate].
  destruct (bool_decide (e1 ∈ _)); simpl in H1; [|discriminate].
  destruct (bool_decide (l2 ∈ _)); simpl in H2; [|discriminate].
  destruct (bool_decide (e2 ∈ _)); simpl in H2; [|discriminate].
  injection H1 as _ <-. injection H2 as _ <-. simpl. split.
  - intros H. apply (String.app_inj "sim-") in H. now apply StrFacts.str_inj.
  - now intros ->.
Qed.

End Calls.

Section Answers.

Context {P V : Type} `{!DocumentProcessor P V}.

Lemma keys_dict_set {W : Type} (k : string) (v : W) (d : pydict W) :
  keys (dict_set k v d) = if bool_decide (k ∈ keys d) then keys d else (keys d ++ [k])%list.
Proof.
  unfold keys. induction d as [|[k' v'] d IH].
  - case_bool_decide as Hin; [now apply not_elem_of_nil in Hin | reflexivity].
  - cbn [dict_set]. destruct (String.eqb_spec k' k) as [->|Hk].
    + rewrite !fmap_cons. cbn [fst]. rewrite bool_decide_eq_true_2 by left. reflexivity.
    + rewrite !fmap_cons, IH. cbn [fst]. case_bool_decide as Hin.
      * rewrite bool_decide_eq_true_2 by now right. reflexivity.
      * rewrite bool_decide_eq_false_2; [reflexivity|].
        intros [E|E]%elem_of_cons; [congruence | contradiction].
Qed.

(** X18. The answer to a knowledge question has the keys of the
    knowledge base's answer, in their order, followed by [question] and
    [language] where the knowledge base did not use them; a key the
    knowledge base used is overwritten, never duplicated. *)
Theorem answer_question_keys
    (question language_ : string) (document_processor dp2 : P)
    (body : pydict (answer_value V)) :
  answer_question true question language_ document_processor = (Return body, dp2) ->
  exists result dp1,
    get_answer_from_knowledge_base question dp1 = (result, dp2)
    /\ keys body
       = (keys result ++ filter (fun k => k ∉ keys result) ["question"; "language"])%list
    /\ (NoDup (keys result) -> NoDup (keys body)).
Proof.
  unfold answer_question. simpl negb. cbv iota.
  set (dp1 := if bool_decide (processed_knowledge document_processor = [])
              then process_all_documents document_processor
              else document_processor).
  destruct (get_answer_from_knowledge_base question dp1) as [result dp2'] eqn:E.
  intros [= <- <-]. exists result, dp1. split; [exact E|].
  assert (Hk : keys (dict_set "language" (AStr language_)
                       (dict_set "question" (AStr question) result))
               = (keys result
                  ++ filter (fun k => k ∉ keys result) ["question"; "language"])%list).
  { rewrite !keys_dict_set. cbn [filter list_filter].
    destruct (decide ("question" ∉ keys result)) as [Hq|Hq];
      destruct (decide ("language" ∉ keys result)) as [Hl|Hl].
    - rewrite (bool_decide_eq_false_2 ("question" ∈ keys result)) by exact Hq.
      rewrite bool_decide_eq_false_2.
      + now rewrite <- app_assoc.
      + rewrite elem_of_app, list_elem_of_singleton. intros [?|?]; [contradiction|discriminate].
    - apply dec_stable in Hl.
      rewrite (bool_decide_eq_false_2 ("question" ∈ keys result)) by exact Hq.
      rewrite bool_decide_eq_true_2; [reflexivity|]. rewrite elem_of_app. now left.
    - apply dec_stable in Hq.
      rewrite (bool_decide_eq_true_2 ("question" ∈ keys result)) by exact Hq.
      now rewrite bool_decide_eq_false_2 by exact Hl.
    - apply dec_stable in Hq. apply dec_stable in Hl.
      rewrite (bool_decide_eq_true_2 ("question" ∈ keys result)) by exact Hq.
      rewrite bool_decide_eq_true_2 by exact Hl. now rewrite app_nil_r. }
  split; [exact Hk|]. rewrite Hk. intros Hnd. apply NoDup_app.
  split; [exact Hnd|]. split.
  - intros k Hin Hin'. apply list_elem_of_filter in Hin' as [Hn _]. contradiction.
  - apply NoDup_filter. apply NoDup_cons. split.
    + rewrite list_elem_of_singleton. discriminate.
    + apply NoDup_singleton.
Qed.

End Answers.

(** ** The setup script *)

Module SetupFacts.
Import Setup.

Section Script.

Variable executable : string.
Variable parse_args : list string -> parsed.
Variable can_make : list event -> string -> bool.
Variable spawn : list event -> list string -> option CompletedProcess.

#[local] Abbreviation pip := (pip_install_requirements executable).
#[local] Abbreviation extra := (pip_install_extra executable).
#[local] Abbreviation tst := (tts_test_command executable).
#[local] Abbreviation script := (script executable parse_args can_make spawn).

#[local] Arguments pip_install_requirements : simpl never.
#[local] Arguments pip_install_extra : simpl never.
#[local] Arguments tts_test_command : simpl never.

Lemma pip_is_not_extra : bool_decide (pip = extra) = false.
Proof. now apply bool_decide_eq_false_2. Qed.

Lemma tst_is_not_extra : bool_decide (tst = extra) = false.
Proof. now apply bool_decide_eq_false_2. Qed.

Lemma tst_is_not_pip : bool_decide (tst = pip) = false.
Proof. now apply bool_decide_eq_false_2. Qed.

Lemma extra_is_not_pip : bool_decide (extra = pip) = false.
Proof. now apply bool_decide_eq_false_2. Qed.

Lemma command_is_itself (cmd : list string) : bool_decide (cmd = cmd) = true.
Proof. now apply bool_decide_eq_true_2. Qed.

Ltac answer :=
  match goal with
  | |- context [can_make ?h ?p] => destruct (can_make h p) eqn:?
  | |- context [spawn ?h ?c] => destruct (spawn h c) as [?|] eqn:?
  | |- context [returncode ?r =? 0] => destruct (returncode r =? 0) eqn:?
  | |- context [skip_deps ?a] => destruct (skip_deps a) eqn:?
  | |- context [extra_deps ?a] => destruct (extra_deps a) eqn:?
  | |- context [skip_test ?a] => destruct (skip_test a) eqn:?
  end.

(** One step of the script: the definitions are unfolded up to the next
    answer of the operating system or the next flag, which [answer]
    takes both ways. *)
Ltac run :=
  cbv beta iota zeta delta
    [Setup.script main bind ret emit raise say create_directories for_each dirs
     os_makedirs subprocess_run install_dependencies test_tts test_and_complete
     completed exit_status app fst snd negb].

Ltac observe :=
  cbv beta iota zeta delta
    [forallb went_well commands directories directories_made returned
     returned_zero existsb omap list_omap app fst snd negb];
  repeat match goal with
         | H : (returncode _ =? 0) = _ |- _ => rewrite !H
         end;
  rewrite ?pip_is_not_extra, ?tst_is_not_extra, ?tst_is_not_pip, ?extra_is_not_pip,
    ?command_is_itself;
  cbv beta iota delta [andb orb].

(** X19. When argparse exits, on [--help] or on a command line it does
    not accept, the script ends with the status of that exit, having
    written what argparse writes and nothing else: no directory is made
    and no command is run. When the command line is parsed, the script
    exits with 0 or 1, and with 0 exactly when every step it took went
    well: every directory was made and every command it ran returned,
    with 0 unless it is the installation of the extra dependencies. *)
Theorem script_exit_status (argv : list string) :
  match parse_args argv with
  | Exits code output => script argv = ([usage output], code)
  | Parsed args =>
      ((script argv).2 = 0 \/ (script argv).2 = 1)
      /\ ((script argv).2 = 0
          <-> forallb (went_well executable) (script argv).1 = true)
  end.
Proof.
  destruct (parse_args argv) as [args|code output] eqn:E.
  - unfold Setup.script, main. rewrite E. run.
    repeat (answer; run); observe;
      (split; [auto | split; [discriminate || reflexivity | discriminate || reflexivity]]).
  - unfold Setup.script, main. rewrite E. reflexivity.
Qed.

(** X20. Once the command line is parsed, the script calls
    [os.makedirs] on its five directories, in their order and before any
    command, and stops at the first that cannot be made. When the five
    are made it runs, in this order: the installation of the
    requirements unless that is skipped; the installation of the extra
    dependencies when it is asked for and the requirements were
    installed with code 0; the TTS test unless that is skipped, and only
    when the installations were skipped, or that of the requirements
    returned 0 and that of the extra dependencies, if asked for,
    returned. It runs no other command and makes no other directory. *)
Theorem script_trace (argv : list string) (args : Namespace) :
  parse_args argv = Parsed args ->
  let trace := (script argv).1 in
  let setup := (create_directories can_make [print "=== AI Calling Agent Setup ==="]).1 in
  exists rest,
    trace = (setup ++ rest)%list
    /\ commands setup = []
    /\ directories rest = []
    /\ directories_made setup `prefix_of` dirs
    /\ directories setup `prefix_of` dirs
    /\ (directories_made setup <> dirs -> rest = [])
    /\ (directories_made setup = dirs ->
        commands rest
        = ((if skip_deps args then []
            else pip :: (if returned_zero pip trace && extra_deps args
                         then [extra] else []))
           ++ (if negb (skip_test args)
                  && (skip_deps args
                      || returned_zero pip trace
                         && (negb (extra_deps args) || returned extra trace))
               then [tst] else []))%list).
Proof.
  intros E. unfold Setup.script, main. rewrite E. run.
  repeat (answer; run);
    (eexists; split; [reflexivity|]); observe;
    (split; [reflexivity|]); (split; [reflexivity|]);
    (split; [eexists; reflexivity|]); (split; [eexists; reflexivity|]);
    (split; [first [reflexivity | intros H; now contradict H] | ]);
    first [discriminate | reflexivity].
Qed.

End Script.

(** *** The script on two machines *)

Section Machines.

Import Sample.

#[local] Abbreviation on_this_machine :=
  (Setup.script "python3" parse_flags makes_all needs_modelscope).

(** The flag [--extra-deps] changes the exit status where the TTS test
    needs the extra dependencies. *)
Example extras_make_the_test_pass :
  (on_this_machine []).2 = 1 /\ (on_this_machine ["--extra-deps"]).2 = 0.
Proof. split; vm_compute; reflexivity. Qed.

Example help_ends_the_script :
  on_this_machine ["--skip-deps"; "--help"] = ([usage usage_line], 0).
Proof. vm_compute. reflexivity. Qed.

Example unknown_flag_ends_the_script :
  on_this_machine ["--verbose"] = ([usage usage_line], 2).
Proof. vm_compute. reflexivity. Qed.

Example skipping_both_runs_nothing :
  commands (on_this_machine ["--skip-deps"; "--skip-test"]).1 = []
  /\ directories_made (on_this_machine ["--skip-deps"; "--skip-test"]).1 = dirs
  /\ (on_this_machine ["--skip-deps"; "--skip-test"]).2 = 0.
Proof. repeat split; vm_compute; reflexivity. Qed.

(** A directory that cannot be made ends the script before any command. *)
Example no_logs_no_commands :
  let '(trace, status) := Setup.script "python3" parse_flags no_logs needs_modelscope [] in
  status = 1
  /\ commands trace = []
  /\ directories_made trace
     = ["app/services/tts/models"; "app/services/tts/models/hindi_female";
        "app/services/tts/models/marathi_female";
        "app/services/tts/models/telugu_female"]
  /\ directories trace = dirs.
Proof. vm_compute. repeat split; reflexivity. Qed.

End Machines.

End SetupFacts.

(** ** Startup and shutdown of the full application *)

Module ApplicationFacts.
Import Application.

(** X21. When the database connects, startup completes whether or not
    the AMI connection is made, and the Rasa client is set in both cases;
    the AMI client is set exactly when its connection was made. The
    shutdown that follows always closes the database connection, and
    disconnects the AMI client exactly when startup connected it. When
    the database does not connect, startup ends with the exception before
    any client is tried or set. *)
Theorem startup_then_shutdown (mongo_up : bool) (ami_error : option string) :
  let '(trace, state, completed) := startup_db_client mongo_up ami_error fresh in
  completed = mongo_up
  /\ (mongo_up = true ->
      rasa_client state = true
      /\ (ami_client state = true <-> ami_error = None)
      /\ AmiConnect ∈ trace /\ RasaClientInit ∈ trace
      /\ CloseMongoConnection ∈ shutdown_db_client state
      /\ (AmiDisconnect ∈ shutdown_db_client state <-> ami_error = None))
  /\ (mongo_up = false ->
      state = fresh /\ (AmiConnect ∉ trace) /\ (RasaClientInit ∉ trace)).
Proof.
  unfold startup_db_client, shutdown_db_client, fresh.
  destruct mongo_up, ami_error as [e|]; simpl; (split; [reflexivity|]); split;
    try discriminate; intros _.
  - repeat split; try discriminate;
      rewrite ?elem_of_cons, ?elem_of_nil; intuition discriminate.
  - repeat split; rewrite ?elem_of_cons, ?elem_of_nil; intuition discriminate.
  - repeat split; rewrite ?elem_of_cons, ?elem_of_nil; intuition discriminate.
  - repeat split; rewrite ?elem_of_cons, ?elem_of_nil; intuition discriminate.
Qed.

End ApplicationFacts.

(** ** The test server *)

Module SimpleServerFacts.
Import SimpleServer.

#[local] Arguments String.append !_ _ /.

Lemma append_assoc (s t u : string) : (s ++ t) ++ u = s ++ t ++ u.
Proof. induction s as [|a s IH]; simpl; [reflexivity | now rewrite IH]. Qed.

Lemma read_escape_char (c : ascii) (t : string) :
  read_string (escape_char c ++ t) = push c (read_string t).
Proof.
  destruct c as [[] [] [] [] [] [] [] []]; reflexivity.
Qed.

Lemma read_escape (s rest : string) :
  read_string (escape s ++ String dquote rest) = Some (s, rest).
Proof.
  induction s as [|c s IH].
  - reflexivity.
  - change (escape (String c s)) with (escape_char c ++ escape s).
    rewrite append_assoc, read_escape_char, IH. reflexivity.
Qed.

Lemma all_chars_app (f : ascii -> bool) (s t : string) :
  PyStr.all_chars f (s ++ t) = PyStr.all_chars f s && PyStr.all_chars f t.
Proof.
  induction s as [|a s IH]; simpl; [reflexivity|]. now rewrite IH, andb_assoc.
Qed.

Lemma escape_char_printable (c : ascii) : PyStr.all_chars printable (escape_char c) = true.
Proof. destruct c as [[] [] [] [] [] [] [] []]; reflexivity. Qed.

Lemma escape_printable (s : string) : PyStr.all_chars printable (escape s) = true.
Proof.
  induction s as [|c s IH]; [reflexivity|].
  change (escape (String c s)) with (escape_char c ++ escape s).
  now rewrite all_chars_app, escape_char_printable, IH.
Qed.

Lemma dumps_two (k1 v1 k2 v2 : string) :
  json_dumps [(k1, v1); (k2, v2)]
  = ("{" ++ json_string k1 ++ ": " ++ json_string v1 ++ ", " ++ json_string k2 ++ ": "
     ++ String dquote "")
    ++ escape v2 ++ String dquote "}".
Proof.
  unfold json_dumps, json_items, json_string. cbn [String.append].
  repeat (rewrite !append_assoc; cbn [String.append]). reflexivity.
Qed.

(** The body of the answer to a path other than [/api/health]. *)
Lemma echo_body (path : string) :
  path <> "/api/health" ->
  json_dumps (response path)
  = ("{" ++ json_string "message" ++ ": " ++ json_string "Hello from simple HTTP server"
     ++ ", " ++ json_string "path" ++ ": " ++ String dquote "")
    ++ escape path ++ String dquote "}".
Proof.
  intros Hne. unfold response.
  destruct (String.eqb_spec path "/api/health") as [|_]; [contradiction|].
  apply dumps_two.
Qed.

(** X22. [do_GET] answers with status 200 and one JSON body in
    printable ASCII, whatever characters [self.path] holds, and the
    answer tells the values of [self.path] apart: two calls of the
    handler write the same answer only when [self.path] is the same. *)
Theorem do_GET_answer (path : string) :
  (exists body,
      do_GET path = [send_response 200;
                     send_header "Content-type" "application/json";
                     end_headers;
                     wfile_write body]
      /\ PyStr.all_chars printable body = true)
  /\ forall path', do_GET path = do_GET path' -> path = path'.
Proof.
  split.
  - eexists. split; [reflexivity|].
    destruct (String.eqb_spec path "/api/health") as [->|Hne]; [reflexivity|].
    rewrite (echo_body path Hne), !all_chars_app, escape_printable. reflexivity.
  - intros path' H0.
    assert (H : json_dumps (response path) = json_dumps (response path'))
      by (unfold do_GET in H0; congruence).
    clear H0. destruct (String.eqb_spec path "/api/health") as [->|Hne];
      destruct (String.eqb_spec path' "/api/health") as [->|Hne']; [reflexivity| | |].
    + rewrite (echo_body path' Hne') in H. discriminate H.
    + rewrite (echo_body path Hne) in H. discriminate H.
    + rewrite (echo_body path Hne), (echo_body path' Hne') in H.
      apply String.app_inj in H. apply (f_equal read_string) in H.
      rewrite !read_escape in H. congruence.
Qed.

End SimpleServerFacts.

(** ** The further properties on concrete requests *)

Import Sample.

(** X1 at a third upload into a store of two documents. *)
Lemma upload_extends_listing_witness :
  wf_store two_documents
  /\ exists resp tasks st',
       upload_document writable true 1700172800 pricing (Some "Prices") "pricing"
         two_documents = (Return resp, tasks, st')
       /\ exists documents documents',
            get_documents (knowledge_glob two_documents) two_documents = Return documents
            /\ get_documents (knowledge_glob st') st' = Return documents'
            /\ length documents = 2%nat
            /\ length documents' = 3%nat
            /\ forall e, e ∈ documents' <->
                 e = listed 1700172800 (fields_of pricing (Some "Prices") "pricing")
                 \/ (e ∈ documents /\ id e <> document_id resp).
Proof.
  assert (H : wf_store two_documents) by apply wf_run, wf_empty.
  split; [exact H|]. do 3 eexists. split; [reflexivity|].
  edestruct (upload_extends_listing writable true 1700172800 pricing (Some "Prices")
               "pricing" two_documents) as (documents & documents' & H1 & H2 & H3);
    [exact H | reflexivity | reflexivity | reflexivity |].
  exists documents, documents'. split; [exact H1|]. split; [exact H2|].
  split; [|split; [|exact H3]].
  - vm_compute in H1. injection H1 as <-. reflexivity.
  - vm_compute in H2. injection H2 as <-. reflexivity.
Defined.

(** X2 at two uploads a day apart. *)
Lemma uploads_of_different_seconds_witness :
  wf_store ∅ /\ 1700000000 <> 1700086400
  /\ exists resp1 resp2 tasks1 tasks2 st1 st2,
       upload_document writable true 1700000000 company_info None "general" ∅
       = (Return resp1, tasks1, st1)
       /\ upload_document writable true 1700086400 services None "services" st1
          = (Return resp2, tasks2, st2)
       /\ document_id resp1 <> document_id resp2
       /\ exists documents e1 e2,
            get_documents (knowledge_glob st2) st2 = Return documents
            /\ e1 ∈ documents /\ id e1 = document_id resp1
            /\ doc_filename e1 = JStr (filename company_info)
            /\ e2 ∈ documents /\ id e2 = document_id resp2
            /\ doc_filename e2 = JStr (filename services).
Proof.
  assert (Hne : 1700000000 <> 1700086400) by discriminate.
  split; [exact wf_empty|]. split; [exact Hne|]. do 6 eexists.
  split; [reflexivity|]. split; [reflexivity|].
  eapply (uploads_of_different_seconds writable true 1700000000 1700086400
            company_info services None None "general" "services" ∅);
    [exact wf_empty | exact Hne | reflexivity | reflexivity | reflexivity].
Defined.

(** X3 at the deletion of the older of two documents. *)
Lemma delete_removes_one_entry_witness :
  wf_store two_documents
  /\ exists documents documents',
       get_documents (knowledge_glob two_documents) two_documents = Return documents
       /\ get_documents (knowledge_glob (delete_document "1700000000" two_documents).2)
            (delete_document "1700000000" two_documents).2 = Return documents'
       /\ forall e, e ∈ documents' <-> e ∈ documents /\ id e <> "1700000000".
Proof.
  assert (H : wf_store two_documents) by apply wf_run, wf_empty.
  split; [exact H|].
  exact (delete_removes_one_entry "1700000000" two_documents
           (knowledge_glob two_documents)
           (knowledge_glob (delete_document "1700000000" two_documents).2)
           H (reflexivity _) (reflexivity _)).
Defined.

(** X4 at the two enumerations of the metadata files of two documents. *)
Lemma listing_order_independent_witness :
  wf_store two_documents
  /\ reverse (knowledge_glob two_documents) <> knowledge_glob two_documents
  /\ reverse (knowledge_glob two_documents) ≡ₚ knowledge_glob two_documents
  /\ get_documents (knowledge_glob two_documents) two_documents
     = get_documents (reverse (knowledge_glob two_documents)) two_documents
  /\ exists documents,
       get_documents (knowledge_glob two_documents) two_documents = Return documents
       /\ StronglySorted strictly_newer documents.
Proof.
  assert (H : wf_store two_documents) by apply wf_run, wf_empty.
  assert (Hp : reverse (knowledge_glob two_documents) ≡ₚ knowledge_glob two_documents)
    by apply reverse_Permutation.
  split; [exact H|]. split; [vm_compute; discriminate|]. split; [exact Hp|].
  exact (listing_order_independent two_documents (knowledge_glob two_documents)
           (reverse (knowledge_glob two_documents)) H (reflexivity _) Hp).
Defined.

(** X5 at the newer of two documents. *)
Lemma listed_documents_can_be_deleted_witness :
  wf_store two_documents
  /\ exists documents e st',
       get_documents (knowledge_glob two_documents) two_documents = Return documents
       /\ e ∈ documents
       /\ id e = "1700086400"
       /\ delete_document (id e) two_documents
          = (Return "Document deleted successfully", st')
       /\ st' !! metadata_path (id e) = None.
Proof.
  assert (H : wf_store two_documents) by apply wf_run, wf_empty.
  split; [exact H|].
  destruct (listing_live two_documents (knowledge_glob two_documents) H (reflexivity _))
    as (documents & Hret & _ & _ & Hmem).
  set (u := {| uf_filename := "services.docx"; uf_description := "";
               uf_category := "services"; uf_size := 2; uf_extension := ".docx" |}).
  assert (He : listed 1700086400 u ∈ documents).
  { apply Hmem. exists 1700086400, u. repeat split; vm_compute; reflexivity. }
  destruct (listed_documents_can_be_deleted two_documents (knowledge_glob two_documents)
              documents (listed 1700086400 u) H (reflexivity _) Hret He) as (st' & Hd & Hn).
  exists documents, (listed 1700086400 u), st'. repeat split; assumption.
Defined.

(** X6 at an upload into a store that has neither file. *)
Lemma upload_then_delete_restores_store_witness :
  two_documents !! metadata_path (PyStr.str 1700172800) = None
  /\ two_documents !! upload_path 1700172800 (filename pricing) = None
  /\ exists resp tasks st',
       upload_document writable true 1700172800 pricing (Some "Prices") "pricing"
         two_documents = (Return resp, tasks, st')
       /\ st' <> two_documents
       /\ delete_document (document_id resp) st'
          = (Return "Document deleted successfully", two_documents).
Proof.
  assert (H1 : two_documents !! metadata_path (PyStr.str 1700172800) = None)
    by (vm_compute; reflexivity).
  assert (H2 : two_documents !! upload_path 1700172800 (filename pricing) = None)
    by (vm_compute; reflexivity).
  split; [exact H1|]. split; [exact H2|]. do 3 eexists.
  split; [reflexivity|]. split.
  - intros E. apply (f_equal (fun m : store => m !! metadata_path (PyStr.str 1700172800))) in E.
    rewrite H1, lookup_insert_eq in E. discriminate.
  - eapply (upload_then_delete_restores_store writable true 1700172800 pricing
              (Some "Prices") "pricing" two_documents); [exact H1 | exact H2 | reflexivity].
Defined.

(** X7 at the repetition of an upload. *)
Lemma upload_retry_idempotent_witness :
  exists resp tasks st',
    upload_document writable true 1700172800 pricing None "pricing" two_documents
    = (Return resp, tasks, st')
    /\ upload_document writable true 1700172800 pricing None "pricing" st'
       = (Return resp, tasks, st').
Proof.
  do 3 eexists. split; [reflexivity|].
  eapply (upload_retry_idempotent writable true 1700172800 pricing None "pricing"
            two_documents). reflexivity.
Defined.

(** X8 at an upload with the document processor and without it. *)
Lemma upload_stores_and_schedules_witness :
  (exists resp st',
      upload_document writable true 1700172800 pricing None "pricing" ∅
      = (Return resp, ["app/uploads/1700172800_price_list.XLSX"], st')
      /\ processing resp = true)
  /\ (exists resp st',
         upload_document writable false 1700172800 pricing None "pricing" ∅
         = (Return resp, [], st')
         /\ processing resp = false)
  /\ exists resp tasks st' path d size,
       upload_document writable true 1700172800 pricing None "pricing" ∅
       = (Return resp, tasks, st')
       /\ json_load st' (metadata_path (document_id resp)) = Some d
       /\ dict_get "path" d = Some (JStr path)
       /\ st' !! path = Some (FBytes (file_data pricing))
       /\ dict_get "size" d = Some (JInt size)
       /\ getsize st' path = Some size
       /\ size = Z.of_nat (length (file_data pricing))
       /\ tasks = (if processing resp then [path] else [])
       /\ processing resp = true
       /\ up_filename resp = filename pricing
       /\ up_category resp = "pricing".
Proof.
  split; [do 2 eexists; split; reflexivity|].
  split; [do 2 eexists; split; reflexivity|].
  do 3 eexists.
  edestruct (upload_stores_and_schedules writable true 1700172800 pricing None "pricing" ∅)
    as (path & d & size & H); [reflexivity|].
  exists path, d, size. split; [reflexivity | exact H].
Defined.

(** X9 at a copy that is broken off after the first byte: the answer is
    500 and the content file is left with that byte. *)
Lemma upload_error_leaves_no_record_witness :
  let up := upload_path 1700000000 (filename company_info) in
  let st' := <[up := FBytes [Byte.x50]]> two_documents in
  Os.upload_document breaks_copy true 1700000000 company_info None "general" two_documents
  = (Raise 500 "Failed to save file", [], st')
  /\ st' <> two_documents
  /\ @nil string = []
  /\ (forall p, p <> up -> st' !! p = two_documents !! p)
  /\ ((500 = 400 /\ (file_ext (filename company_info) ∉ allowed_extensions)
       /\ st' = two_documents)
      \/ (500 = 500 /\ file_ext (filename company_info) ∈ allowed_extensions
          /\ ((Os.open_write breaks_copy up = Os.Refused /\ st' = two_documents)
              \/ exists written,
                   Os.open_write breaks_copy up = Os.Failed written
                   /\ st' = <[up := FBytes (default (file_data company_info) written)]>
                             two_documents))).
Proof.
  cbv zeta.
  assert (H : Os.upload_document breaks_copy true 1700000000 company_info None "general"
                two_documents
              = (Raise 500 "Failed to save file", [],
                 <[upload_path 1700000000 (filename company_info) := FBytes [Byte.x50]]>
                   two_documents))
    by reflexivity.
  split; [exact H|]. split.
  - intros E.
    assert (E' : (<[upload_path 1700000000 (filename company_info) := FBytes [Byte.x50]]>
                    two_documents) !! upload_path 1700000000 (filename company_info)
                 = two_documents !! upload_path 1700000000 (filename company_info))
      by now rewrite E.
    rewrite lookup_insert_eq in E'. vm_compute in E'. discriminate.
  - exact (upload_error_leaves_no_record true breaks_copy 1700000000 company_info None
             "general" two_documents _ 500 "Failed to save file" [] H).
Defined.

(** X11 at a run with a lost metadata file, a broken copy and a deletion
    that fails half way: the one entry of the listing is the record of
    the first upload, and its content file exists. The file holds the
    three bytes of the second upload, while the entry shows the size of
    the first. *)
Lemma listing_along_runs_witness :
  let st := Os.serve true troubled_run ∅ in
  knowledge_glob st ≡ₚ knowledge_glob st
  /\ get_documents (knowledge_glob st) st
     = Return [listed 1700000000 (fields_of services None "services")]
  /\ uf_size (fields_of services None "services") = 2
  /\ getsize st (upload_path 1700000000 (filename services)) = Some 3
  /\ exists documents,
       get_documents (knowledge_glob st) st = Return documents
       /\ StronglySorted newest_first documents
       /\ forall e, e ∈ documents ->
            exists (ts : Z) (fname : string) (d : dict),
              id e = PyStr.str ts
              /\ doc_upload_time e = JInt ts
              /\ doc_filename e = JStr fname
              /\ doc_extension e = JStr (file_ext fname)
              /\ file_ext fname ∈ allowed_extensions
              /\ json_load st (metadata_path (id e)) = Some d
              /\ dict_get "path" d = Some (JStr (upload_path ts fname))
              /\ is_Some (st !! upload_path ts fname).
Proof.
  cbv zeta. split; [reflexivity|]. split; [vm_compute; reflexivity|].
  split; [reflexivity|]. split; [vm_compute; reflexivity|].
  exact (listing_along_runs true troubled_run
           (knowledge_glob (Os.serve true troubled_run ∅)) (reflexivity _)).
Defined.


(** X15 at an accepted name. *)
Lemma accepted_file_names_witness :
  (forall detail,
      (upload_document writable true 1700172800 pricing None "pricing" ∅).1.1
      <> Raise 400 detail)
  /\ exists root ext,
       filename pricing = root ++ ext
       /\ root <> ""
       /\ PyStr.lower ext ∈ allowed_extensions
       /\ PyStr.startswith "." ext = true.
Proof.
  assert (H : forall detail,
             (upload_document writable true 1700172800 pricing None "pricing" ∅).1.1
             <> Raise 400 detail) by (intros detail; discriminate).
  split; [exact H|].
  exact (accepted_file_names writable true 1700172800 pricing None "pricing" ∅ H).
Defined.

(** X17 at two calls of one second and a call of the next. *)
Lemma call_id_is_the_second_witness :
  exists r1 r2 r3,
    simulate_call 1700000000 "+911234567890" "hi" "indic" = ([Sleep 1], Return r1)
    /\ simulate_call 1700000000 "+919876543210" "en" "auto" = ([Sleep 1], Return r2)
    /\ simulate_call 1700000001 "+919876543210" "en" "auto" = ([Sleep 1], Return r3)
    /\ call_id r1 = call_id r2
    /\ call_id r2 <> call_id r3.
Proof.
  do 3 eexists. split; [reflexivity|]. split; [reflexivity|]. split; [reflexivity|].
  split.
  - apply (call_id_is_the_second 1700000000 1700000000 "+911234567890" "+919876543210"
             "hi" "en" "indic" "auto" [Sleep 1] [Sleep 1] _ _ eq_refl eq_refl).
    reflexivity.
  - intros E.
    apply (call_id_is_the_second 1700000000 1700000001 "+919876543210" "+919876543210"
             "en" "en" "auto" "auto" [Sleep 1] [Sleep 1] _ _ eq_refl eq_refl) in E.
    discriminate E.
Defined.

(** X18 at a knowledge base whose answer has a [question] key of its
    own. *)
Lemma answer_question_keys_witness :
  exists body dp2,
    @answer_question true _ _ knowledge_base "What services do you offer?" "en" []
    = (Return body, dp2)
    /\ keys body = ["answer"; "sources"; "question"; "language"]
    /\ dict_get "question" body = Some (AStr "What services do you offer?")
    /\ exists result dp1,
         @get_answer_from_knowledge_base _ _ knowledge_base
           "What services do you offer?" dp1 = (result, dp2)
         /\ keys body
            = (keys result
               ++ filter (fun k => k ∉ keys result) ["question"; "language"])%list
         /\ (NoDup (keys result) -> NoDup (keys body)).
Proof.
  do 2 eexists. split; [reflexivity|]. split; [reflexivity|]. split; [reflexivity|].
  eapply (@answer_question_keys _ _ knowledge_base "What services do you offer?" "en" []).
  reflexivity.
Defined.

(** X20 on a machine where the TTS test needs [modelscope], with
    [--extra-deps]: the three commands are run, in their order. *)
Lemma script_trace_witness :
  let script := Setup.script "python3" parse_flags makes_all needs_modelscope in
  let setup := (Setup.create_directories makes_all
                  [Setup.print "=== AI Calling Agent Setup ==="]).1 in
  parse_flags ["--extra-deps"]
  = Setup.Parsed {| Setup.skip_deps := false; Setup.extra_deps := true;
                    Setup.skip_test := false |}
  /\ Setup.commands (script ["--extra-deps"]).1
     = [Setup.pip_install_requirements "python3"; Setup.pip_install_extra "python3";
        Setup.tts_test_command "python3"]
  /\ Setup.directories_made setup = Setup.dirs
  /\ exists rest,
       (script ["--extra-deps"]).1 = (setup ++ rest)%list
       /\ Setup.commands setup = []
       /\ Setup.directories rest = []
       /\ Setup.directories_made setup `prefix_of` Setup.dirs
       /\ Setup.directories setup `prefix_of` Setup.dirs
       /\ (Setup.directories_made setup <> Setup.dirs -> rest = [])
       /\ (Setup.directories_made setup = Setup.dirs ->
           Setup.commands rest
           = [Setup.pip_install_requirements "python3"; Setup.pip_install_extra "python3";
              Setup.tts_test_command "python3"]).
Proof.
  cbv zeta.
  assert (H : parse_flags ["--extra-deps"]
              = Setup.Parsed {| Setup.skip_deps := false; Setup.extra_deps := true;
                                Setup.skip_test := false |})
    by (vm_compute; reflexivity).
  split; [exact H|]. split; [vm_compute; reflexivity|]. split; [reflexivity|].
  destruct (SetupFacts.script_trace "python3" parse_flags makes_all needs_modelscope
              ["--extra-deps"] _ H) as (rest & H1 & H2 & H3 & H4 & H5 & H6 & H7).
  exists rest. split; [exact H1|]. split; [exact H2|]. split; [exact H3|].
  split; [exact H4|]. split; [exact H5|]. split; [exact H6|].
  intros Hd. rewrite (H7 Hd). vm_compute. reflexivity.
Defined.
